(** * dexec: container-backed command execution, checked against its code

    A shallow embedding of the Go package [dexec]: the generic command
    ([GenericCmd], [Start], [Wait], [Run], [Output], the pipe constructors),
    the two execution strategies ([createContainer] over the Docker daemon,
    [createTask] over containerd), the mount translation of the factory and
    the containerd statistics snapshot.

    Conventions of the embedding:
    - a Go [error] is a value of the inductive type [error]; a possibly-nil
      error is [option error];
    - a Go interface value that may be nil ([io.Reader], [io.Writer], a
      containerd object) is an [option];
    - a method with a pointer receiver is a function from the receiver's state
      to a result and a new state;
    - a nil-interface method call is a run-time panic: results are wrapped in
      [outcome], and deferred calls are run on the panicking path too. *)

From Stdlib Require Import ZArith List String Ascii Strings.Byte Bool Lia.
From Stdlib Require Import DecimalString.
From Stdlib Require DecimalPos.
From Stdlib Require Floats.SpecFloat.
From stdpp Require Import base option list gmap strings.

Local Open Scope Z_scope.
Local Open Scope string_scope.

(** Go's [[]byte]. *)
Abbreviation bytes := (list byte).

(** [[]byte(s)] for a string literal. *)
Definition bytes_of (s : string) : bytes := list_byte_of_string s.

(** ** Errors *)

(** Go error values, as far as the package builds and inspects them.
    [errors_New] is [errors.New], [Wrap msg e] is both [fmt.Errorf("msg: %w", e)]
    and pkg/errors' [errors.Wrap(e, "msg")], [Errorf_v format e] is
    [fmt.Errorf(format, e)] for a format with [%v] (the chain is cut), [ErrNotFound] is the
    sentinel [errdefs.ErrNotFound], [context_Canceled] is [context.Canceled],
    [NoSuchContainer] and [ContainerNotRunning] are the Docker client's
    [*docker.NoSuchContainer] and [*docker.ContainerNotRunning].

    Modelled from the spec: the declaration of [ExitError] is not among the
    sources; the spec gives it as [ExitError{ExitCode:int, Stderr:bytes?}],
    and the code builds it as [&ExitError{ExitCode: ec}] and assigns
    [ee.Stderr]. *)
Inductive error : Type :=
| errors_New (msg : string)
| ErrNotFound
| context_Canceled
| Wrap (msg : string) (cause : error)
| Errorf_v (format : string) (arg : error)
| NoSuchContainer (id : string)
| ContainerNotRunning (id : string)
| ExitError (ExitCode : Z) (Stderr : bytes).

(** [errors.Is(err, errdefs.ErrNotFound)]: walks the [%w] chain. *)
Fixpoint IsNotFound (err : error) : bool :=
  match err with
  | ErrNotFound => true
  | Wrap _ cause => IsNotFound cause
  | _ => false
  end.

(** [errors.As(err, &nsc)] for [nsc *docker.NoSuchContainer]. *)
Fixpoint As_NoSuchContainer (err : error) : bool :=
  match err with
  | NoSuchContainer _ => true
  | Wrap _ cause => As_NoSuchContainer cause
  | _ => false
  end.

(** [errors.As(err, &cnr)] for [cnr *docker.ContainerNotRunning]. *)
Fixpoint As_ContainerNotRunning (err : error) : bool :=
  match err with
  | ContainerNotRunning _ => true
  | Wrap _ cause => As_ContainerNotRunning cause
  | _ => false
  end.

(** pkg/errors' [errors.Wrap(err, msg)]: nil stays nil. *)
Definition errors_Wrap (err : option error) (msg : string) : option error :=
  match err with
  | None => None
  | Some e => Some (Wrap msg e)
  end.

(** Outcome of a call: it returns, or it panics (nil dereference), or it
    blocks for ever (a receive that no sender ever serves). *)
Inductive outcome (A : Type) : Type :=
| Return (a : A)
| Panic
| Blocked.
Arguments Return {A} a.
Arguments Panic {A}.
Arguments Blocked {A}.

(** ** Streams *)

(** The [io.Reader] values a command can hold: the package's [empty] reader ([emptyReader]),
    the read end of a pipe made by [StdinPipe], or a reader of the caller. *)
Inductive Reader : Type :=
| emptyReader
| PipeReader (p : nat)
| UserReader (u : nat).

(** The [io.Writer] values a command can hold: [ioutil.Discard], a
    [*bytes.Buffer] allocated by [Output]/[CombinedOutput], the write end of a
    pipe made by the package, or a sink of the caller. *)
Inductive Writer : Type :=
| ioutil_Discard
| Buffer (a : nat)
| PipeWriter (p : nat)
| UserWriter (u : nat).

#[global] Instance Writer_eq_dec : EqDecision Writer.
Proof. solve_decision. Defined.
#[global] Instance Reader_eq_dec : EqDecision Reader.
Proof. solve_decision. Defined.

(** The contents of the [bytes.Buffer]s, by address. *)
Abbreviation Buffers := (gmap nat bytes).

(** [b.Bytes()]. *)
Definition Buffer_Bytes (a : nat) (bufs : Buffers) : bytes :=
  default [] (bufs !! a).

(** [w.Write(p)] as the runtime's stream copy performs it. *)
Definition Write (w : option Writer) (p : bytes) (bufs : Buffers) : Buffers :=
  match w with
  | Some (Buffer a) => <[a := (Buffer_Bytes a bufs ++ p)%list]> bufs
  | _ => bufs
  end.

(** A chunk of container output, as the runtime copies it to the streams of
    the command. *)
Inductive chunk : Type :=
| to_stdout (p : bytes)
| to_stderr (p : bytes).

(** The stream copy of an attachment: each chunk is written to the stream it
    belongs to. *)
Definition copy_streams (stdout stderr : option Writer) (out : list chunk)
    (b : Buffers) : Buffers :=
  foldl (fun b k =>
           match k with
           | to_stdout p => Write stdout p b
           | to_stderr p => Write stderr p b
           end) b out.

(** ** The strategy interface *)

(** [Execution[T]] of execution.go. [T] is the client, [S] the state behind
    the strategy's pointer receiver. [run] and [wait] also see the buffers:
    the runtime copies the container's output into the writers given to
    [run]. *)
Class Execution (T S : Type) : Type := {
  create : T -> list string -> S -> outcome (option error) * S;
  run : T -> option Reader -> option Writer -> option Writer ->
        S -> Buffers -> outcome (option error) * S * Buffers;
  wait : T -> S -> Buffers -> outcome (Z * option error) * S * Buffers;
  setEnv : list string -> S -> outcome (option error) * S;
  setDir : string -> S -> outcome (option error) * S;
  getID : S -> outcome string * S;
  kill : T -> S -> outcome (option error) * S;
  cleanup : T -> S -> outcome (option error) * S
}.

(** ** The generic command *)

(** What the command does to the outside, in order: the calls on its
    [Method] and the [Close] calls of [closeFds]. *)
Inductive event : Type :=
| call_setDir (dir : string)
| call_setEnv (env : list string)
| call_create (cmd : list string)
| call_run (stdin : option Reader) (stdout stderr : option Writer)
| call_wait
| call_kill
| call_cleanup
| call_getID
| Close (fd : Writer).

#[global] Instance event_eq_dec : EqDecision event.
Proof. solve_decision. Defined.

(** The heap the command lives in: buffer contents, the allocator of
    [bytes.Buffer]s and pipes, and the trace of events so far. *)
Record World : Type := mkWorld {
  bufs : Buffers;
  next : nat;
  trace : list event
}.

Definition World_init : World := mkWorld ∅ 0 [].

(** [GenericCmd[T]]. A nil [Env] is [None]. *)
Record GenericCmd (T S : Type) : Type := mkCmd {
  Path : string;
  Args : list string;
  Env : option (list string);
  Dir : string;
  Stdin : option Reader;
  Stdout : option Writer;
  Stderr : option Writer;
  started : bool;
  Method : S;
  closeAfterWait : list Writer;
  client : T
}.
Arguments mkCmd {T S}.
Arguments Path {T S}.
Arguments Args {T S}.
Arguments Env {T S}.
Arguments Dir {T S}.
Arguments Stdin {T S}.
Arguments Stdout {T S}.
Arguments Stderr {T S}.
Arguments started {T S}.
Arguments Method {T S}.
Arguments closeAfterWait {T S}.
Arguments client {T S}.

Section GenericCmd.
Context {T S : Type} `{!Execution T S}.

Abbreviation Cmd := (GenericCmd T S).

(** Field assignments [g.f = v]. *)
Definition set_Dir (v : string) (g : Cmd) : Cmd :=
  mkCmd (Path g) (Args g) (Env g) v (Stdin g) (Stdout g) (Stderr g)
        (started g) (Method g) (closeAfterWait g) (client g).
Definition set_Env (v : option (list string)) (g : Cmd) : Cmd :=
  mkCmd (Path g) (Args g) v (Dir g) (Stdin g) (Stdout g) (Stderr g)
        (started g) (Method g) (closeAfterWait g) (client g).
Definition set_Stdin (v : option Reader) (g : Cmd) : Cmd :=
  mkCmd (Path g) (Args g) (Env g) (Dir g) v (Stdout g) (Stderr g)
        (started g) (Method g) (closeAfterWait g) (client g).
Definition set_Stdout (v : option Writer) (g : Cmd) : Cmd :=
  mkCmd (Path g) (Args g) (Env g) (Dir g) (Stdin g) v (Stderr g)
        (started g) (Method g) (closeAfterWait g) (client g).
Definition set_Stderr (v : option Writer) (g : Cmd) : Cmd :=
  mkCmd (Path g) (Args g) (Env g) (Dir g) (Stdin g) (Stdout g) v
        (started g) (Method g) (closeAfterWait g) (client g).
Definition set_started (v : bool) (g : Cmd) : Cmd :=
  mkCmd (Path g) (Args g) (Env g) (Dir g) (Stdin g) (Stdout g) (Stderr g)
        v (Method g) (closeAfterWait g) (client g).
Definition set_Method (v : S) (g : Cmd) : Cmd :=
  mkCmd (Path g) (Args g) (Env g) (Dir g) (Stdin g) (Stdout g) (Stderr g)
        (started g) v (closeAfterWait g) (client g).
Definition set_closeAfterWait (v : list Writer) (g : Cmd) : Cmd :=
  mkCmd (Path g) (Args g) (Env g) (Dir g) (Stdin g) (Stdout g) (Stderr g)
        (started g) (Method g) v (client g).

Definition log (e : event) (w : World) : World :=
  mkWorld (bufs w) (next w) (trace w ++ [e]).
Definition set_bufs (b : Buffers) (w : World) : World :=
  mkWorld b (next w) (trace w).

(** A method of the command: it reads and writes the command behind its
    receiver [g] and the world, and returns, panics or blocks. *)
Definition M (A : Type) : Type := Cmd * World -> outcome A * (Cmd * World).

#[global] Instance M_ret : MRet M := fun A a st => (Return a, st).

#[global] Instance M_bind : MBind M := fun A B k m st =>
  match m st with
  | (Return a, st') => k a st'
  | (Panic, st') => (Panic, st')
  | (Blocked, st') => (Blocked, st')
  end.

(** [if err := m; err != nil { return err }]. *)
Notation "'check' m ; k" :=
  (m ≫= (fun r => match r with Some err => mret (Some err) | None => k end))
  (at level 20, m at level 100, k at level 200, only parsing,
   right associativity).

Definition receiver : M Cmd := fun st => (Return (fst st), st).
Definition assign (f : Cmd -> Cmd) : M unit :=
  fun st => (Return tt, (f (fst st), snd st)).

(** [defer d] around a body: [d] runs when the body returns and when it
    panics; a body that blocks never reaches it. *)
Definition defer {A} (d : Cmd * World -> Cmd * World) (body : M A) : M A :=
  fun st =>
    match body st with
    | (Blocked, st') => (Blocked, st')
    | (r, st') => (r, d st')
    end.

(** The calls [g.Method.m(...)]: the method runs on the strategy's state,
    which is updated in place, and the call is recorded. *)
Definition invoke {A} (e : event) (f : S -> outcome A * S) : M A :=
  fun '(g, w) =>
    let '(r, m') := f (Method g) in
    (r, (set_Method m' g, log e w)).

Definition invoke_io {A} (e : event)
    (f : S -> Buffers -> outcome A * S * Buffers) : M A :=
  fun '(g, w) =>
    let '(r, m', b') := f (Method g) (bufs w) in
    (r, (set_Method m' g, set_bufs b' (log e w))).

(** [io.Pipe()]: a fresh pipe. *)
Definition io_Pipe : M (Reader * Writer) := fun '(g, w) =>
  let p := next w in
  (Return (PipeReader p, PipeWriter p),
   (g, mkWorld (bufs w) (Datatypes.S p) (trace w))).

(** [var b bytes.Buffer]: a fresh, empty buffer. *)
Definition new_Buffer : M nat := fun '(g, w) =>
  let a := next w in
  (Return a, (g, mkWorld (<[a := []]> (bufs w)) (Datatypes.S a) (trace w))).

Definition Buffer_contents (a : nat) : M bytes :=
  fun st => (Return (Buffer_Bytes a (bufs (snd st))), st).

(** [closeFds]. *)
Fixpoint closeFds (l : list Writer) (st : Cmd * World) : Cmd * World :=
  match l with
  | [] => st
  | fd :: l' => closeFds l' (fst st, log (Close fd) (snd st))
  end.

Definition Start : M (option error) :=
  g ← receiver;
  check (if decide (Dir g = "") then mret None
         else invoke (call_setDir (Dir g)) (setDir (Dir g)));
  check (match Env g with
         | None => mret None
         | Some env => invoke (call_setEnv env) (setEnv env)
         end);
  g ← receiver;
  if started g then mret (Some (errors_New "dexec: already started")) else
  assign (set_started true);;
  assign (fun g => if Stdin g is None then set_Stdin (Some emptyReader) g else g);;
  assign (fun g => if Stdout g is None
                   then set_Stdout (Some ioutil_Discard) g else g);;
  assign (fun g => if Stderr g is None
                   then set_Stderr (Some ioutil_Discard) g else g);;
  g ← receiver;
  let cmd := Path g :: Args g in
  check invoke (call_create cmd) (create (client g) cmd);
  g ← receiver;
  check invoke_io (call_run (Stdin g) (Stdout g) (Stderr g))
                  (run (client g) (Stdin g) (Stdout g) (Stderr g));
  mret None.

Definition Wait : M (option error) :=
  g ← receiver;
  defer (closeFds (closeAfterWait g))
    (g ← receiver;
     if negb (started g) then mret (Some (errors_New "dexec: not started")) else
     r ← invoke_io call_wait (wait (client g));
     match r with
     | (_, Some err) => mret (Some err)
     | (ec, None) =>
         if decide (ec = 0) then mret None else mret (Some (ExitError ec []))
     end).

Definition Run : M (option error) :=
  check Start;
  Wait.

Definition CombinedOutput : M (bytes * option error) :=
  g ← receiver;
  if Stdout g is Some _
  then mret ([], Some (errors_New "dexec: Stdout already set")) else
  if Stderr g is Some _
  then mret ([], Some (errors_New "dexec: Stderr already set")) else
  b ← new_Buffer;
  assign (fun g => set_Stderr (Some (Buffer b)) (set_Stdout (Some (Buffer b)) g));;
  err ← Run;
  out ← Buffer_contents b;
  mret (out, err).

Definition Output : M (bytes * option error) :=
  g ← receiver;
  if Stdout g is Some _
  then mret ([], Some (errors_New "dexec: Stdout already set")) else
  stdout ← new_Buffer;
  stderr ← new_Buffer;
  assign (set_Stdout (Some (Buffer stdout)));;
  g ← receiver;
  let captureErr := if Stderr g is None then true else false in
  (if captureErr then assign (set_Stderr (Some (Buffer stderr))) else mret tt);;
  err ← Run;
  captured ← Buffer_contents stderr;
  let err :=
    match err with
    | Some (ExitError ec _) =>
        if captureErr then Some (ExitError ec captured) else err
    | _ => err
    end in
  out ← Buffer_contents stdout;
  mret (out, err).

Definition StdinPipe : M (option Writer * option error) :=
  g ← receiver;
  if Stdin g is Some _
  then mret (None, Some (errors_New "dexec: Stdin already set")) else
  '(pr, pw) ← io_Pipe;
  assign (set_Stdin (Some pr));;
  mret (Some pw, None).

Definition StdoutPipe : M (option Reader * option error) :=
  g ← receiver;
  if Stdout g is Some _
  then mret (None, Some (errors_New "dexec: Stdout already set")) else
  '(pr, pw) ← io_Pipe;
  assign (set_Stdout (Some pw));;
  assign (fun g => set_closeAfterWait (closeAfterWait g ++ [pw]) g);;
  mret (Some pr, None).

Definition StderrPipe : M (option Reader * option error) :=
  g ← receiver;
  if Stderr g is Some _
  then mret (None, Some (errors_New "dexec: Stderr already set")) else
  '(pr, pw) ← io_Pipe;
  assign (set_Stderr (Some pw));;
  assign (fun g => set_closeAfterWait (closeAfterWait g ++ [pw]) g);;
  mret (Some pr, None).

Definition GetPID : M string :=
  g ← receiver;
  if started g then invoke call_getID getID else mret "".

Definition SetDir (dir : string) : M unit := assign (set_Dir dir).

Definition SetStderr (writer : option Writer) : M unit :=
  assign (set_Stderr writer).

Definition Kill : M (option error) :=
  g ← receiver;
  if started g then invoke call_kill (kill (client g)) else mret None.

Definition Cleanup : M (option error) :=
  g ← receiver;
  invoke call_cleanup (cleanup (client g)).

End GenericCmd.

(** ** Configuration and mounts (the neutral records of the factory) *)

Record Mount : Type := mkMount {
  Type_ : string;
  Source : string;
  Destination : string;
  Options : list string
}.

Record CommandDetails : Type := mkCommandDetails {
  ExecutorId : Z;
  ChainExecutorId : Z;
  ResultId : Z
}.

(** The part of github.com/fsouza/go-dockerclient the package uses. *)
Module docker.

Record HostMount : Type := mkHostMount {
  Type_ : string;
  Source : string;
  Target : string
}.

Record Config : Type := mkConfig {
  Image : string;
  User : string;
  Env : list string;
  WorkingDir : string;
  Cmd : list string;
  Entrypoint : list string;
  AttachStdin : bool;
  AttachStdout : bool;
  AttachStderr : bool;
  OpenStdin : bool;
  StdinOnce : bool
}.

Record HostConfig : Type := mkHostConfig {
  DNS : list string;
  DNSSearch : list string;
  DNSOptions : list string;
  Mounts : list HostMount
}.

Record CreateContainerOptions : Type := mkCreateContainerOptions {
  Config_ : Config;
  HostConfig_ : HostConfig
}.

(** The streams of an attachment, as [AttachToContainerOptions] names
    them. *)
Record CloseWaiter : Type := mkCloseWaiter {
  OutputStream : option Writer;
  ErrorStream : option Writer
}.

(** The requests the daemon receives. *)
Inductive request : Type :=
| CreateContainer (opts : CreateContainerOptions)
| StartContainer (id : string)
| AttachToContainerNonBlocking (id : string)
| WaitContainer (id : string)
| StopContainer (id : string) (timeout : Z)
| RemoveContainer (id : string) (force : bool).

(** The daemon behind a [*docker.Client], as a test double: its answer to
    each request, and the output the container produces (copied to the
    attached streams by the time [cw.Wait()] returns). *)
Record Client : Type := mkClient {
  on_CreateContainer : CreateContainerOptions -> string + error;
  on_StartContainer : string -> option error;
  on_Attach : string -> option error;
  on_cw_Wait : option error;
  output : list chunk;
  on_WaitContainer : string -> Z + error;
  on_StopContainer : string -> option error;
  on_RemoveContainer : string -> bool -> option error
}.

End docker.

(** [Docker] of docker.go: the wrapper around the client. *)
Abbreviation Docker := docker.Client.

(** ** The daemon-container strategy *)

Module createContainer.

(** [createContainer]: the receiver of the strategy. [requests] is the log
    of what the daemon was asked, kept with the strategy's state. *)
Record t : Type := mk {
  opt : docker.CreateContainerOptions;
  cmd : list string;
  id : string;
  cw : option docker.CloseWaiter;
  requests : list docker.request
}.

(** [ByCreatingContainer(opts)] for a non-nil [opts.Config]. *)
Definition ByCreatingContainer (opts : docker.CreateContainerOptions) : t :=
  mk opts [] "" None [].

Definition set_Config (f : docker.Config -> docker.Config) (c : t) : t :=
  mk (docker.mkCreateContainerOptions (f (docker.Config_ (opt c)))
                                      (docker.HostConfig_ (opt c)))
     (cmd c) (id c) (cw c) (requests c).

Definition Config_with_Env (v : list string) (k : docker.Config) : docker.Config :=
  docker.mkConfig (docker.Image k) (docker.User k) v (docker.WorkingDir k)
    (docker.Cmd k) (docker.Entrypoint k) (docker.AttachStdin k)
    (docker.AttachStdout k) (docker.AttachStderr k) (docker.OpenStdin k)
    (docker.StdinOnce k).

Definition Config_with_WorkingDir (v : string) (k : docker.Config) : docker.Config :=
  docker.mkConfig (docker.Image k) (docker.User k) (docker.Env k) v
    (docker.Cmd k) (docker.Entrypoint k) (docker.AttachStdin k)
    (docker.AttachStdout k) (docker.AttachStderr k) (docker.OpenStdin k)
    (docker.StdinOnce k).

(** The assignments of [create]: attach everything, clear [Cmd], set the
    entrypoint. *)
Definition Config_for_create (entry : list string) (k : docker.Config) : docker.Config :=
  docker.mkConfig (docker.Image k) (docker.User k) (docker.Env k)
    (docker.WorkingDir k) [] entry true true true true true.

Definition ask (r : docker.request) (c : t) : t :=
  mk (opt c) (cmd c) (id c) (cw c) (requests c ++ [r]).

Definition setEnv (env : list string) (c : t) : outcome (option error) * t :=
  if decide (0 < length (docker.Env (docker.Config_ (opt c))))%nat
  then (Return (Some (errors_New "dexec: Config.Env already set")), c)
  else (Return None, set_Config (Config_with_Env env) c).

Definition setDir (dir : string) (c : t) : outcome (option error) * t :=
  if decide (docker.WorkingDir (docker.Config_ (opt c)) = "")
  then (Return None, set_Config (Config_with_WorkingDir dir) c)
  else (Return (Some (errors_New "dexec: Config.WorkingDir already set")), c).

Definition create (d : Docker) (cmd' : list string) (c : t)
  : outcome (option error) * t :=
  let c := mk (opt c) cmd' (id c) (cw c) (requests c) in
  if decide (0 < length (docker.Cmd (docker.Config_ (opt c))))%nat
  then (Return (Some (errors_New "dexec: Config.Cmd already set")), c) else
  if decide (0 < length (docker.Entrypoint (docker.Config_ (opt c))))%nat
  then (Return (Some (errors_New "dexec: Config.Entrypoint already set")), c) else
  let c := set_Config (Config_for_create cmd') c in
  let c := ask (docker.CreateContainer (opt c)) c in
  match docker.on_CreateContainer d (opt c) with
  | inr err =>
      (Return (Some (Errorf_v "dexec: failed to create container: %v" err)), c)
  | inl container_ID =>
      (Return None, mk (opt c) (cmd c) container_ID (cw c) (requests c))
  end.

(** [run]. The inspection of the container between start and attach only
    writes to the log of the process and is left out. *)
Definition run (d : Docker) (stdin : option Reader) (stdout stderr : option Writer)
    (c : t) (b : Buffers) : outcome (option error) * t * Buffers :=
  if decide (id c = "")
  then (Return (Some (errors_New "dexec: container is not created")), c, b) else
  let c := ask (docker.StartContainer (id c)) c in
  match docker.on_StartContainer d (id c) with
  | Some err =>
      (Return (Some (Errorf_v "dexec: failed to start container:  %v" err)), c, b)
  | None =>
      let c := ask (docker.AttachToContainerNonBlocking (id c)) c in
      match docker.on_Attach d (id c) with
      | Some err =>
          (Return (Some (Errorf_v "dexec: failed to attach container: %v" err)), c, b)
      | None =>
          (Return None,
           mk (opt c) (cmd c) (id c)
              (Some (docker.mkCloseWaiter stdout stderr)) (requests c), b)
      end
  end.

Definition del (d : Docker) (c : t) : option error * t :=
  (docker.on_RemoveContainer d (id c) true,
   ask (docker.RemoveContainer (id c) true) c).

(** [wait]: [defer del()] runs on every path, its result dropped. *)
Definition wait (d : Docker) (c : t) (b : Buffers)
  : outcome (Z * option error) * t * Buffers :=
  let deferred_del (r : outcome (Z * option error) * t * Buffers) :=
    let '(o, c, b) := r in (o, snd (del d c), b) in
  deferred_del
    match cw c with
    | None =>
        (Return (-1, Some (errors_New "dexec: container is not attached")), c, b)
    | Some a =>
        let b := copy_streams (docker.OutputStream a) (docker.ErrorStream a)
                               (docker.output d) b in
        match docker.on_cw_Wait d with
        | Some err => (Return (-1, Some (Errorf_v "dexec: attach error: %v" err)), c, b)
        | None =>
            let c := ask (docker.WaitContainer (id c)) c in
            match docker.on_WaitContainer d (id c) with
            | inr err =>
                (Return (-1, Some (Errorf_v "dexec: cannot wait for container: %v" err)),
                 c, b)
            | inl ec =>
                match del d c with
                | (Some err, c) =>
                    (Return (-1, Some (Errorf_v "dexec: error deleting container: %v" err)),
                     c, b)
                | (None, c) => (Return (ec, None), c, b)
                end
            end
        end
    end.

Definition getID (c : t) : outcome string * t := (Return (id c), c).

Definition kill (d : Docker) (c : t) : outcome (option error) * t :=
  let err := docker.on_StopContainer d (id c) in
  let c := ask (docker.StopContainer (id c) 1) c in
  match err with
  | None => (Return None, c)
  | Some e =>
      if As_NoSuchContainer e || As_ContainerNotRunning e
      then (Return None, c)
      else (Return (errors_Wrap (Some e) "error stopping container"), c)
  end.

Definition cleanup (d : Docker) (c : t) : outcome (option error) * t :=
  let containerId := id c in
  let err := docker.on_StopContainer d containerId in
  let c := ask (docker.StopContainer containerId 1) c in
  if (if err is Some e then As_NoSuchContainer e else false)
  then (Return None, c) else
  if (if err is Some e then negb (As_ContainerNotRunning e) else false)
  then (Return (errors_Wrap err "error stopping container"), c) else
  let r := docker.on_RemoveContainer d containerId false in
  (Return (errors_Wrap r "error removing container"),
   ask (docker.RemoveContainer containerId false) c).

End createContainer.

#[global] Instance createContainer_Execution : Execution Docker createContainer.t := {
  create := createContainer.create;
  run := createContainer.run;
  wait := createContainer.wait;
  setEnv := createContainer.setEnv;
  setDir := createContainer.setDir;
  getID := createContainer.getID;
  kill := createContainer.kill;
  cleanup := createContainer.cleanup
}.

(** ** Formatting and parsing helpers of the Go library *)

Definition int64_min : Z := - 2 ^ 63.
Definition int64_max : Z := 2 ^ 63 - 1.

(** Two's-complement wrap-around of int64 arithmetic. *)
Definition wrap64 (z : Z) : Z := (z + 2 ^ 63) mod 2 ^ 64 - 2 ^ 63.

(** [fmt.Sprintf("%d", v)] and [strconv.FormatInt(v, 10)]. *)
Definition fmt_d (v : Z) : string := NilZero.string_of_int (Z.to_int v).

Definition digit_of (c : ascii) : option Z :=
  let n := Z.of_nat (nat_of_ascii c) in
  if ((48 <=? n) && (n <=? 57))%Z then Some (n - 48) else None.

Fixpoint parse_digits (acc : Z) (s : string) : option Z :=
  match s with
  | EmptyString => Some acc
  | String c s' =>
      match digit_of c with
      | Some d => parse_digits (10 * acc + d) s'
      | None => None
      end
  end.

(** [strconv.ParseInt(s, 10, 64)]: an optional sign, decimal digits, and the
    value within int64; [None] is a non-nil error. *)
Definition strconv_ParseInt (s : string) : option Z :=
  let '(neg, body) :=
    match s with
    | String "-" s' => (true, s')
    | String "+" s' => (false, s')
    | _ => (false, s)
    end in
  match body with
  | EmptyString => None
  | _ =>
      match parse_digits 0 body with
      | Some n =>
          let v := if neg : bool then - n else n in
          if ((int64_min <=? v) && (v <=? int64_max))%Z then Some v else None
      | None => None
      end
  end.

Definition is_space (c : ascii) : bool :=
  match nat_of_ascii c with
  | 9%nat | 10%nat | 11%nat | 12%nat | 13%nat | 32%nat => true
  | _ => false
  end.

Fixpoint trim_left (l : list ascii) : list ascii :=
  match l with
  | c :: l' => if is_space c then trim_left l' else l
  | [] => []
  end.

(** [strings.TrimSpace], for ASCII white space. *)
Definition strings_TrimSpace (s : string) : string :=
  string_of_list_ascii
    (rev (trim_left (rev (trim_left (list_ascii_of_string s))))).

(** [strings.Contains(s, substr)]: [substr] occurs in [s]. *)
Fixpoint strings_Contains (s substr : string) : bool :=
  String.prefix substr s ||
  match s with
  | EmptyString => false
  | String _ s' => strings_Contains s' substr
  end.

(** ** Numbers: [abs] and the random suffix *)

Import SpecFloat.

(** [float64(v)] for an int64 [v]: rounding to the nearest binary64, ties to
    even. *)
Definition float64_of_int64 (v : Z) : spec_float :=
  binary_normalize 53 1024 v 0 false.

(** [math.Abs]. *)
Definition math_Abs (f : spec_float) : spec_float := SFabs f.

(** [int64(f)]: truncation toward zero. A value outside int64 has an
    implementation-dependent result in Go; this is amd64's, the "integer
    indefinite" value -2^63. *)
Definition int64_of_float64 (f : spec_float) : Z :=
  match f with
  | S754_zero _ => 0
  | S754_finite sign m e =>
      let mag := if (0 <=? e)%Z then Z.pos m * 2 ^ e else Z.pos m / 2 ^ (- e) in
      let v := if sign then - mag else mag in
      if ((int64_min <=? v) && (v <=? int64_max))%Z then v else int64_min
  | _ => int64_min
  end.

(** [abs] of containerd_execution.go. *)
Definition abs (v : Z) : Z :=
  if (0 <=? v)%Z then v
  else
    let f := math_Abs (float64_of_int64 v) in
    int64_of_float64 f.

Definition letters : list ascii :=
  list_ascii_of_string "abcdefghijklmnopqrstuvwxyzABCDEFGHIJKLMNOPQRSTUVWXYZ".

(** Modelled from the spec: [RandomString] is not among the sources (only its
    test is). The spec: "Random string: 6-character alphabetic, uniform over
    [A-Za-z]"; the test asks for length [n] and letters only. [rnd i] is the
    [i]-th draw of the random source. *)
Definition RandomString (rnd : nat -> nat) (n : nat) : string :=
  string_of_list_ascii
    (map (fun i => nth (rnd i mod 52) letters "a"%char) (seq 0 n)).

Definition randomSuffixLength : nat := 6.

(** The part of opencontainers/runtime-spec the package uses. *)
Module specs.

Record Mount : Type := mkMount {
  Destination : string;
  Type_ : string;
  Source : string;
  Options : list string
}.

(** [specs.Process], with [User.UID] flattened. *)
Record Process : Type := mkProcess {
  Args : list string;
  Cwd : string;
  UID : Z
}.

End specs.

(** The part of containerd's client API the package uses, as test doubles in
    the manner of id_test.go: every object carries its answers. *)
Module containerd.

Inductive ProcessStatus : Type :=
| Running | Created | Stopped | Paused | Pausing | Unknown.

Record Status : Type := mkStatus {
  Status_ : ProcessStatus;
  ExitStatus_ : Z
}.

Record ExitStatus : Type := mkExitStatus {
  ExitCode : Z;
  Error : option error
}.

Record Process : Type := mkProcess {
  Process_ID : string;
  on_Wait : option error;
  on_Start : option error
}.

Record Task : Type := mkTask {
  Task_ID : string;
  on_Exec : Process + error;
  on_Status : Status + error;
  on_Task_Delete : option error
}.

Record Container : Type := mkContainer {
  ID : string;
  on_Labels : gmap string string + error;
  on_Task : Task + error;
  on_NewTask : Task + error;
  on_Spec : specs.Process + error;
  on_Container_Delete : option error
}.

Record CNI : Type := mkCNI {
  on_Remove : option error
}.

(** What wakes the [select] of [wait]: the exit status arrives on the
    channel, the one-second timer fires (with the answer of
    [process.Status]), or the context is done. *)
Inductive wakeup : Type :=
| exit_received (es : ExitStatus)
| timer_fired (st : Status + error)
| ctx_done.

(** The requests the runtime receives. *)
Inductive request : Type :=
| WithLease (namespace : string) (expiration : Z)
| GetImage (ref : string)
| nerdctl (args : list string)
| LoadContainer (id : string)
| Container_Task
| Container_NewTask
| Container_Spec
| Task_Exec (id : string) (spec : specs.Process)
| Process_Wait
| Process_Start
| Process_Status
| CNI_Remove (id path : string)
| Task_Delete
| Container_Delete
| lease_release.

(** The world behind a [*containerd.Client]: the answers of the API and of
    the nerdctl binary, the draws of the random source, the output of the
    process and the order in which [wait] is woken. *)
Record Client : Type := mkClient {
  DefaultNamespace : string;
  on_WithLease : option error;
  on_GetImage : string -> option error;
  on_nerdctl : list string -> string + error;
  on_LoadContainer : string -> Container + error;
  on_Containers : string -> list Container + error;
  entropy : nat -> nat;
  output : list chunk;
  wakeups : list wakeup
}.

End containerd.

#[global] Instance specs_Process_eq_dec : EqDecision specs.Process.
Proof. solve_decision. Defined.
#[global] Instance containerd_request_eq_dec : EqDecision containerd.request.
Proof. solve_decision. Defined.

(** [Containerd]: the wrapper around the client. *)
Abbreviation Containerd := containerd.Client.

(** ** The namespaced-task strategy *)

Module createTask.

Record CreateTaskOptions : Type := mkOptions {
  Image : string;
  Mounts : list specs.Mount;
  User : string;
  Env : list string;
  CommandTimeout : Z;
  WorkingDir : string;
  CommandDetails_ : CommandDetails
}.

(** The context bound by [create]: it carries the namespace and the
    lease. *)
Record Context : Type := mkContext {
  namespace : string
}.

(** The function stored in [doneFunc]: it deletes the lease. *)
Inductive done_func : Type := delete_lease.

(** [createTask], the receiver of the strategy (second draft of
    containerd_execution.go). [streams] stands for the [cio] options that
    [run] builds from the command's writers and hands to the task;
    [requests] is the log of what the runtime was asked. *)
Record t : Type := mk {
  opts : CreateTaskOptions;
  ctx : option Context;
  doneFunc : option done_func;
  image : option string;
  container : option containerd.Container;
  task : option containerd.Task;
  cmd : list string;
  process : option containerd.Process;
  exitChan : option unit;
  net : option string;
  cni : option containerd.CNI;
  streams : option Writer * option Writer;
  requests : list containerd.request
}.

(** [ByCreatingTask(opts, logger)]. *)
Definition ByCreatingTask (o : CreateTaskOptions) : t :=
  mk o None None None None None [] None None None None (None, None) [].

Definition opts_with_Env (v : list string) (o : CreateTaskOptions) :=
  mkOptions (Image o) (Mounts o) (User o) v (CommandTimeout o)
            (WorkingDir o) (CommandDetails_ o).
Definition opts_with_WorkingDir (v : string) (o : CreateTaskOptions) :=
  mkOptions (Image o) (Mounts o) (User o) (Env o) (CommandTimeout o)
            v (CommandDetails_ o).

Definition set_opts (v : CreateTaskOptions) (x : t) : t :=
  mk v (ctx x) (doneFunc x) (image x) (container x) (task x) (cmd x)
     (process x) (exitChan x) (net x) (cni x) (streams x) (requests x).
Definition set_lease (c : Context) (d : done_func) (x : t) : t :=
  mk (opts x) (Some c) (Some d) (image x) (container x) (task x) (cmd x)
     (process x) (exitChan x) (net x) (cni x) (streams x) (requests x).
Definition set_image (v : string) (x : t) : t :=
  mk (opts x) (ctx x) (doneFunc x) (Some v) (container x) (task x) (cmd x)
     (process x) (exitChan x) (net x) (cni x) (streams x) (requests x).
Definition set_container (v : containerd.Container) (x : t) : t :=
  mk (opts x) (ctx x) (doneFunc x) (image x) (Some v) (task x) (cmd x)
     (process x) (exitChan x) (net x) (cni x) (streams x) (requests x).
Definition set_task (v : containerd.Task) (io : option Writer * option Writer)
    (x : t) : t :=
  mk (opts x) (ctx x) (doneFunc x) (image x) (container x) (Some v) (cmd x)
     (process x) (exitChan x) (net x) (cni x) io (requests x).
Definition set_cmd (v : list string) (x : t) : t :=
  mk (opts x) (ctx x) (doneFunc x) (image x) (container x) (task x) v
     (process x) (exitChan x) (net x) (cni x) (streams x) (requests x).
Definition set_process (v : containerd.Process) (x : t) : t :=
  mk (opts x) (ctx x) (doneFunc x) (image x) (container x) (task x) (cmd x)
     (Some v) (exitChan x) (net x) (cni x) (streams x) (requests x).
Definition set_exitChan (v : option unit) (x : t) : t :=
  mk (opts x) (ctx x) (doneFunc x) (image x) (container x) (task x) (cmd x)
     (process x) v (net x) (cni x) (streams x) (requests x).
Definition log_request (r : containerd.request) (x : t) : t :=
  mk (opts x) (ctx x) (doneFunc x) (image x) (container x) (task x) (cmd x)
     (process x) (exitChan x) (net x) (cni x) (streams x) (requests x ++ [r]).

(** A method of the strategy. *)
Definition Op (A : Type) : Type := t -> outcome A * t.

#[global] Instance Op_ret : MRet Op := fun A a x => (Return a, x).
#[global] Instance Op_bind : MBind Op := fun A B k m x =>
  match m x with
  | (Return a, x') => k a x'
  | (Panic, x') => (Panic, x')
  | (Blocked, x') => (Blocked, x')
  end.

Definition self : Op t := fun x => (Return x, x).
Definition update (f : t -> t) : Op unit := fun x => (Return tt, f x).
Definition ask (r : containerd.request) : Op unit := update (log_request r).
(** A method call on an interface value: nil panics. *)
Definition deref {A} (f : t -> option A) : Op A := fun x =>
  match f x with
  | Some a => (Return a, x)
  | None => (Panic, x)
  end.

Definition Minute : Z := 60 * 1000000000.

(** [generateContainerId], with the draws of the random source. *)
Definition generateContainerId (rnd : nat -> nat) (x : t) : string :=
  let suffix := RandomString rnd randomSuffixLength in
  let details := CommandDetails_ (opts x) in
  "chains-" ++ fmt_d (abs (ChainExecutorId details)) ++ "-"
    ++ fmt_d (abs (ExecutorId details)) ++ "-"
    ++ fmt_d (abs (ResultId details)) ++ "-" ++ suffix.

Definition buildCreateContainerCmd (c : Containerd) (x : t) : list string :=
  let args := ["--namespace"; containerd.DefaultNamespace c; "create"; "--name";
               generateContainerId (containerd.entropy c) x;
               "--user"; User (opts x)] in
  let args :=
    foldl (fun args m =>
             args ++ ["-v"; (specs.Source m ++ ":" ++ specs.Destination m)%string])%list
          args (Mounts (opts x)) in
  let args := foldl (fun args e => args ++ ["-e"; e])%list args (Env (opts x)) in
  (args ++ [Image (opts x)])%list.

Definition createContainer (c : Containerd) : Op (containerd.Container + error) :=
  x ← self;
  let nerdctlArgs := buildCreateContainerCmd c x in
  ask (containerd.nerdctl nerdctlArgs);;
  match containerd.on_nerdctl c nerdctlArgs with
  | inr err => mret (inr (Wrap "error creating container" err))
  | inl stdout =>
      let containerId := strings_TrimSpace stdout in
      ask (containerd.LoadContainer containerId);;
      mret (containerd.on_LoadContainer c containerId)
  end.

Definition create (c : Containerd) (cmd' : list string) : Op (option error) :=
  update (set_cmd cmd');;
  x ← self;
  let expiration := wrap64 (CommandTimeout (opts x) + 5 * Minute) in
  let ctx' := mkContext (containerd.DefaultNamespace c) in
  ask (containerd.WithLease (containerd.DefaultNamespace c) expiration);;
  match containerd.on_WithLease c with
  | Some err => mret (Some (Wrap "error creating containerd context" err))
  | None =>
      update (set_lease ctx' delete_lease);;
      ask (containerd.GetImage (Image (opts x)));;
      match containerd.on_GetImage c (Image (opts x)) with
      | Some err =>
          mret (Some (Wrap ("error getting image " ++ Image (opts x)
                            ++ " from namespace "
                            ++ containerd.DefaultNamespace c) err))
      | None =>
          update (set_image (Image (opts x)));;
          r ← createContainer c;
          match r with
          | inr err => mret (Some (Wrap "error creating container" err))
          | inl container' =>
              update (set_container container');;
              mret None
          end
      end
  end.

(** [t.createTask]: attach to the task of the container if there is one,
    make a new one otherwise. *)
Definition createTask : Op (containerd.Task + error) :=
  k ← deref container;
  ask containerd.Container_Task;;
  match containerd.on_Task k with
  | inl task' => mret (inl task')
  | inr _ =>
      ask containerd.Container_NewTask;;
      mret (containerd.on_NewTask k)
  end.

Definition createProcessSpec : Op (specs.Process + error) :=
  k ← deref container;
  ask containerd.Container_Spec;;
  match containerd.on_Spec k with
  | inr err => mret (inr (Wrap "error getting spec from container" err))
  | inl spec =>
      x ← self;
      let uid :=
        match strconv_ParseInt (User (opts x)) with
        | Some uid => uid mod 2 ^ 32
        | None => specs.UID spec
        end in
      mret (inl (specs.mkProcess (cmd x) (WorkingDir (opts x)) uid))
  end.

Definition run_body (stdout stderr : option Writer) : Op (option error) :=
  r ← createTask;
  match r with
  | inr err => mret (Some (Wrap "error creating task" err))
  | inl task' =>
      update (set_task task' (stdout, stderr));;
      r ← createProcessSpec;
      match r with
      | inr err => mret (Some (Wrap "error creating process spec" err))
      | inl spec =>
          k ← deref container;
          let taskId := containerd.ID k ++ "-task" in
          ask (containerd.Task_Exec taskId spec);;
          match containerd.on_Exec task' with
          | inr err => mret (Some (Wrap "error creating process" err))
          | inl ps =>
              update (set_process ps);;
              (* wait must always be called before start() *)
              ask containerd.Process_Wait;;
              match containerd.on_Wait ps with
              | Some err =>
                  update (set_exitChan None);;
                  mret (Some (Wrap "error waiting for process" err))
              | None =>
                  update (set_exitChan (Some tt));;
                  ask containerd.Process_Start;;
                  match containerd.on_Start ps with
                  | Some err => mret (Some (Wrap "error starting process" err))
                  | None => mret None
                  end
              end
          end
      end
  end.

Definition run (c : Containerd) (stdin : option Reader)
    (stdout stderr : option Writer) (x : t) (b : Buffers)
  : outcome (option error) * t * Buffers :=
  (run_body stdout stderr x, b).

Definition setEnv (env : list string) : Op (option error) := fun x =>
  if decide (0 < length (Env (opts x)))%nat
  then (Return (Some (errors_New "dexec: Config.Env already set")), x)
  else (Return None, set_opts (opts_with_Env env (opts x)) x).

Definition setDir (dir : string) : Op (option error) := fun x =>
  if decide (WorkingDir (opts x) = "")
  then (Return None, set_opts (opts_with_WorkingDir dir (opts x)) x)
  else (Return (Some (errors_New "dexec: Config.WorkingDir already set")), x).

Definition getID : Op string :=
  k ← deref container;
  mret (containerd.ID k).

(** The deferred function of [cleanup]: the lease is released when there
    is one. *)
Definition release (x : t) : t :=
  match doneFunc x, ctx x with
  | Some delete_lease, Some _ => log_request containerd.lease_release x
  | _, _ => x
  end.

Definition cleanup_body : Op (option error) :=
  x ← self;
  match cni x, net x with
  | Some plugin, Some path =>
      k ← deref container;
      ask (containerd.CNI_Remove (containerd.ID k) path)
  | _, _ => mret tt
  end;;
  task' ← deref task;
  ask containerd.Task_Delete;;
  let err := containerd.on_Task_Delete task' in
  if (if err is Some e then negb (IsNotFound e) else false)
  then mret (errors_Wrap err "error deleting task") else
  k ← deref container;
  ask containerd.Container_Delete;;
  let err := containerd.on_Container_Delete k in
  if (if err is Some e then IsNotFound e else true)
  then mret None
  else mret (errors_Wrap err "error deleting container").

(** [cleanup]: the body, then the deferred release, on return and on
    panic. *)
Definition cleanup (c : Containerd) : Op (option error) := fun x =>
  let '(r, x) := cleanup_body x in (r, release x).

Definition kill (c : Containerd) : Op (option error) := cleanup c.

(** The loop of [wait] over the wake-ups of its [select]. A nil exit
    channel never delivers; the timer branch asks the process for its
    status and returns once it is stopped. The output of the process is
    taken to be copied by the time its exit is seen. *)
Fixpoint wait_loop (out : list chunk) (ws : list containerd.wakeup) (x : t)
    (b : Buffers) : outcome (Z * option error) * t * Buffers :=
  match ws with
  | [] => (Blocked, x, b)
  | containerd.exit_received es :: ws' =>
      match exitChan x with
      | None => wait_loop out ws' x b
      | Some _ =>
          (Return (containerd.ExitCode es, containerd.Error es), x,
           copy_streams (fst (streams x)) (snd (streams x)) out b)
      end
  | containerd.timer_fired st :: ws' =>
      match process x with
      | None => (Panic, x, b)
      | Some _ =>
          let x := log_request containerd.Process_Status x in
          match st with
          | inl status =>
              match containerd.Status_ status with
              | containerd.Stopped =>
                  match task x with
                  | None => (Panic, x, b)
                  | Some _ =>
                      (Return (containerd.ExitStatus_ status, None),
                       log_request containerd.Task_Delete x,
                       copy_streams (fst (streams x)) (snd (streams x)) out b)
                  end
              | _ => wait_loop out ws' x b
              end
          | inr _ => wait_loop out ws' x b
          end
      end
  | containerd.ctx_done :: _ => (Return (-1, Some context_Canceled), x, b)
  end.

(** [wait]: [defer t.cleanup(c)] runs when the loop returns or panics; its
    result is dropped, its panic is not. Entering the [select] evaluates
    [t.ctx.Done()], which panics on a nil context. *)
Definition wait (c : Containerd) (x : t) (b : Buffers)
  : outcome (Z * option error) * t * Buffers :=
  let '(r, x, b) :=
    match ctx x with
    | None => (Panic, x, b)
    | Some _ => wait_loop (containerd.output c) (containerd.wakeups c) x b
    end in
  match r with
  | Blocked => (Blocked, x, b)
  | _ =>
      match cleanup c x with
      | (Return _, x') => (r, x', b)
      | (Panic, x') => (Panic, x', b)
      | (Blocked, x') => (Blocked, x', b)
      end
  end.

(** *** The first draft of the file *)

(** [generateContainerId] of the first draft: the identity fields are
    printed as they are. *)
Definition generateContainerId_draft1 (rnd : nat -> nat) (x : t) : string :=
  let suffix := RandomString rnd randomSuffixLength in
  let details := CommandDetails_ (opts x) in
  "chains-" ++ fmt_d (ChainExecutorId details) ++ "-"
    ++ fmt_d (ExecutorId details) ++ "-"
    ++ fmt_d (ResultId details) ++ "-" ++ suffix.

Definition cleanup_body_draft1 : Op (option error) :=
  task' ← deref task;
  ask containerd.Task_Delete;;
  let err := containerd.on_Task_Delete task' in
  if (if err is Some e then negb (IsNotFound e) else false)
  then mret (errors_Wrap err "error deleting task") else
  k ← deref container;
  ask containerd.Container_Delete;;
  let err := containerd.on_Container_Delete k in
  if (if err is Some e then IsNotFound e else true)
  then mret None
  else mret (errors_Wrap err "error deleting container").

(** [cleanup] of the first draft: [defer t.doneFunc(t.ctx)] without a
    guard; calling a nil [doneFunc] panics when the deferred call runs. *)
Definition cleanup_draft1 (c : Containerd) : Op (option error) := fun x =>
  let '(r, x) := cleanup_body_draft1 x in
  match doneFunc x with
  | Some delete_lease => (r, log_request containerd.lease_release x)
  | None => (Panic, x)
  end.

End createTask.

#[global] Instance createTask_Execution : Execution Containerd createTask.t := {
  create := createTask.create;
  run := createTask.run;
  wait := createTask.wait;
  setEnv := createTask.setEnv;
  setDir := createTask.setDir;
  getID := createTask.getID;
  kill := createTask.kill;
  cleanup := createTask.cleanup
}.

(** ** The factory: configuration and mount translation *)

Record ContainerConfig : Type := mkContainerConfig {
  CC_Image : string;
  CC_User : string;
  CC_Env : list string;
  CC_Mounts : list Mount
}.

Record NetworkConfig : Type := mkNetworkConfig {
  NC_DNS : list string;
  NC_DNSSearch : list string;
  NC_DNSOptions : list string
}.

Record TaskConfig : Type := mkTaskConfig {
  Executable : string;
  TC_Args : list string;
  Timeout : Z;
  TC_WorkingDir : string
}.

Record Config : Type := mkConfig {
  Namespace : string;
  ContainerConfig_ : ContainerConfig;
  NetworkConfig_ : NetworkConfig;
  TaskConfig_ : TaskConfig;
  Config_CommandDetails : CommandDetails
}.

(** The type parameter of [mountable]: [docker.HostMount | specs.Mount]. *)
Inductive mountable : Type :=
| docker_HostMount
| specs_Mount.

Definition mount_type (T : mountable) : Type :=
  match T with
  | docker_HostMount => docker.HostMount
  | specs_Mount => specs.Mount
  end.

Definition convertMount (T : mountable) (m : Mount) : mount_type T :=
  match T with
  | docker_HostMount =>
      docker.mkHostMount (Type_ m) (Source m) (Destination m)
  | specs_Mount =>
      specs.mkMount (Destination m) (Type_ m) (Source m) (Options m)
  end.

Definition convertMounts (T : mountable) (ms : list Mount) : list (mount_type T) :=
  map (convertMount T) ms.

Definition filterMounts (T : mountable) (ms : list Mount) : list Mount :=
  match T with
  | docker_HostMount =>
      foldl (fun mounts m =>
               if negb (strings_Contains (Destination m) "resolv.conf")
               then (mounts ++ [m])%list else mounts)
            [] ms
  | specs_Mount => ms
  end.

Definition getDockerExecution (config : Config) : createContainer.t :=
  let mounts := filterMounts docker_HostMount (CC_Mounts (ContainerConfig_ config)) in
  createContainer.ByCreatingContainer
    (docker.mkCreateContainerOptions
       (docker.mkConfig (CC_Image (ContainerConfig_ config))
                        (CC_User (ContainerConfig_ config))
                        (CC_Env (ContainerConfig_ config))
                        "" [] [] false true true false false)
       (docker.mkHostConfig (NC_DNS (NetworkConfig_ config))
                            (NC_DNSSearch (NetworkConfig_ config))
                            (NC_DNSOptions (NetworkConfig_ config))
                            (convertMounts docker_HostMount mounts))).

Definition getContainerdExecution (config : Config) : createTask.t :=
  let mounts := filterMounts specs_Mount (CC_Mounts (ContainerConfig_ config)) in
  createTask.ByCreatingTask
    (createTask.mkOptions (CC_Image (ContainerConfig_ config))
                          (convertMounts specs_Mount mounts)
                          (CC_User (ContainerConfig_ config))
                          (CC_Env (ContainerConfig_ config))
                          (Timeout (TaskConfig_ config))
                          (TC_WorkingDir (TaskConfig_ config))
                          (Config_CommandDetails config)).

(** [Docker.Command] and [Containerd.Command]. *)
Definition new_Command {T S : Type} (c : T) (method : S) (name : string)
    (arg : list string) : GenericCmd T S :=
  mkCmd name arg None "" None None None false method [] c.

(** The dynamic type of the [client interface{}] given to [Command]. *)
Inductive client_value : Type :=
| docker_client (c : docker.Client)
| containerd_client (c : containerd.Client)
| other_client.

Inductive Cmd_value : Type :=
| DockerCmd (g : GenericCmd Docker createContainer.t)
| ContainerdCmd (g : GenericCmd Containerd createTask.t).

Definition Command (client : client_value) (config : Config) : outcome Cmd_value :=
  match client with
  | docker_client c =>
      Return (DockerCmd (new_Command c (getDockerExecution config)
                           (Executable (TaskConfig_ config))
                           (TC_Args (TaskConfig_ config))))
  | containerd_client c =>
      if decide (containerd.DefaultNamespace c = "") then Panic else
      Return (ContainerdCmd (new_Command c (getContainerdExecution config)
                               (Executable (TaskConfig_ config))
                               (TC_Args (TaskConfig_ config))))
  | other_client => Panic
  end.

(** ** The statistics snapshot *)

Record Stats : Type := mkStats {
  Running : Z;
  Created : Z;
  Stopped : Z;
  Paused : Z;
  Pausing : Z;
  Unknown : Z;
  DeadlineExceeded : Z;
  Errors : Z
}.

Definition Stats_zero : Stats := mkStats 0 0 0 0 0 0 0 0.

(** A string between double quotes, as it stands in a Go raw string. *)
Definition quoted (s : string) : string :=
  String (ascii_of_nat 34) s ++ String (ascii_of_nat 34) EmptyString.

(** [time.RFC3339]. *)
Definition time_RFC3339 : string := "2006-01-02T15:04:05Z07:00".

Section stats.

(** The Go library's [time.Parse(layout, value)], the instant being counted
    in nanoseconds ([None] is a non-nil error), and the reading of the clock
    by [time.Now()]. *)
Variable time_Parse : string -> string -> option Z.
Variable time_Now : Z.

(** [u.After(t)]. *)
Definition After (u t : Z) : bool := (t <? u)%Z.

Definition add_DeadlineExceeded (s : Stats) : Stats :=
  mkStats (Running s) (Created s) (Stopped s) (Paused s) (Pausing s)
          (Unknown s) (DeadlineExceeded s + 1) (Errors s).
Definition add_Errors (s : Stats) : Stats :=
  mkStats (Running s) (Created s) (Stopped s) (Paused s) (Pausing s)
          (Unknown s) (DeadlineExceeded s) (Errors s + 1).
Definition add_status (st : containerd.ProcessStatus) (s : Stats) : Stats :=
  match st with
  | containerd.Stopped =>
      mkStats (Running s) (Created s) (Stopped s + 1) (Paused s) (Pausing s)
              (Unknown s) (DeadlineExceeded s) (Errors s)
  | containerd.Running =>
      mkStats (Running s + 1) (Created s) (Stopped s) (Paused s) (Pausing s)
              (Unknown s) (DeadlineExceeded s) (Errors s)
  | containerd.Created =>
      mkStats (Running s) (Created s + 1) (Stopped s) (Paused s) (Pausing s)
              (Unknown s) (DeadlineExceeded s) (Errors s)
  | containerd.Paused =>
      mkStats (Running s) (Created s) (Stopped s) (Paused s + 1) (Pausing s)
              (Unknown s) (DeadlineExceeded s) (Errors s)
  | containerd.Pausing =>
      mkStats (Running s) (Created s) (Stopped s) (Paused s) (Pausing s + 1)
              (Unknown s) (DeadlineExceeded s) (Errors s)
  | containerd.Unknown =>
      mkStats (Running s) (Created s) (Stopped s) (Paused s) (Pausing s)
              (Unknown s + 1) (DeadlineExceeded s) (Errors s)
  end.

(** The first half of the loop body of [getContainerdStats]: the labels and
    the deadline. *)
Definition count_deadline (container : containerd.Container) (stats : Stats)
  : Stats :=
  match containerd.on_Labels container with
  | inl labels =>
      match labels !! "chains/deadline" with
      | Some deadline =>
          match time_Parse deadline time_RFC3339 with
          | Some deadlineTime =>
              if After time_Now deadlineTime
              then add_DeadlineExceeded stats
              else stats
          | None => add_Errors stats
          end
      | None => stats
      end
  | inr _ => add_Errors stats
  end.

(** The second half: the task and its status. *)
Definition count_task (container : containerd.Container) (stats : Stats)
  : Stats :=
  match containerd.on_Task container with
  | inl task =>
      match containerd.on_Status task with
      | inl status => add_status (containerd.Status_ status) stats
      | inr _ => add_Errors stats
      end
  | inr _ => add_Errors stats
  end.

Definition getContainerdStats (c : containerd.Client) : Stats * option error :=
  let filters := "labels." ++ quoted "wk/owner" ++ "==chains" in
  match containerd.on_Containers c filters with
  | inr err => (Stats_zero, Some (Wrap "error getting stats" err))
  | inl containers =>
      (foldl (fun stats container =>
                count_task container (count_deadline container stats))
             Stats_zero containers,
       None)
  end.

Definition GetStats (client : client_value) : Stats * option error :=
  match client with
  | containerd_client c => getContainerdStats c
  | _ => (Stats_zero, None)
  end.

End stats.


(** ** Test doubles and sample commands *)

(** What [Wait] makes of the exit code and the error of the strategy's
    [wait]. *)
Definition Wait_result (ec : Z) (err : option error) : option error :=
  match err with
  | Some e => Some e
  | None => if decide (ec = 0) then None else Some (ExitError ec [])
  end.

(** The sentinels of the package, by their text. *)
Definition NotStarted : error := errors_New "dexec: not started".
Definition AlreadyStarted : error := errors_New "dexec: already started".
Definition WorkingDirAlreadySet : error :=
  errors_New "dexec: Config.WorkingDir already set".

(** A daemon that creates, starts and attaches without error; the container
    writes [out] and exits with [code]. *)
Definition daemon_exiting (code : Z) (out : list chunk) : docker.Client :=
  docker.mkClient (fun _ => inl "c0ffee") (fun _ => None) (fun _ => None) None
    out (fun _ => inl code) (fun _ => None) (fun _ _ => None).

(** A daemon that refuses to create a container. *)
Definition daemon_refusing : docker.Client :=
  docker.mkClient (fun _ => inr (errors_New "no such image")) (fun _ => None)
    (fun _ => None) None [] (fun _ => inl 0) (fun _ => None) (fun _ _ => None).

Definition sample_Config : Config :=
  mkConfig "" (mkContainerConfig "alpine" "" [] [])
    (mkNetworkConfig [] [] [])
    (mkTaskConfig "sh" ["-c"; "exit 1"] 0 "")
    (mkCommandDetails 2 (-1) 3).

(** [Command(client, sample_Config)] over a daemon. *)
Definition sample_Cmd (d : docker.Client) : GenericCmd Docker createContainer.t :=
  new_Command d (getDockerExecution sample_Config)
    (Executable (TaskConfig_ sample_Config)) (TC_Args (TaskConfig_ sample_Config)).

(** The state a call leaves behind. *)
Definition after {T S A : Type}
    (r : outcome A * (GenericCmd T S * World)) : GenericCmd T S * World := snd r.

(** An answer of the runtime that [cleanup] takes for success: no error, or
    NotFound. *)
Definition ok_or_NotFound (err : option error) : Prop :=
  match err with
  | None => True
  | Some e => IsNotFound e = true
  end.

(** The state of the package's cleanup tests: a context, a container and a
    task, with or without a lease function. *)
Definition mock_Process : containerd.Process :=
  containerd.mkProcess "unit-test-task" None None.

Definition mock_Task (on_Delete : option error) : containerd.Task :=
  containerd.mkTask "unit-test" (inl mock_Process)
    (inl (containerd.mkStatus containerd.Running 0)) on_Delete.

Definition mock_Container (on_Delete : option error) : containerd.Container :=
  containerd.mkContainer "unit-test" (inl ∅) (inr ErrNotFound) (inr ErrNotFound)
    (inl (specs.mkProcess [] "" 0)) on_Delete.

Definition mock_createTask (lease : option createTask.done_func)
    (task_Delete container_Delete : option error) : createTask.t :=
  createTask.mk
    (createTask.mkOptions "" [] "" [] 0 "" (mkCommandDetails 0 0 0))
    (Some (createTask.mkContext "unit-test")) lease None
    (Some (mock_Container container_Delete)) (Some (mock_Task task_Delete))
    [] None None None None (None, None) [].

Definition mock_Containerd : containerd.Client :=
  containerd.mkClient "unit-test" None (fun _ => None) (fun _ => inl "c0ffee")
    (fun _ => inr ErrNotFound) (fun _ => inl []) (fun i => i) [] [].

(** The pattern of a container name, [chains-\d+-\d+-\d+-[A-Za-z]{6}], read
    as a match of the whole string. *)
Definition is_digit (c : ascii) : bool :=
  let n := nat_of_ascii c in ((48 <=? n) && (n <=? 57))%nat.

Definition is_letter (c : ascii) : bool :=
  let n := nat_of_ascii c in
  (((65 <=? n) && (n <=? 90)) || ((97 <=? n) && (n <=? 122)))%nat.

(** A character other than the hyphen. *)
Definition not_hyphen (c : ascii) : bool := negb (Ascii.eqb c "-").

Fixpoint skip_digits (l : list ascii) : list ascii :=
  match l with
  | c :: l' => if is_digit c then skip_digits l' else l
  | [] => []
  end.

(** One or more digits and a hyphen: what follows them. *)
Definition digits_hyphen (l : list ascii) : option (list ascii) :=
  match l with
  | c :: _ =>
      if is_digit c then
        match skip_digits l with
        | "-"%char :: rest => Some rest
        | _ => None
        end
      else None
  | [] => None
  end.

Fixpoint strip_prefix (p l : list ascii) : option (list ascii) :=
  match p, l with
  | [], _ => Some l
  | a :: p', b :: l' => if decide (a = b) then strip_prefix p' l' else None
  | _ :: _, [] => None
  end.

Definition matches_container_name (s : string) : bool :=
  match strip_prefix (list_ascii_of_string "chains-") (list_ascii_of_string s) with
  | Some l =>
      match digits_hyphen l with
      | Some l1 =>
          match digits_hyphen l1 with
          | Some l2 =>
              match digits_hyphen l2 with
              | Some sfx => (length sfx =? 6)%nat && forallb is_letter sfx
              | None => false
              end
          | None => false
          end
      | None => false
      end
  | None => false
  end.

(** A strategy made for a command with the given identity. *)
Definition task_for (chain executor result : Z) : createTask.t :=
  createTask.ByCreatingTask
    (createTask.mkOptions "alpine" [] "" [] 0 ""
       (mkCommandDetails executor chain result)).

(** A stand-in for [time.Parse] on the two calls that matter below: it reads
    the RFC 3339 instant 2020-01-01T00:00:00Z under the RFC 3339 layout, and
    refuses everything else. *)
Definition sample_Parse (layout value : string) : option Z :=
  if decide (layout = time_RFC3339 /\ value = "2020-01-01T00:00:00Z")
  then Some 1577836800000000000 else None.

(** A container of the package with a deadline label, running. *)
Definition labelled_Container (deadline : string) : containerd.Container :=
  containerd.mkContainer "chains-1-2-3-abcdef"
    (inl {[ "wk/owner" := "chains"; "chains/deadline" := deadline ]})
    (inl (mock_Task None)) (inr ErrNotFound)
    (inl (specs.mkProcess [] "" 0)) None.

(** Classifiers of events. *)
Definition is_create (e : event) : bool :=
  match e with call_create _ => true | _ => false end.
Definition is_setter (e : event) : bool :=
  match e with call_setDir _ | call_setEnv _ => true | _ => false end.
Definition is_Close (e : event) : bool :=
  match e with Close _ => true | _ => false end.

(** The writers closed along a trace, in order. *)
Fixpoint closes (tr : list event) : list Writer :=
  match tr with
  | [] => []
  | Close fd :: tr' => fd :: closes tr'
  | _ :: tr' => closes tr'
  end.

(** *** [Start] in two phases, for the proofs *)

Section Start_phases.
Context {T S : Type} `{!Execution T S}.

(** The three defaults of [Start]: the empty reader and [ioutil.Discard]. *)
Definition with_defaults (g : GenericCmd T S) : GenericCmd T S :=
  let g := if Stdin g is None then set_Stdin (Some emptyReader) g else g in
  let g := if Stdout g is None then set_Stdout (Some ioutil_Discard) g else g in
  if Stderr g is None then set_Stderr (Some ioutil_Discard) g else g.

(** First phase: [Dir] and [Env] are forwarded to the strategy. *)
Definition forward (g : GenericCmd T S) (w : World)
  : outcome (option error) * (GenericCmd T S * World) :=
  let r :=
    if decide (Dir g = "") then (Return None, (g, w))
    else invoke (call_setDir (Dir g)) (setDir (Dir g)) (g, w) in
  match r with
  | (Return None, st) =>
      match Env g with
      | None => (Return None, st)
      | Some env => invoke (call_setEnv env) (setEnv env) st
      end
  | _ => r
  end.

(** Second phase: the [started] guard, the defaults, [create] and [run]. *)
Definition launch (g : GenericCmd T S) (w : World)
  : outcome (option error) * (GenericCmd T S * World) :=
  if started g then (Return (Some (errors_New "dexec: already started")), (g, w))
  else
    let g := with_defaults (set_started true g) in
    let cmd := Path g :: Args g in
    match invoke (call_create cmd) (create (client g) cmd) (g, w) with
    | (Return None, (g, w)) =>
        invoke_io (call_run (Stdin g) (Stdout g) (Stderr g))
                  (run (client g) (Stdin g) (Stdout g) (Stderr g)) (g, w)
    | r => r
    end.

End Start_phases.

(** *** Histories of a command *)

Section histories.
Context {T S : Type} `{!Execution T S}.

(** What a caller can do with a command: call its methods and assign its
    exported fields. *)
Inductive api_call : Type :=
| do_Start
| do_Wait
| do_Run
| do_Output
| do_CombinedOutput
| do_StdinPipe
| do_StdoutPipe
| do_StderrPipe
| do_GetPID
| do_SetDir (dir : string)
| do_SetStderr (writer : option Writer)
| do_Kill
| do_Cleanup
| assign_Stdin (r : option Reader)
| assign_Stdout (o : option Writer)
| assign_Env (env : option (list string)).

Definition perform (c : api_call) (st : GenericCmd T S * World)
  : GenericCmd T S * World :=
  match c with
  | do_Start => after (Start st)
  | do_Wait => after (Wait st)
  | do_Run => after (Run st)
  | do_Output => after (Output st)
  | do_CombinedOutput => after (CombinedOutput st)
  | do_StdinPipe => after (StdinPipe st)
  | do_StdoutPipe => after (StdoutPipe st)
  | do_StderrPipe => after (StderrPipe st)
  | do_GetPID => after (GetPID st)
  | do_SetDir dir => after (SetDir dir st)
  | do_SetStderr writer => after (SetStderr writer st)
  | do_Kill => after (Kill st)
  | do_Cleanup => after (Cleanup st)
  | assign_Stdin r => (set_Stdin r (fst st), snd st)
  | assign_Stdout o => (set_Stdout o (fst st), snd st)
  | assign_Env env => (set_Env env (fst st), snd st)
  end.

Definition perform_all (cs : list api_call) (st : GenericCmd T S * World)
  : GenericCmd T S * World :=
  foldl (fun st c => perform c st) st cs.

(** A command as its constructor leaves it: nothing registered, nothing
    done yet. *)
Definition fresh (st : GenericCmd T S * World) : Prop :=
  closeAfterWait (fst st) = [] /\ trace (snd st) = [].

(** What one call may do to the closers: register at most one new pipe
    writer, and close either nothing or every registered writer once, in
    order. *)
Definition footprint (st st' : GenericCmd T S * World) : Prop :=
  exists new delta,
    closeAfterWait (fst st') = (closeAfterWait (fst st) ++ new)%list /\
    (new = [] /\ (next (snd st) <= next (snd st'))%nat \/
     new = [PipeWriter (next (snd st))] /\
     next (snd st') = Datatypes.S (next (snd st))) /\
    trace (snd st') = (trace (snd st) ++ delta)%list /\
    (closes delta = [] \/ closes delta = closeAfterWait (fst st)).

(** The closers are distinct pipe writers made by the package, and whatever
    was closed is among them. *)
Definition closers_ok (st : GenericCmd T S * World) : Prop :=
  NoDup (closeAfterWait (fst st)) /\
  Forall (fun fd => exists p, fd = PipeWriter p /\ (p < next (snd st))%nat)
         (closeAfterWait (fst st)) /\
  Forall (fun fd => In fd (closeAfterWait (fst st))) (closes (trace (snd st))).

End histories.

(** A command with its three pipes, started over a daemon whose container
    exits with code 2, and what the strategy's [wait] answers in that state. *)
Definition piped_history : list api_call :=
  [do_StdoutPipe; do_StdinPipe; do_StderrPipe; do_Start].

Definition piped_fresh : GenericCmd Docker createContainer.t * World :=
  (sample_Cmd (daemon_exiting 2 []), World_init).

Definition piped_started : GenericCmd Docker createContainer.t * World :=
  Eval vm_compute in perform_all piped_history piped_fresh.

Definition piped_started_wait
  : outcome (Z * option error) * createContainer.t * Buffers :=
  Eval vm_compute in
    wait (client (fst piped_started)) (Method (fst piped_started))
         (bufs (snd piped_started)).

Definition piped_waited : GenericCmd Docker createContainer.t * World :=
  Eval vm_compute in after (Wait piped_started).

(** A command over a daemon that refuses to create the container, after its
    failed [Start]. *)
Definition refused_started : GenericCmd Docker createContainer.t * World :=
  Eval vm_compute in after (Start (sample_Cmd daemon_refusing, World_init)).

(** A command with a working directory, over a daemon that runs it. *)
Definition Cmd_in_work : GenericCmd Docker createContainer.t :=
  set_Dir "/work" (sample_Cmd (daemon_exiting 0 [])).

Definition Cmd_in_work_started : GenericCmd Docker createContainer.t * World :=
  Eval vm_compute in after (Start (Cmd_in_work, World_init)).

(** The scenario of the spec: [Stderr] nil, the executable writes "boom" to
    its standard error (and "partial" to its standard output) and exits
    with 1. *)
Definition daemon_boom : docker.Client :=
  daemon_exiting 1 [to_stdout (bytes_of "partial"); to_stderr (bytes_of "boom")].


(** *** Notions used in the proofs *)

(** The working directory each strategy holds. *)
Definition createContainer_wd (c : createContainer.t) : string :=
  docker.WorkingDir (docker.Config_ (createContainer.opt c)).

Definition createTask_wd (x : createTask.t) : string :=
  createTask.WorkingDir (createTask.opts x).


(** A method of [createTask] that leaves the options alone. *)
Definition keeps_opts {A : Type} (m : createTask.Op A) : Prop :=
  forall x, createTask.opts (snd (m x)) = createTask.opts x.

(** A step of [cleanup] before the deferred call: it adds to the log, never
    a release of the lease, and leaves the lease in place. *)
Definition holds_lease {A : Type} (m : createTask.Op A) : Prop :=
  forall x, exists l,
    createTask.requests (snd (m x)) = (createTask.requests x ++ l)%list /\
    ~ In containerd.lease_release l /\
    createTask.doneFunc (snd (m x)) = createTask.doneFunc x /\
    createTask.ctx (snd (m x)) = createTask.ctx x.

(** A pipe writer that is allocated and not registered stays unregistered. *)
Definition unregistered {T S : Type} (p : nat) (st : GenericCmd T S * World)
  : Prop :=
  (p < next (snd st))%nat /\ ~ In (PipeWriter p) (closeAfterWait (fst st)).

(** The calls that do not wait: they close nothing. *)
Definition quiet (c : api_call) : bool :=
  match c with
  | do_Wait | do_Run | do_Output | do_CombinedOutput => false
  | _ => true
  end.


(** ** Notions and samples for the properties of the whole package *)

(** The calls by which [Start] forwards [Dir] and [Env] to the strategy. *)
Definition setter_calls {T S : Type} (g : GenericCmd T S) : list event :=
  ((if decide (Dir g = "") then [] else [call_setDir (Dir g)]) ++
   (match Env g with Some env => [call_setEnv env] | None => [] end))%list.

(** The calls of a [Start] that goes all the way, in order: the setters,
    [create] with the path and the arguments, [run] with the streams, a nil
    stream being replaced by the empty reader or by [ioutil.Discard]. *)
Definition Start_calls {T S : Type} (g : GenericCmd T S) : list event :=
  (setter_calls g ++
   [call_create (Path g :: Args g);
    call_run (Some (default emptyReader (Stdin g)))
             (Some (default ioutil_Discard (Stdout g)))
             (Some (default ioutil_Discard (Stderr g)))])%list.

(** How many times [create] was called along a trace. *)
Definition creates (tr : list event) : nat := length (List.filter is_create tr).

(** The flag and the trace agree: the command is started exactly when
    [create] has been called, and then it was called once. *)
Definition created_once {T S : Type} (st : GenericCmd T S * World) : Prop :=
  creates (trace (snd st)) = if started (fst st) then 1%nat else 0%nat.

(** What a list of chunks writes to the standard output, to the standard
    error, and to both when they share a sink. *)
Definition stdout_bytes (out : list chunk) : bytes :=
  concat (map (fun k => match k with to_stdout p => p | to_stderr _ => [] end) out).
Definition stderr_bytes (out : list chunk) : bytes :=
  concat (map (fun k => match k with to_stderr p => p | to_stdout _ => [] end) out).
Definition all_bytes (out : list chunk) : bytes :=
  concat (map (fun k => match k with to_stdout p | to_stderr p => p end) out).

(** A daemon that serves a command: it creates the container [id], starts
    it, attaches to it, sees it exit with code [ec] and removes it. *)
Definition serves (d : docker.Client) (id : string) (ec : Z) : Prop :=
  (forall o, docker.on_CreateContainer d o = inl id) /\ id <> "" /\
  docker.on_StartContainer d id = None /\ docker.on_Attach d id = None /\
  docker.on_cw_Wait d = None /\ docker.on_WaitContainer d id = inl ec /\
  docker.on_RemoveContainer d id true = None.

(** A strategy whose command runs: [create] and [run] have succeeded. *)
Definition running (x : createTask.t) : Prop :=
  is_Some (createTask.ctx x) /\ is_Some (createTask.doneFunc x) /\
  is_Some (createTask.container x) /\ is_Some (createTask.task x) /\
  is_Some (createTask.process x) /\ createTask.exitChan x = Some tt.

(** A runtime that serves a command: it grants the lease, has the image,
    nerdctl creates the container [k], which has no task yet and gives the
    new task [t], the process [ps] is made, watched and started, its exit
    status [es] arrives, and the task and the container are deleted. *)
Definition runtime_serves (c : containerd.Client) (k : containerd.Container)
    (t : containerd.Task) (ps : containerd.Process) (es : containerd.ExitStatus)
  : Prop :=
  containerd.on_WithLease c = None /\
  (forall ref, containerd.on_GetImage c ref = None) /\
  (exists out,
     (forall args, containerd.on_nerdctl c args = inl out) /\
     containerd.on_LoadContainer c (strings_TrimSpace out) = inl k) /\
  (exists e, containerd.on_Task k = inr e) /\
  containerd.on_NewTask k = inl t /\
  (exists sp, containerd.on_Spec k = inl sp) /\
  containerd.on_Exec t = inl ps /\
  containerd.on_Wait ps = None /\ containerd.on_Start ps = None /\
  (exists ws, containerd.wakeups c = containerd.exit_received es :: ws) /\
  ok_or_NotFound (containerd.on_Task_Delete t) /\
  ok_or_NotFound (containerd.on_Container_Delete k).

(** The containers counted by their task status, and the containers that
    carry a deadline label. *)
Definition status_total (s : Stats) : Z :=
  Running s + Created s + Stopped s + Paused s + Pausing s + Unknown s.

Definition has_deadline_label (k : containerd.Container) : bool :=
  match containerd.on_Labels k with
  | inl labels => bool_decide (is_Some (labels !! "chains/deadline"))
  | inr _ => false
  end.

(** The strategy of the package's test of [createProcessSpec]. *)
Definition spec_test_createTask : createTask.t :=
  createTask.mk
    (createTask.mkOptions "" [] "61000" [] 0 "/go/src" (mkCommandDetails 0 0 0))
    None None None (Some (mock_Container None)) None
    ["java"; "-jar"; "data-prep-cli.jar"] None None None None (None, None) [].

(** A strategy whose command runs, with a lease. *)
Definition sample_running : createTask.t :=
  createTask.mk
    (createTask.mkOptions "alpine" [] "" [] 0 "" (mkCommandDetails 2 1 3))
    (Some (createTask.mkContext "unit-test")) (Some createTask.delete_lease)
    (Some "alpine") (Some (mock_Container None)) (Some (mock_Task None))
    ["sh"] (Some mock_Process) (Some tt) None None (None, None) [].

(** A runtime that serves a command whose process exits with code 3: nerdctl
    prints the id of the container between blanks. *)
Definition served_Container : containerd.Container :=
  containerd.mkContainer "c0ffee" (inl ∅) (inr ErrNotFound)
    (inl (mock_Task None)) (inl (specs.mkProcess [] "" 0)) None.

Definition runtime_exiting : containerd.Client :=
  containerd.mkClient "unit-test" None (fun _ => None) (fun _ => inl " c0ffee ")
    (fun _ => inl served_Container) (fun _ => inl []) (fun i => i) []
    [containerd.exit_received (containerd.mkExitStatus 3 None)].

(** A runtime on which the context of a running command is cancelled. *)
Definition runtime_cancelling : containerd.Client :=
  containerd.mkClient "unit-test" None (fun _ => None) (fun _ => inl "c0ffee")
    (fun _ => inr ErrNotFound) (fun _ => inl []) (fun i => i) []
    [containerd.ctx_done].

(** A runtime with two containers of the package, one with a deadline
    label. *)
Definition stats_Containerd : containerd.Client :=
  containerd.mkClient "unit-test" None (fun _ => None) (fun _ => inl "c0ffee")
    (fun _ => inr ErrNotFound)
    (fun _ => inl [labelled_Container "2020-01-01T00:00:00Z"; mock_Container None])
    (fun i => i) [] [].


(** * Properties *)

(** ** The generic command: [Wait] *)

Section Wait_properties.
Context {T S : Type} `{!Execution T S}.

Lemma closeFds_trace (l : list Writer) (g : GenericCmd T S) (w : World) :
  closeFds l (g, w) = (g, mkWorld (bufs w) (next w) (trace w ++ map Close l)).
Proof.
  revert w. induction l as [|fd l IH]; intros w; simpl.
  - rewrite app_nil_r. by destruct w.
  - rewrite IH. simpl. by rewrite <- app_assoc.
Qed.

Lemma Wait_started_eq (g : GenericCmd T S) (w : World) ec err m' b' :
  started g = true ->
  wait (client g) (Method g) (bufs w) = (Return (ec, err), m', b') ->
  Wait (g, w) =
    (Return (Wait_result ec err),
     (set_Method m' g,
      mkWorld b' (next w) (trace w ++ call_wait :: map Close (closeAfterWait g)))).
Proof.
  intros Hs Hw.
  unfold Wait, mbind, M_bind, receiver, defer, invoke_io, mret, M_ret. simpl.
  rewrite Hs. simpl. rewrite Hw. simpl.
  destruct err as [e|]; simpl.
  - rewrite closeFds_trace. simpl. by rewrite <- app_assoc.
  - destruct (decide (ec = 0)); simpl; rewrite closeFds_trace; simpl;
      by rewrite <- app_assoc.
Qed.

End Wait_properties.

(** ** The generic command: [Start] *)

Section Start_properties.
Context {T S : Type} `{!Execution T S}.

Ltac unfold_M :=
  unfold mbind, M_bind, mret, M_ret, receiver, assign, invoke, invoke_io, defer in *;
  simpl in *.

Lemma closes_app (tr1 tr2 : list event) :
  closes (tr1 ++ tr2) = (closes tr1 ++ closes tr2)%list.
Proof.
  induction tr1 as [|e tr1 IH]; [done|].
  destruct e; simpl; by rewrite ?IH.
Qed.

Lemma closes_map_Close (l : list Writer) : closes (map Close l) = l.
Proof. induction l as [|fd l IH]; simpl; by rewrite ?IH. Qed.

Lemma launch_eq (g : GenericCmd T S) (w : World) :
  (g0 ← receiver;
   if started g0 then mret (Some (errors_New "dexec: already started")) else
   assign (set_started true);;
   assign (fun g => if Stdin g is None then set_Stdin (Some emptyReader) g else g);;
   assign (fun g => if Stdout g is None
                    then set_Stdout (Some ioutil_Discard) g else g);;
   assign (fun g => if Stderr g is None
                    then set_Stderr (Some ioutil_Discard) g else g);;
   g ← receiver;
   let cmd := Path g :: Args g in
   r ← invoke (call_create cmd) (create (client g) cmd);
   match r with
   | Some err => mret (Some err)
   | None =>
       g ← receiver;
       r ← invoke_io (call_run (Stdin g) (Stdout g) (Stderr g))
                     (run (client g) (Stdin g) (Stdout g) (Stderr g));
       match r with
       | Some err => mret (Some err)
       | None => mret None
       end
   end) (g, w) = launch g w.
Proof.
  unfold launch. unfold_M.
  destruct (started g); [reflexivity|].
  fold (with_defaults (set_started true g)).
  set (g2 := with_defaults _).
  destruct (create _ _ _) as [[[e|]| |] m]; simpl; try reflexivity.
  destruct (run _ _ _ _ _ _) as [[[[e|]| |] m'] b']; simpl; reflexivity.
Qed.

Lemma Start_phases (g : GenericCmd T S) (w : World) :
  Start (g, w) =
    match forward g w with
    | (Return None, (g1, w1)) => launch g1 w1
    | r => r
    end.
Proof.
  unfold Start, forward.
  unfold mbind at 1 2 3. unfold M_bind at 1 2 3. unfold receiver at 1.
  cbn [fst snd].
  destruct (decide (Dir g = "")) as [Hd|Hd].
  - unfold mret at 1, M_ret at 1.
    destruct (Env g) as [env|].
    + destruct (invoke _ _ _) as [[[e|]| |] [g1 w1]]; try reflexivity.
      apply launch_eq.
    + apply launch_eq.
  - destruct (invoke _ _ _) as [[[e|]| |] [g1 w1]]; try reflexivity.
    destruct (Env g) as [env|].
    + destruct (invoke _ _ _) as [[[e|]| |] [g2 w2]]; try reflexivity.
      apply launch_eq.
    + apply launch_eq.
Qed.

Lemma set_Method_idem (m m' : S) (g : GenericCmd T S) :
  set_Method m (set_Method m' g) = set_Method m g.
Proof. reflexivity. Qed.

Lemma set_Method_same (g : GenericCmd T S) : set_Method (Method g) g = g.
Proof. by destruct g. Qed.

(** The first phase changes the strategy's state only, and records only
    calls of the two setters, [setDir] first when [Dir] is set. *)
Lemma forward_inv (g g1 : GenericCmd T S) (w w1 : World) r :
  forward g w = (r, (g1, w1)) ->
  exists m delta,
    g1 = set_Method m g /\
    w1 = mkWorld (bufs w) (next w) (trace w ++ delta) /\
    existsb is_create delta = false /\ closes delta = [] /\
    (Dir g <> "" -> exists tl, delta = call_setDir (Dir g) :: tl) /\
    (Dir g = "" -> forall env, Env g = Some env -> delta = [call_setEnv env]).
Proof.
  unfold forward, invoke. intros Hf.
  destruct (decide (Dir g = "")) as [Hd|Hd].
  - destruct (Env g) as [env|].
    + destruct (setEnv env (Method g)) as [r' m] eqn:He.
      simplify_eq. exists m, [call_setEnv env]. repeat split; try done.
      by intros _ env' [= ->].
    + simplify_eq. exists (Method g1), []. rewrite set_Method_same, app_nil_r.
      destruct w1. repeat split; done.
  - destruct (setDir (Dir g) (Method g)) as [r' m] eqn:Hsd.
    assert (Hstop : r' <> Return None ->
      exists m delta, g1 = set_Method m g /\
        w1 = mkWorld (bufs w) (next w) (trace w ++ delta) /\
        existsb is_create delta = false /\ closes delta = [] /\
        (Dir g <> "" -> exists tl, delta = call_setDir (Dir g) :: tl) /\
        (Dir g = "" -> forall env, Env g = Some env -> delta = [call_setEnv env])).
    { intros Hne. exists m, [call_setDir (Dir g)].
      destruct r' as [[e|]| |]; simplify_eq; repeat split; eauto; done. }
    destruct r' as [[e|]| |]; try (apply Hstop; discriminate).
    destruct (Env g) as [env|].
    + simpl in Hf. destruct (setEnv env m) as [r' m'] eqn:He.
      simplify_eq. exists m', [call_setDir (Dir g); call_setEnv env].
      repeat split; eauto; try done.
      unfold log. simpl. by rewrite <- app_assoc.
    + simplify_eq. exists m, [call_setDir (Dir g)]. repeat split; eauto; done.
Qed.

Lemma with_defaults_fields (g : GenericCmd T S) :
  Path (with_defaults g) = Path g /\ Args (with_defaults g) = Args g /\
  Env (with_defaults g) = Env g /\ Dir (with_defaults g) = Dir g /\
  started (with_defaults g) = started g /\ Method (with_defaults g) = Method g /\
  closeAfterWait (with_defaults g) = closeAfterWait g /\
  client (with_defaults g) = client g.
Proof.
  destruct g as [p a e d [i|] [o|] [er|] st m c cl]; repeat split; reflexivity.
Qed.

(** The second phase on a command that is not started: the flag is set, the
    defaults are filled in and [create] is called, whatever happens next. *)
Lemma launch_inv (g g' : GenericCmd T S) (w w' : World) r :
  started g = false ->
  launch g w = (r, (g', w')) ->
  exists m b tl,
    g' = set_Method m (with_defaults (set_started true g)) /\
    w' = mkWorld b (next w) (trace w ++ call_create (Path g :: Args g) :: tl) /\
    closes tl = [].
Proof.
  unfold launch, invoke, invoke_io. intros -> Hl.
  set (g2 := with_defaults _) in *.
  destruct (with_defaults_fields (set_started true g)) as (HP & HA & _).
  fold g2 in HP, HA. simpl in HP, HA. rewrite HP, HA in Hl.
  destruct (create _ _ _) as [r1 m1] eqn:Hc.
  assert (Hstop : r1 <> Return None ->
    exists m b tl, g' = set_Method m g2 /\
      w' = mkWorld b (next w) (trace w ++ call_create (Path g :: Args g) :: tl) /\
      closes tl = []).
  { intros Hne. exists m1, (bufs w), [].
    destruct r1 as [[e|]| |]; simplify_eq; done. }
  destruct r1 as [[e|]| |]; try (apply Hstop; discriminate).
  simpl in Hl. destruct (run _ _ _ _ _ _) as [[r2 m2] b2] eqn:Hr.
  simplify_eq. exists m2, b2, [call_run (Stdin g2) (Stdout g2) (Stderr g2)].
  repeat split.
  unfold set_bufs, log. simpl. by rewrite <- app_assoc.
Qed.

Lemma launch_started (g : GenericCmd T S) (w : World) :
  started g = true ->
  launch g w = (Return (Some AlreadyStarted), (g, w)).
Proof. unfold launch. by intros ->. Qed.

(** What one call of [Start] does to the flag and to the fields it does not
    own: the flag is raised exactly when the call got as far as [create]. *)
Lemma Start_inv (g g' : GenericCmd T S) (w w' : World) r :
  Start (g, w) = (r, (g', w')) ->
  exists delta,
    trace w' = (trace w ++ delta)%list /\
    started g' = started g || existsb is_create delta /\
    closes delta = [] /\
    (Dir g <> "" -> exists tl, delta = call_setDir (Dir g) :: tl) /\
    (Dir g = "" -> forall env, Env g = Some env ->
       exists tl, delta = call_setEnv env :: tl) /\
    Dir g' = Dir g /\ Env g' = Env g /\
    closeAfterWait g' = closeAfterWait g /\ client g' = client g /\
    next w' = next w.
Proof.
  rewrite Start_phases. intros HS.
  destruct (forward g w) as [r1 [g1 w1]] eqn:Hf.
  destruct (forward_inv _ _ _ _ _ Hf)
    as (m & d1 & -> & -> & Hd1 & Hcl1 & Hdir & Henv).
  assert (Hstop : r1 <> Return None ->
    exists delta,
      trace w' = (trace w ++ delta)%list /\
      started g' = started g || existsb is_create delta /\
      closes delta = [] /\
      (Dir g <> "" -> exists tl, delta = call_setDir (Dir g) :: tl) /\
      (Dir g = "" -> forall env, Env g = Some env ->
         exists tl, delta = call_setEnv env :: tl) /\
      Dir g' = Dir g /\ Env g' = Env g /\
      closeAfterWait g' = closeAfterWait g /\ client g' = client g /\
      next w' = next w).
  { intros Hne. exists d1.
    destruct r1 as [[e|]| |]; simplify_eq; simpl; rewrite Hd1, orb_false_r;
      repeat split; try done; intros Hd env He; rewrite (Henv Hd env He); eauto. }
  destruct r1 as [[e|]| |]; try (apply Hstop; discriminate).
  destruct (started g) eqn:Hst.
  - rewrite launch_started in HS by done. simplify_eq. exists d1. simpl.
    repeat split; try done.
    intros Hd env He. rewrite (Henv Hd env He). eauto.
  - apply launch_inv in HS; [|done].
    destruct HS as (m2 & b2 & tl & -> & -> & Htl).
    assert (Hcl : closes (d1 ++ call_create (Path g :: Args g) :: tl) = []).
    { rewrite closes_app, Hcl1. simpl. exact Htl. }
    destruct (with_defaults_fields (set_started true (set_Method m g)))
      as (_ & _ & HE & HD & Hst' & _ & HC & HCl).
    exists (d1 ++ call_create (Path g :: Args g) :: tl)%list. simpl.
    rewrite <- app_assoc, HE, HD, Hst', HC, HCl, existsb_app. simpl.
    rewrite orb_true_r. repeat split; try done.
    + intros Hne. destruct (Hdir Hne) as [tl' ->]. eauto.
    + intros Hd env He. rewrite (Henv Hd env He). eauto.
Qed.

Lemma Wait_not_started (g : GenericCmd T S) (w : World) :
  started g = false ->
  Wait (g, w) =
    (Return (Some NotStarted),
     (g, mkWorld (bufs w) (next w) (trace w ++ map Close (closeAfterWait g)))).
Proof.
  intros Hs. unfold Wait. unfold_M. rewrite Hs. simpl.
  by rewrite closeFds_trace.
Qed.

Lemma Wait_started_calls_wait (g : GenericCmd T S) (w : World) :
  started g = true ->
  exists tl, trace (snd (after (Wait (g, w)))) = (trace w ++ call_wait :: tl)%list.
Proof.
  intros Hs. unfold Wait, after. unfold_M. rewrite Hs. simpl.
  destruct (wait _ _ _) as [[[[ec [e|]]| |] m] b]; simpl;
    try destruct (decide (ec = 0)); simpl;
    rewrite ?closeFds_trace; simpl; rewrite <- ?app_assoc; simpl; eauto.
Qed.

(** Without [Dir] and [Env], [Start] on a started command is refused by the
    guard and changes nothing. *)
Lemma Start_again_without_Dir_Env (g : GenericCmd T S) (w : World) :
  Dir g = "" -> Env g = None -> started g = true ->
  Start (g, w) = (Return (Some AlreadyStarted), (g, w)).
Proof.
  intros Hd He Hs. rewrite Start_phases. unfold forward.
  rewrite decide_True by done. rewrite He. by apply launch_started.
Qed.

End Start_properties.

(** ** C3: what [Wait] returns for a started command *)

Section Wait_claim.
Context {T S : Type} `{!Execution T S}.

(** C3. For a started command whose strategy's [wait] returns the exit code
    [ec] and the error [err], [Wait] returns [err] itself when it is non-nil,
    nil when [ec] is 0, and an [ExitError] with that exit code otherwise; in
    each case every closer of [closeAfterWait] has been closed, in order,
    after the strategy's [wait] and before [Wait] returns. *)
Theorem Wait_started_returns (g : GenericCmd T S) (w : World)
    (ec : Z) (err : option error) (m' : S) (b' : Buffers) :
  started g = true ->
  wait (client g) (Method g) (bufs w) = (Return (ec, err), m', b') ->
  exists (r : option error) (g' : GenericCmd T S) (w' : World),
    Wait (g, w) = (Return r, (g', w')) /\
    (forall e, err = Some e -> r = Some e) /\
    (err = None -> ec = 0 -> r = None) /\
    (err = None -> ec <> 0 -> r = Some (ExitError ec [])) /\
    trace w' = (trace w ++ call_wait :: map Close (closeAfterWait g))%list /\
    Forall (fun fd => In (Close fd) (trace w')) (closeAfterWait g).
Proof.
  intros Hs Hw.
  eexists _, _, _. split; [by apply Wait_started_eq|].
  unfold Wait_result. simpl. repeat split.
  - by intros e ->.
  - intros -> ->. reflexivity.
  - intros -> Hne. by destruct (decide (ec = 0)).
  - apply Forall_forall. intros fd Hfd. apply list_elem_of_In in Hfd.
    apply in_or_app. right. right. by apply in_map.
Qed.

End Wait_claim.

(** The claim at a started command with its three pipes, over a daemon whose
    container exits with code 2. *)
Lemma Wait_started_returns_witness :
  started (fst piped_started) = true /\
  exists r g' w',
    Wait piped_started = (Return r, (g', w')) /\
    (forall e, @None error = Some e -> r = Some e) /\
    (@None error = None -> 2 = 0 -> r = None) /\
    (@None error = None -> 2 <> 0 -> r = Some (ExitError 2 [])) /\
    trace w' = (trace (snd piped_started) ++
                call_wait :: map Close (closeAfterWait (fst piped_started)))%list /\
    Forall (fun fd => In (Close fd) (trace w'))
           (closeAfterWait (fst piped_started)).
Proof.
  split; [reflexivity|].
  apply (Wait_started_returns (fst piped_started) (snd piped_started) 2 None
           (snd (fst piped_started_wait)) (snd piped_started_wait));
    vm_compute; reflexivity.
Defined.

(** ** C1: [Wait] and a failed [Start] *)

(** C1, as stated, fails: over a daemon that refuses to create the container,
    [Start] returns the error of the [create] step, and [Wait] then asks the
    strategy, which answers that the container is not attached. *)
Lemma Wait_after_failed_create_counterexample :
  exists e st,
    Start (sample_Cmd daemon_refusing, World_init) = (Return (Some e), st) /\
    e = Errorf_v "dexec: failed to create container: %v"
                 (errors_New "no such image") /\
    started (fst st) = true /\
    fst (Wait st) = Return (Some (errors_New "dexec: container is not attached")) /\
    fst (Wait st) <> Return (Some NotStarted).
Proof.
  eexists _, refused_started. repeat split; try (vm_compute; reflexivity).
  vm_compute. discriminate.
Qed.

Section Wait_after_Start.
Context {T S : Type} `{!Execution T S}.

(** C1, amended. A command that was never started answers [Wait] with
    NotStarted; after a call of [Start] on it, [Wait] still answers NotStarted
    when that call ended before the [create] step (in forwarding [Dir] or
    [Env]); once [Start] has reached [create], whether [create] or [run] then
    fails or not, the command is started and [Wait] calls the strategy's
    [wait]. *)
Theorem Wait_NotStarted_until_create (g : GenericCmd T S) (w : World) :
  started g = false ->
  fst (Wait (g, w)) = Return (Some NotStarted) /\
  forall r g' w', Start (g, w) = (r, (g', w')) ->
    exists delta,
      trace w' = (trace w ++ delta)%list /\
      (existsb is_create delta = false ->
         fst (Wait (g', w')) = Return (Some NotStarted)) /\
      (existsb is_create delta = true ->
         started g' = true /\
         exists tl,
           trace (snd (after (Wait (g', w')))) = (trace w' ++ call_wait :: tl)%list).
Proof.
  intros Hs. split; [by rewrite Wait_not_started|].
  intros r g' w' HS.
  destruct (Start_inv _ _ _ _ _ HS) as (delta & Ht & Hst & _).
  rewrite Hs in Hst. simpl in Hst.
  exists delta. split; [done|]. split; intros Hc; rewrite Hc in Hst.
  - by rewrite Wait_not_started.
  - split; [done|]. by apply Wait_started_calls_wait.
Qed.

End Wait_after_Start.

(** The amended claim at the command over the refusing daemon. *)
Lemma Wait_NotStarted_until_create_witness :
  started (sample_Cmd daemon_refusing) = false /\
  fst (Wait (sample_Cmd daemon_refusing, World_init)) = Return (Some NotStarted) /\
  forall r g' w',
    Start (sample_Cmd daemon_refusing, World_init) = (r, (g', w')) ->
    exists delta,
      trace w' = (trace World_init ++ delta)%list /\
      (existsb is_create delta = false ->
         fst (Wait (g', w')) = Return (Some NotStarted)) /\
      (existsb is_create delta = true ->
         started g' = true /\
         exists tl,
           trace (snd (after (Wait (g', w')))) = (trace w' ++ call_wait :: tl)%list).
Proof.
  split; [reflexivity|].
  apply (Wait_NotStarted_until_create (sample_Cmd daemon_refusing) World_init).
  reflexivity.
Defined.

(** ** C2: [Start] twice *)

(** C2 at a command with a working directory: the first [Start] succeeds and
    raises the flag, the second returns the refusal of the strategy's
    [setDir], not AlreadyStarted. *)
Lemma Start_twice_with_Dir :
  exists st1 st2,
    Start (Cmd_in_work, World_init) = (Return None, st1) /\
    started (fst st1) = true /\
    Start st1 = (Return (Some WorkingDirAlreadySet), st2) /\
    Some WorkingDirAlreadySet <> Some AlreadyStarted.
Proof.
  exists Cmd_in_work_started.
  eexists. repeat split; try (vm_compute; reflexivity). discriminate.
Qed.

(** ** C10: the setters run before the guard *)

Section first_writer_wins.
Context {T S : Type} `{!Execution T S}.

(** The working directory the strategy holds, and the laws of the two
    strategies of the package: [setDir] refuses to overwrite it, and no other
    method of a [Start] touches it. *)
Variable wd : S -> string.
Hypothesis setDir_refuses :
  forall d s, wd s <> "" -> setDir d s = (Return (Some WorkingDirAlreadySet), s).
Hypothesis setDir_sets :
  forall d s, wd s = "" -> wd (snd (setDir d s)) = d.
Hypothesis setEnv_keeps : forall env s, wd (snd (setEnv env s)) = wd s.
Hypothesis create_keeps : forall (c : T) cmd s, wd (snd (create c cmd s)) = wd s.
Hypothesis run_keeps :
  forall (c : T) i o e s b, wd (snd (fst (run c i o e s b))) = wd s.

Lemma forward_sets_wd (g g1 : GenericCmd T S) (w w1 : World) r :
  Dir g <> "" -> forward g w = (r, (g1, w1)) -> wd (Method g1) <> "".
Proof.
  unfold forward, invoke. intros Hd Hf.
  rewrite decide_False in Hf by done.
  assert (Hsd : wd (snd (setDir (Dir g) (Method g))) <> "").
  { destruct (decide (wd (Method g) = "")) as [He|Hne].
    - by rewrite setDir_sets.
    - by rewrite setDir_refuses. }
  destruct (setDir (Dir g) (Method g)) as [r' m]. simpl in Hsd.
  destruct r' as [[e|]| |]; try (by simplify_eq).
  destruct (Env g) as [env|]; [|by simplify_eq].
  simpl in Hf. pose proof (setEnv_keeps env m) as Hk.
  destruct (setEnv env m) as [r' m']. simpl in Hk. simplify_eq. simpl.
  by rewrite Hk.
Qed.

Lemma launch_keeps_wd (g g' : GenericCmd T S) (w w' : World) r :
  launch g w = (r, (g', w')) -> wd (Method g') = wd (Method g).
Proof.
  unfold launch, invoke, invoke_io. intros Hl.
  destruct (started g); [by simplify_eq|].
  set (g2 := with_defaults _) in *.
  assert (Hm : Method g2 = Method g).
  { by destruct (with_defaults_fields (set_started true g))
      as (_ & _ & _ & _ & _ & Hm & _). }
  pose proof (create_keeps (client g2) (Path g2 :: Args g2) (Method g2)) as Hc.
  destruct (create _ _ _) as [r1 m1]. simpl in Hc. rewrite Hm in Hc.
  destruct r1 as [[e|]| |]; try (by simplify_eq).
  simpl in Hl.
  pose proof (run_keeps (client g2) (Stdin g2) (Stdout g2) (Stderr g2) m1 (bufs w))
    as Hr.
  destruct (run _ _ _ _ _ _) as [[r2 m2] b2]. simpl in Hr. simplify_eq. simpl.
  by rewrite Hr.
Qed.

(** After a [Start] with a non-empty [Dir] the strategy holds a working
    directory, whatever the call returned. *)
Lemma Start_sets_wd (g g' : GenericCmd T S) (w w' : World) r :
  Dir g <> "" -> Start (g, w) = (r, (g', w')) -> wd (Method g') <> "".
Proof.
  rewrite Start_phases. intros Hd HS.
  destruct (forward g w) as [r1 [g1 w1]] eqn:Hf.
  pose proof (forward_sets_wd _ _ _ _ _ Hd Hf) as Hwd.
  destruct r1 as [[e|]| |]; try (by simplify_eq).
  apply launch_keeps_wd in HS. by rewrite HS.
Qed.

(** On a strategy that holds a working directory, [Start] with a non-empty
    [Dir] stops at [setDir], before the guard. *)
Lemma Start_refused_by_setDir (g : GenericCmd T S) (w : World) :
  Dir g <> "" -> wd (Method g) <> "" ->
  Start (g, w) =
    (Return (Some WorkingDirAlreadySet), (g, log (call_setDir (Dir g)) w)).
Proof.
  intros Hd Hwd. rewrite Start_phases. unfold forward, invoke.
  rewrite decide_False by done. rewrite setDir_refuses by done.
  by rewrite set_Method_same.
Qed.

Lemma Start_twice_Dir (g g1 : GenericCmd T S) (w w1 : World) r1 :
  Dir g <> "" ->
  Start (g, w) = (r1, (g1, w1)) ->
  (exists tl, trace w1 = (trace w ++ call_setDir (Dir g) :: tl)%list) /\
  Start (g1, w1) =
    (Return (Some WorkingDirAlreadySet), (g1, log (call_setDir (Dir g)) w1)).
Proof.
  intros Hd HS.
  destruct (Start_inv _ _ _ _ _ HS) as (delta & Ht & _ & _ & Hfirst & _ & HD & _).
  split.
  - destruct (Hfirst Hd) as [tl ->]. eauto.
  - rewrite <- HD. apply Start_refused_by_setDir.
    + by rewrite HD.
    + by eapply Start_sets_wd.
Qed.

End first_writer_wins.

(** *** The daemon-container strategy obeys the laws *)

Lemma createContainer_setDir_refuses d c :
  createContainer_wd c <> "" ->
  createContainer.setDir d c = (Return (Some WorkingDirAlreadySet), c).
Proof.
  unfold createContainer_wd, createContainer.setDir. intros Hne.
  by rewrite decide_False.
Qed.

Lemma createContainer_setDir_sets d c :
  createContainer_wd c = "" ->
  createContainer_wd (snd (createContainer.setDir d c)) = d.
Proof.
  unfold createContainer_wd, createContainer.setDir. intros He.
  by rewrite decide_True.
Qed.

Lemma createContainer_setEnv_keeps env c :
  createContainer_wd (snd (createContainer.setEnv env c)) = createContainer_wd c.
Proof.
  unfold createContainer_wd, createContainer.setEnv. by case_decide.
Qed.

Lemma createContainer_create_keeps (d : Docker) cmd c :
  createContainer_wd (snd (createContainer.create d cmd c)) = createContainer_wd c.
Proof.
  unfold createContainer_wd, createContainer.create. simpl.
  repeat case_decide; try done.
  by destruct (docker.on_CreateContainer _ _).
Qed.

Lemma createContainer_run_keeps (d : Docker) i o e c b :
  createContainer_wd (snd (fst (createContainer.run d i o e c b)))
  = createContainer_wd c.
Proof.
  unfold createContainer_wd, createContainer.run. simpl.
  case_decide; [done|].
  destruct (docker.on_StartContainer _ _); [done|].
  by destruct (docker.on_Attach _ _).
Qed.

(** *** The namespaced-task strategy obeys the laws *)

Lemma keeps_opts_ret {A} (a : A) : keeps_opts (mret a : createTask.Op A).
Proof. by intros x. Qed.

Lemma keeps_opts_bind {A B} (m : createTask.Op A) (k : A -> createTask.Op B) :
  keeps_opts m -> (forall a, keeps_opts (k a)) -> keeps_opts (m ≫= k).
Proof.
  intros Hm Hk x. unfold mbind, createTask.Op_bind.
  specialize (Hm x). destruct (m x) as [[a| |] x']; simpl in *; try done.
  by rewrite Hk.
Qed.

Lemma keeps_opts_self : keeps_opts createTask.self.
Proof. by intros x. Qed.

Lemma keeps_opts_deref {A} (f : createTask.t -> option A) :
  keeps_opts (createTask.deref f).
Proof. intros x. unfold createTask.deref. by destruct (f x). Qed.

Lemma keeps_opts_update (f : createTask.t -> createTask.t) :
  (forall x, createTask.opts (f x) = createTask.opts x) ->
  keeps_opts (createTask.update f).
Proof. intros Hf x. apply Hf. Qed.

Lemma keeps_opts_ask r : keeps_opts (createTask.ask r).
Proof. by intros x. Qed.

Create HintDb keeps_opts.
#[local] Hint Resolve keeps_opts_ret keeps_opts_self keeps_opts_deref
  keeps_opts_ask : keeps_opts.

Ltac keeps_opts :=
  repeat first
    [ apply keeps_opts_bind; [|intros ?]
    | apply keeps_opts_update; by intros ?
    | solve [auto with keeps_opts]
    | match goal with
      | |- keeps_opts (match ?t with _ => _ end) => destruct t
      | |- keeps_opts (if ?t then _ else _) => destruct t
      end ].

Lemma createTask_createContainer_keeps (c : Containerd) :
  keeps_opts (createTask.createContainer c).
Proof. unfold createTask.createContainer. keeps_opts. Qed.

Lemma createTask_create_keeps (c : Containerd) cmd :
  keeps_opts (createTask.create c cmd).
Proof.
  unfold createTask.create.
  pose proof (createTask_createContainer_keeps c). keeps_opts.
Qed.

Lemma createTask_run_keeps stdout stderr :
  keeps_opts (createTask.run_body stdout stderr).
Proof.
  unfold createTask.run_body, createTask.createTask,
    createTask.createProcessSpec.
  keeps_opts.
Qed.

Lemma createTask_setDir_refuses d x :
  createTask_wd x <> "" ->
  createTask.setDir d x = (Return (Some WorkingDirAlreadySet), x).
Proof.
  unfold createTask_wd, createTask.setDir. intros Hne. by rewrite decide_False.
Qed.

Lemma createTask_setDir_sets d x :
  createTask_wd x = "" -> createTask_wd (snd (createTask.setDir d x)) = d.
Proof.
  unfold createTask_wd, createTask.setDir. intros He. by rewrite decide_True.
Qed.

Lemma createTask_setEnv_keeps env x :
  createTask_wd (snd (createTask.setEnv env x)) = createTask_wd x.
Proof. unfold createTask_wd, createTask.setEnv. by case_decide. Qed.

(** C10. [Start] forwards [Dir] (when non-empty) and [Env] (when non-nil) to
    the strategy before it looks at the [started] flag: whatever the flag,
    the call of [setDir], or of [setEnv] when [Dir] is empty, is the first
    thing a [Start] does. With either strategy of the package, a command
    whose [Dir] is non-empty therefore gets the refusal of [setDir] from its
    second [Start], not AlreadyStarted, and [setDir] is called again. *)
Theorem Start_setters_before_guard :
  (forall (T S : Type) (E : Execution T S) (g : GenericCmd T S) (w : World),
     (Dir g <> "" ->
      exists tl,
        trace (snd (after (Start (g, w))))
        = (trace w ++ call_setDir (Dir g) :: tl)%list) /\
     (Dir g = "" -> forall env, Env g = Some env ->
      exists tl,
        trace (snd (after (Start (g, w))))
        = (trace w ++ call_setEnv env :: tl)%list)) /\
  (forall (g g1 : GenericCmd Docker createContainer.t) (w w1 : World) r1,
     Dir g <> "" ->
     Start (g, w) = (r1, (g1, w1)) ->
     Start (g1, w1) =
       (Return (Some WorkingDirAlreadySet), (g1, log (call_setDir (Dir g)) w1))) /\
  (forall (g g1 : GenericCmd Containerd createTask.t) (w w1 : World) r1,
     Dir g <> "" ->
     Start (g, w) = (r1, (g1, w1)) ->
     Start (g1, w1) =
       (Return (Some WorkingDirAlreadySet), (g1, log (call_setDir (Dir g)) w1))).
Proof.
  split; [|split].
  - intros T S E g w. unfold after.
    destruct (Start (g, w)) as [r [g' w']] eqn:HS.
    destruct (Start_inv _ _ _ _ _ HS) as (delta & Ht & _ & _ & Hdir & Henv & _).
    simpl. rewrite Ht. split.
    + intros Hd. destruct (Hdir Hd) as [tl ->]. eauto.
    + intros Hd env He. destruct (Henv Hd env He) as [tl ->]. eauto.
  - intros g g1 w w1 r1 Hd HS.
    eapply (Start_twice_Dir createContainer_wd); eauto.
    + apply createContainer_setDir_refuses.
    + apply createContainer_setDir_sets.
    + apply createContainer_setEnv_keeps.
    + apply createContainer_create_keeps.
    + apply createContainer_run_keeps.
  - intros g g1 w w1 r1 Hd HS.
    eapply (Start_twice_Dir createTask_wd); eauto.
    + apply createTask_setDir_refuses.
    + apply createTask_setDir_sets.
    + apply createTask_setEnv_keeps.
    + intros c cmd x.
      exact (f_equal createTask.WorkingDir (createTask_create_keeps c cmd x)).
    + intros c i o e x b.
      exact (f_equal createTask.WorkingDir (createTask_run_keeps o e x)).
Qed.

(** The claim at the command with the working directory [/work]: its first
    [Start] succeeds, its second is refused by [setDir]. *)
Lemma Start_setters_before_guard_witness :
  Dir Cmd_in_work <> "" /\
  Start (Cmd_in_work, World_init) = (Return None, Cmd_in_work_started) /\
  Start Cmd_in_work_started =
    (Return (Some WorkingDirAlreadySet),
     (fst Cmd_in_work_started,
      log (call_setDir (Dir Cmd_in_work)) (snd Cmd_in_work_started))).
Proof.
  assert (Hd : Dir Cmd_in_work <> "") by discriminate.
  assert (HS : Start (Cmd_in_work, World_init) = (Return None, Cmd_in_work_started))
    by (vm_compute; reflexivity).
  split; [exact Hd|]. split; [exact HS|].
  destruct Start_setters_before_guard as (_ & Hdocker & _).
  exact (Hdocker Cmd_in_work (fst Cmd_in_work_started) World_init
           (snd Cmd_in_work_started) (Return None) Hd HS).
Defined.

(** ** C6: [Output] *)

Section Output_claim.
Context {T S : Type} `{!Execution T S}.

Ltac unfold_M :=
  unfold mbind, M_bind, mret, M_ret, receiver, assign, invoke, invoke_io, defer in *;
  simpl in *.

(** C6. [Output] rejects a command whose [Stdout] is set, without touching
    it. Otherwise it runs the command with [Stdout] bound to a fresh, empty
    buffer and, when [Stderr] was nil, with [Stderr] bound to a second one;
    it returns the bytes of the first buffer as the run left them, with the
    error of the run, and when [Stderr] was nil and that error is an
    [ExitError], the bytes of the second buffer are stored in its [Stderr]
    field. *)
Theorem Output_captures (g : GenericCmd T S) (w : World) :
  (forall o, Stdout g = Some o ->
     Output (g, w) =
       (Return ([], Some (errors_New "dexec: Stdout already set")), (g, w))) /\
  (Stdout g = None ->
   let stdout := next w in
   let stderr := Datatypes.S (next w) in
   let w0 := mkWorld (<[stderr := []]> (<[stdout := []]> (bufs w)))
                     (Datatypes.S (Datatypes.S (next w))) (trace w) in
   let g0 := set_Stdout (Some (Buffer stdout)) g in
   (Stderr g = None ->
    forall err g' w',
      Run (set_Stderr (Some (Buffer stderr)) g0, w0) = (Return err, (g', w')) ->
      Output (g, w) =
        (Return (Buffer_Bytes stdout (bufs w'),
                 match err with
                 | Some (ExitError ec _) =>
                     Some (ExitError ec (Buffer_Bytes stderr (bufs w')))
                 | _ => err
                 end),
         (g', w'))) /\
   (forall e, Stderr g = Some e ->
    forall err g' w',
      Run (g0, w0) = (Return err, (g', w')) ->
      Output (g, w) = (Return (Buffer_Bytes stdout (bufs w'), err), (g', w')))).
Proof.
  split.
  - intros o Ho. unfold Output. unfold_M. by rewrite Ho.
  - intros Ho stdout stderr w0 g0. subst stdout stderr w0 g0. split.
    + intros He err g' w' HR. unfold Output, new_Buffer, Buffer_contents.
      unfold_M. rewrite Ho. cbn. rewrite He. cbn.
      rewrite HR. cbn.
      by destruct err as [[]|].
    + intros e He err g' w' HR. unfold Output, new_Buffer, Buffer_contents.
      unfold_M. rewrite Ho. cbn. rewrite He. cbn.
      rewrite HR. cbn.
      by destruct err as [[]|].
Qed.

End Output_claim.

(** The claim at the scenario of the spec: the output is "partial", the
    error is [ExitError{ExitCode: 1, Stderr: "boom"}]. *)
Lemma Output_captures_witness :
  Stdout (sample_Cmd daemon_boom) = None /\
  Stderr (sample_Cmd daemon_boom) = None /\
  fst (Output (sample_Cmd daemon_boom, World_init)) =
    Return (bytes_of "partial", Some (ExitError 1 (bytes_of "boom"))).
Proof.
  split; [reflexivity|]. split; [reflexivity|].
  destruct (Output_captures (sample_Cmd daemon_boom) World_init) as [_ Hcap].
  destruct (Hcap eq_refl) as [Hnil _].
  set (st := Run (set_Stderr (Some (Buffer 1%nat))
                    (set_Stdout (Some (Buffer 0%nat)) (sample_Cmd daemon_boom)),
                  mkWorld (<[1%nat := []]> (<[0%nat := []]> ∅)) 2 [])).
  rewrite (Hnil eq_refl (Some (ExitError 1 [])) (fst (snd st)) (snd (snd st)));
    vm_compute; reflexivity.
Defined.

(** ** C7: pipes and closers *)

Section closers.
Context {T S : Type} `{!Execution T S}.

Ltac unfold_M :=
  unfold mbind, M_bind, mret, M_ret, receiver, assign, invoke, invoke_io, defer in *;
  simpl in *.

(** [Wait] closes every registered writer once, in order, on every path on
    which it comes back; it registers nothing. *)
Lemma Wait_inv (g g' : GenericCmd T S) (w w' : World) r :
  Wait (g, w) = (r, (g', w')) ->
  closeAfterWait g' = closeAfterWait g /\ next w' = next w /\
  exists delta,
    trace w' = (trace w ++ delta)%list /\
    (r = Blocked /\ closes delta = [] \/
     r <> Blocked /\ closes delta = closeAfterWait g).
Proof.
  unfold Wait. unfold_M. intros HW.
  destruct (started g); simpl in HW.
  - destruct (wait _ _ _) as [[[[ec [e|]]| |] m] b]; simpl in HW;
      try destruct (decide (ec = 0)); simpl in HW;
      rewrite ?closeFds_trace in HW;
      injection HW as Hr Hg Hw; subst r g' w'; simpl;
      (split; [done|]; split; [done|]);
      try (exists (call_wait :: map Close (closeAfterWait g));
           rewrite <- app_assoc; split; [done|]; right; split; [done|];
           simpl; apply closes_map_Close).
    exists [call_wait]. split; [done|]. by left.
  - rewrite closeFds_trace in HW. injection HW as Hr Hg Hw; subst r g' w'.
    simpl. split; [done|]. split; [done|].
    exists (map Close (closeAfterWait g)). split; [done|]. right.
    split; [done|]. apply closes_map_Close.
Qed.

Lemma Run_phases (st : GenericCmd T S * World) :
  Run st =
    match Start st with
    | (Return None, st1) => Wait st1
    | r => r
    end.
Proof.
  unfold Run. unfold mbind, M_bind, mret, M_ret.
  by destruct (Start st) as [[[e|]| |] st1].
Qed.

(** [Run] registers nothing and closes nothing or every registered writer
    once. *)
Lemma Run_inv (g g' : GenericCmd T S) (w w' : World) r :
  Run (g, w) = (r, (g', w')) ->
  closeAfterWait g' = closeAfterWait g /\ next w' = next w /\
  exists delta,
    trace w' = (trace w ++ delta)%list /\
    (closes delta = [] \/ closes delta = closeAfterWait g).
Proof.
  rewrite Run_phases. intros HR.
  destruct (Start (g, w)) as [r1 [g1 w1]] eqn:HS.
  destruct (Start_inv _ _ _ _ _ HS)
    as (d1 & Ht1 & _ & Hc1 & _ & _ & _ & _ & HC1 & _ & Hn1).
  assert (Hstop : r1 <> Return None ->
    closeAfterWait g' = closeAfterWait g /\ next w' = next w /\
    exists delta,
      trace w' = (trace w ++ delta)%list /\
      (closes delta = [] \/ closes delta = closeAfterWait g)).
  { intros Hne. destruct r1 as [[e|]| |]; simplify_eq; eauto 10. }
  destruct r1 as [[e|]| |]; try (apply Hstop; discriminate).
  destruct (Wait_inv _ _ _ _ _ HR) as (HC2 & Hn2 & d2 & Ht2 & Hc2).
  split; [congruence|]. split; [congruence|].
  exists (d1 ++ d2)%list. rewrite Ht2, Ht1, <- app_assoc. split; [done|].
  rewrite closes_app, Hc1. simpl.
  destruct Hc2 as [[_ ->]|[_ ->]]; [by left|right; congruence].
Qed.

Lemma footprint_calm (g g' : GenericCmd T S) (w w' : World) delta :
  closeAfterWait g' = closeAfterWait g ->
  (next w <= next w')%nat ->
  trace w' = (trace w ++ delta)%list ->
  closes delta = [] \/ closes delta = closeAfterWait g ->
  footprint (g, w) (g', w').
Proof.
  intros HC Hn Ht Hc. exists [], delta. simpl.
  rewrite app_nil_r. split; [done|]. split; [by left|]. done.
Qed.

Lemma footprint_same (g g' : GenericCmd T S) (w : World) :
  closeAfterWait g' = closeAfterWait g -> footprint (g, w) (g', w).
Proof.
  intros HC. apply (footprint_calm g g' w w []); try done.
  - by rewrite app_nil_r.
  - by left.
Qed.

Lemma Output_footprint (st : GenericCmd T S * World) :
  footprint st (after (Output st)).
Proof.
  destruct st as [g w]. unfold after, Output, new_Buffer, Buffer_contents.
  unfold_M. destruct (Stdout g) as [o|]; cbn.
  - by apply footprint_same.
  - destruct (Stderr g); cbn;
      match goal with
      | |- context [Run ?st] => destruct (Run st) as [r [g3 w3]] eqn:HR
      end;
      destruct (Run_inv _ _ _ _ _ HR) as (HC & Hn & delta & Ht & Hc);
      simpl in HC, Hn, Ht, Hc;
      apply footprint_calm with (delta := delta);
      destruct r as [[]| |]; simpl; first [done | lia].
Qed.

Lemma CombinedOutput_footprint (st : GenericCmd T S * World) :
  footprint st (after (CombinedOutput st)).
Proof.
  destruct st as [g w]. unfold after, CombinedOutput, new_Buffer, Buffer_contents.
  unfold_M. destruct (Stdout g) as [o|]; cbn.
  - by apply footprint_same.
  - destruct (Stderr g) as [e|]; cbn.
    + by apply footprint_same.
    + match goal with
      | |- context [Run ?st] => destruct (Run st) as [r [g3 w3]] eqn:HR
      end.
      destruct (Run_inv _ _ _ _ _ HR) as (HC & Hn & delta & Ht & Hc).
      simpl in HC, Hn, Ht, Hc.
      apply footprint_calm with (delta := delta);
        destruct r as [[]| |]; simpl; first [done | lia].
Qed.

Lemma pipe_footprint (st : GenericCmd T S * World) :
  footprint st (after (StdinPipe st)) /\
  footprint st (after (StdoutPipe st)) /\
  footprint st (after (StderrPipe st)).
Proof.
  destruct st as [g w]. unfold after, StdinPipe, StdoutPipe, StderrPipe, io_Pipe.
  unfold_M. repeat split.
  - destruct (Stdin g); cbn; [by apply footprint_same|].
    apply footprint_calm with (delta := []); simpl;
      [done|lia|by rewrite app_nil_r|by left].
  - destruct (Stdout g); cbn; [by apply footprint_same|].
    exists [PipeWriter (next w)], []. simpl. rewrite app_nil_r.
    repeat split; [by right|by left].
  - destruct (Stderr g); cbn; [by apply footprint_same|].
    exists [PipeWriter (next w)], []. simpl. rewrite app_nil_r.
    repeat split; [by right|by left].
Qed.

Lemma invoke_footprint {A} (e : event) (f : S -> outcome A * S)
    (st : GenericCmd T S * World) :
  closes [e] = [] -> footprint st (after (invoke e f st)).
Proof.
  intros He. destruct st as [g w]. unfold after, invoke.
  destruct (f (Method g)) as [r m]. simpl.
  apply footprint_calm with (delta := [e]); simpl; try done. by left.
Qed.

(** Every call of the interface keeps within the footprint. *)
Lemma perform_footprint (c : api_call) (st : GenericCmd T S * World) :
  footprint st (perform c st).
Proof.
  destruct c; simpl; try (destruct st; by apply footprint_same).
  - destruct st as [g w]. unfold after.
    destruct (Start (g, w)) as [r [g' w']] eqn:HS.
    destruct (Start_inv _ _ _ _ _ HS)
      as (d & Ht & _ & Hc & _ & _ & _ & _ & HC & _ & Hn).
    apply footprint_calm with (delta := d); simpl; try done; [lia|by left].
  - destruct st as [g w]. unfold after.
    destruct (Wait (g, w)) as [r [g' w']] eqn:HW.
    destruct (Wait_inv _ _ _ _ _ HW) as (HC & Hn & d & Ht & Hc).
    apply footprint_calm with (delta := d); simpl; try done; [lia|].
    destruct Hc as [[_ ?]|[_ ?]]; eauto.
  - destruct st as [g w]. unfold after.
    destruct (Run (g, w)) as [r [g' w']] eqn:HR.
    destruct (Run_inv _ _ _ _ _ HR) as (HC & Hn & d & Ht & Hc).
    apply footprint_calm with (delta := d); simpl; try done. lia.
  - apply Output_footprint.
  - apply CombinedOutput_footprint.
  - apply pipe_footprint.
  - apply pipe_footprint.
  - apply pipe_footprint.
  - unfold GetPID. unfold_M. destruct (started (fst st)).
    + by apply invoke_footprint.
    + destruct st. by apply footprint_same.
  - unfold Kill. unfold_M. destruct (started (fst st)).
    + by apply invoke_footprint.
    + destruct st. by apply footprint_same.
  - unfold Cleanup. unfold_M. by apply invoke_footprint.
Qed.

(** A call that does not wait closes nothing. *)
Lemma perform_quiet (c : api_call) (st : GenericCmd T S * World) :
  quiet c = true ->
  closes (trace (snd (perform c st))) = closes (trace (snd st)).
Proof.
  destruct st as [g w].
  destruct c; simpl; try discriminate; intros _; try reflexivity.
  - unfold after. destruct (Start (g, w)) as [r [g' w']] eqn:HS.
    destruct (Start_inv _ _ _ _ _ HS) as (d & Ht & _ & Hc & _).
    simpl. by rewrite Ht, closes_app, Hc, app_nil_r.
  - unfold after, StdinPipe, io_Pipe. unfold_M. by destruct (Stdin g).
  - unfold after, StdoutPipe, io_Pipe. unfold_M. by destruct (Stdout g).
  - unfold after, StderrPipe, io_Pipe. unfold_M. by destruct (Stderr g).
  - unfold after, GetPID. unfold_M. destruct (started g); [|done].
    destruct (getID (Method g)) as [r m]. simpl.
    by rewrite closes_app, app_nil_r.
  - unfold after, Kill. unfold_M. destruct (started g); [|done].
    destruct (kill (client g) (Method g)) as [r m]. simpl.
    by rewrite closes_app, app_nil_r.
  - unfold after, Cleanup. unfold_M.
    destruct (cleanup (client g) (Method g)) as [r m]. simpl.
    by rewrite closes_app, app_nil_r.
Qed.

Lemma perform_all_quiet (cs : list api_call) (st : GenericCmd T S * World) :
  forallb quiet cs = true ->
  closes (trace (snd (perform_all cs st))) = closes (trace (snd st)).
Proof.
  revert st. induction cs as [|c cs IH]; intros st Hq; [done|].
  simpl in Hq. apply andb_true_iff in Hq. destruct Hq as [Hc Hcs].
  simpl. rewrite IH by done. by apply perform_quiet.
Qed.

Lemma footprint_closers_ok (st st' : GenericCmd T S * World) :
  footprint st st' -> closers_ok st -> closers_ok st'.
Proof.
  intros (new & delta & HC & Hnew & Ht & Hd) (Hnd & Hlt & Hcl).
  unfold closers_ok. rewrite HC, Ht, closes_app.
  assert (Hlt' : Forall (fun fd => exists p, fd = PipeWriter p /\
                                   (p < next (snd st'))%nat)
                        (closeAfterWait (fst st))).
  { eapply Forall_impl; [exact Hlt|]. intros fd (p & -> & Hp).
    exists p. split; [done|]. destruct Hnew as [[_ ?]|[_ ?]]; lia. }
  split; [|split].
  - destruct Hnew as [[-> _]|[-> Hn]]; [by rewrite app_nil_r|].
    apply NoDup_app. split; [done|]. split; [|apply NoDup_singleton].
    intros fd Hfd ->%list_elem_of_singleton.
    rewrite Forall_forall in Hlt. destruct (Hlt _ Hfd) as (p & [= <-] & Hp). lia.
  - apply Forall_app. split; [done|].
    destruct Hnew as [[-> _]|[-> Hn]]; [done|].
    apply Forall_singleton. exists (next (snd st)). split; [done|]. lia.
  - apply Forall_app. split.
    + eapply Forall_impl; [exact Hcl|]. intros fd Hfd. apply in_or_app. by left.
    + destruct Hd as [->| ->]; [done|].
      apply Forall_forall. intros fd Hfd%list_elem_of_In.
      apply in_or_app. by left.
Qed.

Lemma fresh_closers_ok (st : GenericCmd T S * World) : fresh st -> closers_ok st.
Proof.
  intros [HC Ht]. unfold closers_ok. rewrite HC, Ht. simpl.
  split; [apply NoDup_nil_2|]. split; done.
Qed.

Lemma perform_all_closers_ok (cs : list api_call) (st : GenericCmd T S * World) :
  closers_ok st -> closers_ok (perform_all cs st).
Proof.
  revert st. induction cs as [|c cs IH]; intros st Hok; [done|].
  simpl. apply IH. eapply footprint_closers_ok; [apply perform_footprint|done].
Qed.

Lemma footprint_unregistered (p : nat) (st st' : GenericCmd T S * World) :
  footprint st st' -> unregistered p st -> unregistered p st'.
Proof.
  intros (new & delta & HC & Hnew & _) [Hp Hnot]. unfold unregistered.
  rewrite HC. destruct Hnew as [[-> Hn]|[-> Hn]].
  - rewrite app_nil_r. split; [lia|done].
  - split; [lia|]. intros [Hin|[[= Heq]|[]]]%in_app_or; [done|lia].
Qed.

Lemma perform_all_unregistered (p : nat) (cs : list api_call)
    (st : GenericCmd T S * World) :
  unregistered p st -> unregistered p (perform_all cs st).
Proof.
  revert st. induction cs as [|c cs IH]; intros st Hun; [done|].
  simpl. apply IH. eapply footprint_unregistered; [apply perform_footprint|done].
Qed.

Lemma StdoutPipe_registers (g : GenericCmd T S) (w : World) :
  Stdout g = None ->
  StdoutPipe (g, w) =
    (Return (Some (PipeReader (next w)), None),
     (set_closeAfterWait (closeAfterWait g ++ [PipeWriter (next w)])
        (set_Stdout (Some (PipeWriter (next w))) g),
      mkWorld (bufs w) (Datatypes.S (next w)) (trace w))).
Proof. intros Ho. unfold StdoutPipe, io_Pipe. unfold_M. by rewrite Ho. Qed.

Lemma StderrPipe_registers (g : GenericCmd T S) (w : World) :
  Stderr g = None ->
  StderrPipe (g, w) =
    (Return (Some (PipeReader (next w)), None),
     (set_closeAfterWait (closeAfterWait g ++ [PipeWriter (next w)])
        (set_Stderr (Some (PipeWriter (next w))) g),
      mkWorld (bufs w) (Datatypes.S (next w)) (trace w))).
Proof. intros Ho. unfold StderrPipe, io_Pipe. unfold_M. by rewrite Ho. Qed.

Lemma StdinPipe_returns (g : GenericCmd T S) (w : World) :
  Stdin g = None ->
  StdinPipe (g, w) =
    (Return (Some (PipeWriter (next w)), None),
     (set_Stdin (Some (PipeReader (next w))) g,
      mkWorld (bufs w) (Datatypes.S (next w)) (trace w))).
Proof. intros Ho. unfold StdinPipe, io_Pipe. unfold_M. by rewrite Ho. Qed.

Lemma StdinPipe_inv (g : GenericCmd T S) (w : World) pw st1 :
  StdinPipe (g, w) = (Return (Some pw, None), st1) ->
  pw = PipeWriter (next w) /\
  st1 = (set_Stdin (Some (PipeReader (next w))) g,
         mkWorld (bufs w) (Datatypes.S (next w)) (trace w)).
Proof.
  destruct (Stdin g) as [i|] eqn:Hi.
  - unfold StdinPipe. unfold_M. rewrite Hi. by intros [= <-].
  - rewrite StdinPipe_returns by done. by intros [= <- <-].
Qed.

Lemma NoDup_count_occ_closers (l : list Writer) (fd : Writer) :
  NoDup l ->
  (In fd l -> count_occ Writer_eq_dec l fd = 1%nat) /\
  (~ In fd l -> count_occ Writer_eq_dec l fd = 0%nat).
Proof.
  intros Hnd. split.
  - intros Hin. apply NoDup_ListNoDup in Hnd.
    by apply (proj1 (NoDup_count_occ' Writer_eq_dec l)).
  - intros Hin. by apply (proj1 (count_occ_not_In Writer_eq_dec l fd)).
Qed.

End closers.

(** C7. [StdoutPipe] and [StderrPipe] bind the sink to the write end of a
    fresh pipe, append that writer to [closeAfterWait] and return the read
    end; [StdinPipe] returns the write end of a fresh pipe and registers
    nothing. Along every history of calls on a fresh command: whatever has
    been closed is a registered pipe writer (so no sink of the caller is ever
    closed); a call of [Wait] that comes back, with whatever result, closes
    every registered writer exactly once and nothing else; the writer
    returned by [StdinPipe] is never registered and never closed; and the
    calls that do not wait close nothing, so that over a life of the command
    with one [Wait] the writers closed are the registered ones, each once. *)
Theorem closers_closed_once_by_Wait (T S : Type) (E : Execution T S) :
  (forall (g : GenericCmd T S) (w : World),
     (Stdout g = None ->
      StdoutPipe (g, w) =
        (Return (Some (PipeReader (next w)), None),
         (set_closeAfterWait (closeAfterWait g ++ [PipeWriter (next w)])
            (set_Stdout (Some (PipeWriter (next w))) g),
          mkWorld (bufs w) (Datatypes.S (next w)) (trace w)))) /\
     (Stderr g = None ->
      StderrPipe (g, w) =
        (Return (Some (PipeReader (next w)), None),
         (set_closeAfterWait (closeAfterWait g ++ [PipeWriter (next w)])
            (set_Stderr (Some (PipeWriter (next w))) g),
          mkWorld (bufs w) (Datatypes.S (next w)) (trace w)))) /\
     (Stdin g = None ->
      StdinPipe (g, w) =
        (Return (Some (PipeWriter (next w)), None),
         (set_Stdin (Some (PipeReader (next w))) g,
          mkWorld (bufs w) (Datatypes.S (next w)) (trace w))))) /\
  (forall (st : GenericCmd T S * World) (cs : list api_call),
     fresh st ->
     let g := fst (perform_all cs st) in
     let w := snd (perform_all cs st) in
     Forall (fun fd => In fd (closeAfterWait g) /\ exists p, fd = PipeWriter p)
            (closes (trace w)) /\
     (forall r g' w',
        Wait (g, w) = (r, (g', w')) -> r <> Blocked ->
        exists delta,
          trace w' = (trace w ++ delta)%list /\
          forall fd,
            (In fd (closeAfterWait g) ->
             count_occ Writer_eq_dec (closes delta) fd = 1%nat) /\
            (~ In fd (closeAfterWait g) ->
             count_occ Writer_eq_dec (closes delta) fd = 0%nat)) /\
     (forall pw st1 cs',
        StdinPipe (g, w) = (Return (Some pw, None), st1) ->
        ~ In pw (closeAfterWait (fst (perform_all cs' st1))) /\
        ~ In pw (closes (trace (snd (perform_all cs' st1))))) /\
     (forallb quiet cs = true -> closes (trace w) = []) /\
     (forall r st2 cs',
        forallb quiet cs = true -> forallb quiet cs' = true ->
        Wait (g, w) = (r, st2) -> r <> Blocked ->
        closes (trace (snd (perform_all cs' st2))) = closeAfterWait g /\
        NoDup (closeAfterWait g))).
Proof.
  split.
  - intros g w. split; [apply StdoutPipe_registers|].
    split; [apply StderrPipe_registers|apply StdinPipe_returns].
  - intros st cs Hfresh g w.
    assert (Hok : closers_ok (g, w)).
    { replace (g, w) with (perform_all cs st) by (subst g w; by destruct (perform_all cs st)).
      by apply perform_all_closers_ok, fresh_closers_ok. }
    destruct Hok as (Hnd & Hlt & Hcl). simpl in Hnd, Hlt, Hcl.
    assert (Hquiet : forallb quiet cs = true -> closes (trace w) = []).
    { intros Hq. subst w. rewrite perform_all_quiet by done.
      destruct Hfresh as [_ ->]. done. }
    split; [|split; [|split; [|split; [exact Hquiet|]]]];
      [| | |intros r st2 cs' Hq Hq' HW Hr;
            destruct st2 as [g2 w2];
            destruct (Wait_inv _ _ _ _ _ HW) as (_ & _ & delta & Ht & Hc);
            destruct Hc as [[? _]|[_ Hc]]; [done|];
            split; [|done];
            rewrite perform_all_quiet by done; simpl;
            by rewrite Ht, closes_app, (Hquiet Hq), Hc].
    + apply Forall_forall. intros fd Hfd.
      rewrite Forall_forall in Hcl. specialize (Hcl _ Hfd). split; [done|].
      rewrite Forall_forall in Hlt.
      destruct (Hlt fd) as (p & -> & _); [by apply list_elem_of_In|eauto].
    + intros r g' w' HW Hr.
      destruct (Wait_inv _ _ _ _ _ HW) as (_ & _ & delta & Ht & Hc).
      exists delta. split; [done|]. intros fd.
      destruct Hc as [[? _]|[_ ->]]; [done|].
      by apply NoDup_count_occ_closers.
    + intros pw st1 cs' Hpipe.
      apply StdinPipe_inv in Hpipe. destruct Hpipe as [-> ->].
      set (st1 := (set_Stdin _ g, _)).
      assert (Hun : unregistered (next w) (perform_all cs' st1)).
      { apply perform_all_unregistered. split; simpl; [lia|].
        intros Hin%list_elem_of_In. rewrite Forall_forall in Hlt.
        destruct (Hlt _ Hin) as (p & [= <-] & Hp). lia. }
      destruct Hun as [_ Hnot]. split; [done|].
      assert (Hok1 : closers_ok (perform_all cs' st1)).
      { apply perform_all_closers_ok.
        apply (footprint_closers_ok (g, w)).
        - apply footprint_calm with (delta := []); simpl;
            [done|lia|by rewrite app_nil_r|by left].
        - done. }
      destruct Hok1 as (_ & _ & Hcl1).
      intros Hin%list_elem_of_In. rewrite Forall_forall in Hcl1. by apply Hnot, Hcl1.
Qed.

(** The claim at the command with its three pipes: its [Wait] closes the
    writers of the two output pipes once each, and not the writer that
    [StdinPipe] returned. *)
Lemma closers_closed_once_by_Wait_witness :
  fresh piped_fresh /\
  closeAfterWait (fst piped_started) = [PipeWriter 0; PipeWriter 2] /\
  exists delta,
    trace (snd piped_waited) = (trace (snd piped_started) ++ delta)%list /\
    count_occ Writer_eq_dec (closes delta) (PipeWriter 0) = 1%nat /\
    count_occ Writer_eq_dec (closes delta) (PipeWriter 2) = 1%nat /\
    count_occ Writer_eq_dec (closes delta) (PipeWriter 1) = 0%nat.
Proof.
  assert (Hf : fresh piped_fresh) by (split; reflexivity).
  split; [exact Hf|]. split; [reflexivity|].
  destruct (closers_closed_once_by_Wait Docker createContainer.t _) as [_ H].
  destruct (H piped_fresh piped_history Hf) as (_ & HW & _).
  change (perform_all piped_history piped_fresh) with piped_started in HW.
  destruct (HW (Return (Some (ExitError 2 []))) (fst piped_waited)
              (snd piped_waited)) as (delta & Ht & Hcount).
  - vm_compute. reflexivity.
  - discriminate.
  - exists delta. split; [exact Ht|].
    split; [|split].
    + apply Hcount. simpl. tauto.
    + apply Hcount. simpl. tauto.
    + apply Hcount. simpl. intros [[=]|[[=]|[]]].
Defined.

(** ** C8: mount translation *)

Lemma filterMounts_docker_filter (ms : list Mount) :
  filterMounts docker_HostMount ms =
    List.filter (fun m => negb (strings_Contains (Destination m) "resolv.conf")) ms.
Proof.
  unfold filterMounts.
  enough (Hgen : forall acc,
    foldl (fun mounts m =>
             if negb (strings_Contains (Destination m) "resolv.conf")
             then (mounts ++ [m])%list else mounts) acc ms
    = (acc ++ List.filter
                (fun m => negb (strings_Contains (Destination m) "resolv.conf"))
                ms)%list) by apply (Hgen []).
  induction ms as [|m ms IH]; intros acc; simpl.
  - by rewrite app_nil_r.
  - rewrite IH.
    destruct (negb (strings_Contains (Destination m) "resolv.conf")); [|done].
    by rewrite <- app_assoc.
Qed.

(** C8. The OCI translation of a neutral mount keeps its type, source,
    destination and options, and every OCI mount is the translation of
    exactly one neutral mount (so going through the neutral form and back
    gives the same OCI mount); the daemon translation sets [Target] to the
    destination and does not depend on the options; and on the daemon path
    the mounts handed to the daemon are the translations of the configured
    mounts whose destination does not contain "resolv.conf", in order, while
    the containerd path translates all of them. *)
Theorem mount_translation :
  (forall m : Mount,
     specs.Type_ (convertMount specs_Mount m) = Type_ m /\
     specs.Source (convertMount specs_Mount m) = Source m /\
     specs.Destination (convertMount specs_Mount m) = Destination m /\
     specs.Options (convertMount specs_Mount m) = Options m) /\
  (forall o : specs.Mount,
     exists m : Mount,
       convertMount specs_Mount m = o /\
       forall m', convertMount specs_Mount m' = o -> m' = m) /\
  (forall m : Mount,
     docker.Type_ (convertMount docker_HostMount m) = Type_ m /\
     docker.Source (convertMount docker_HostMount m) = Source m /\
     docker.Target (convertMount docker_HostMount m) = Destination m) /\
  (forall (m : Mount) (options : list string),
     convertMount docker_HostMount
       (mkMount (Type_ m) (Source m) (Destination m) options)
     = convertMount docker_HostMount m) /\
  (forall config : Config,
     docker.Mounts (docker.HostConfig_
                      (createContainer.opt (getDockerExecution config)))
     = map (convertMount docker_HostMount)
           (List.filter
              (fun m => negb (strings_Contains (Destination m) "resolv.conf"))
              (CC_Mounts (ContainerConfig_ config))) /\
     Forall (fun hm => strings_Contains (docker.Target hm) "resolv.conf" = false)
            (docker.Mounts (docker.HostConfig_
                              (createContainer.opt (getDockerExecution config)))) /\
     createTask.Mounts (createTask.opts (getContainerdExecution config))
     = map (convertMount specs_Mount) (CC_Mounts (ContainerConfig_ config))).
Proof.
  split; [by intros m|]. split.
  { intros [d t s o]. exists (mkMount t s d o). split; [done|].
    intros [t' s' d' o']. simpl. by intros [= -> -> -> ->]. }
  split; [by intros m|]. split; [by intros m options|].
  intros config. unfold getDockerExecution, getContainerdExecution.
  rewrite filterMounts_docker_filter. unfold convertMounts.
  split; [done|]. split; [|done]. cbn [docker.Mounts docker.HostConfig_
    createContainer.opt createContainer.ByCreatingContainer].
  apply Forall_forall. intros hm Hhm%list_elem_of_In.
  apply in_map_iff in Hhm. destruct Hhm as (m & <- & Hm).
  apply filter_In in Hm. destruct Hm as [_ Hm]. simpl.
  by apply negb_true_iff.
Qed.

(** The mount of the package's tests, in both shapes, and a resolv.conf
    mount dropped on the daemon path. *)
Example convertMounts_tests :
  let m := mkMount "bind" "/local/path" "/go/src" ["bind"] in
  let r := mkMount "bind" "/run/resolv.conf" "/etc/resolv.conf" [] in
  convertMounts docker_HostMount [m]
    = [docker.mkHostMount "bind" "/local/path" "/go/src"] /\
  convertMounts specs_Mount [m]
    = [specs.mkMount "/go/src" "bind" "/local/path" ["bind"]] /\
  filterMounts docker_HostMount [r; m] = [m] /\
  filterMounts specs_Mount [r; m] = [r; m].
Proof. repeat split. Qed.

(** ** C4: [cleanup] of the namespaced-task strategy *)

Section cleanup_claim.

Ltac unfold_Op :=
  unfold mbind, mret, createTask.Op_bind, createTask.Op_ret, createTask.self,
    createTask.ask, createTask.update, createTask.deref in *;
  simpl in *.

Lemma holds_lease_ret {A} (a : A) : holds_lease (mret a : createTask.Op A).
Proof. intros x. exists []. simpl. rewrite app_nil_r. auto. Qed.

Lemma holds_lease_bind {A B} (m : createTask.Op A) (k : A -> createTask.Op B) :
  holds_lease m -> (forall a, holds_lease (k a)) -> holds_lease (m ≫= k).
Proof.
  intros Hm Hk x. unfold mbind, createTask.Op_bind.
  destruct (Hm x) as (l1 & Hl1 & Hn1 & Hd1 & Hc1).
  destruct (m x) as [[a| |] x']; simpl in *; eauto.
  destruct (Hk a x') as (l2 & Hl2 & Hn2 & Hd2 & Hc2).
  exists (l1 ++ l2)%list. rewrite Hl2, Hl1, <- app_assoc, Hd2, Hc2.
  repeat split; try done. intros [?|?]%in_app_or; tauto.
Qed.

Lemma holds_lease_self : holds_lease createTask.self.
Proof. intros x. exists []. simpl. rewrite app_nil_r. auto. Qed.

Lemma holds_lease_deref {A} (f : createTask.t -> option A) :
  holds_lease (createTask.deref f).
Proof.
  intros x. exists []. unfold createTask.deref.
  destruct (f x); simpl; rewrite app_nil_r; auto.
Qed.

Lemma holds_lease_ask r :
  r <> containerd.lease_release -> holds_lease (createTask.ask r).
Proof.
  intros Hr x. exists [r]. simpl. repeat split; try done.
  intros [?|[]]. congruence.
Qed.

Ltac holds_lease :=
  repeat first
    [ apply holds_lease_bind; [|intros ?]
    | apply holds_lease_ret
    | apply holds_lease_self
    | apply holds_lease_deref
    | apply holds_lease_ask; discriminate
    | match goal with
      | |- holds_lease (match ?t with _ => _ end) => destruct t
      | |- holds_lease (if ?t then _ else _) => destruct t
      end ].

Lemma cleanup_body_holds_lease : holds_lease createTask.cleanup_body.
Proof. unfold createTask.cleanup_body. holds_lease. Qed.

Lemma cleanup_body_draft1_holds_lease :
  holds_lease createTask.cleanup_body_draft1.
Proof. unfold createTask.cleanup_body_draft1. holds_lease. Qed.

(** C4. [cleanup] of the namespaced-task strategy, in both drafts of the
    file: when the strategy holds a lease, the deferred call releases it as
    the last thing [cleanup] does, once, on every path (also when a later
    step fails or panics); with a task and a container, [cleanup] returns nil
    when each delete succeeds or answers NotFound, and the container delete
    is called; and when the task delete fails with another error, [cleanup]
    returns that error wrapped as "error deleting task" and the container
    delete is not called. *)
Theorem cleanup_releases_and_swallows (c : Containerd) (x : createTask.t) :
  (forall d cx,
     createTask.doneFunc x = Some d -> createTask.ctx x = Some cx ->
     (exists l,
        createTask.requests (snd (createTask.cleanup c x))
        = (createTask.requests x ++ l ++ [containerd.lease_release])%list /\
        ~ In containerd.lease_release l) /\
     (exists l,
        createTask.requests (snd (createTask.cleanup_draft1 c x))
        = (createTask.requests x ++ l ++ [containerd.lease_release])%list /\
        ~ In containerd.lease_release l)) /\
  (forall tk k,
     createTask.task x = Some tk -> createTask.container x = Some k ->
     (ok_or_NotFound (containerd.on_Task_Delete tk) ->
      ok_or_NotFound (containerd.on_Container_Delete k) ->
      (fst (createTask.cleanup c x) = Return None /\
       In containerd.Container_Delete
          (createTask.requests (snd (createTask.cleanup c x)))) /\
      (forall d, createTask.doneFunc x = Some d ->
         fst (createTask.cleanup_draft1 c x) = Return None /\
         In containerd.Container_Delete
            (createTask.requests (snd (createTask.cleanup_draft1 c x))))) /\
     (forall e,
        containerd.on_Task_Delete tk = Some e -> IsNotFound e = false ->
        (fst (createTask.cleanup c x)
         = Return (Some (Wrap "error deleting task" e)) /\
         exists l,
           createTask.requests (snd (createTask.cleanup c x))
           = (createTask.requests x ++ l)%list /\
           ~ In containerd.Container_Delete l) /\
        (forall d, createTask.doneFunc x = Some d ->
           fst (createTask.cleanup_draft1 c x)
           = Return (Some (Wrap "error deleting task" e)) /\
           exists l,
             createTask.requests (snd (createTask.cleanup_draft1 c x))
             = (createTask.requests x ++ l)%list /\
             ~ In containerd.Container_Delete l))).
Proof.
  split.
  - intros d cx Hd Hc. split.
    + unfold createTask.cleanup.
      destruct (cleanup_body_holds_lease x) as (l & Hl & Hn & Hd' & Hc').
      destruct (createTask.cleanup_body x) as [r x']. simpl in *.
      exists l. split; [|done].
      unfold createTask.release. rewrite Hd', Hc', Hd, Hc.
      destruct d. simpl. by rewrite Hl, <- app_assoc.
    + unfold createTask.cleanup_draft1.
      destruct (cleanup_body_draft1_holds_lease x) as (l & Hl & Hn & Hd' & Hc').
      destruct (createTask.cleanup_body_draft1 x) as [r x']. simpl in *.
      exists l. split; [|done].
      rewrite Hd', Hd. destruct d. simpl. by rewrite Hl, <- app_assoc.
  - intros tk k Ht Hk.
    destruct x as [o cx df im ct tsk cm ps ec nt cn str rq].
    simpl in Ht, Hk. subst ct tsk. split.
    + intros Htd Hcd. split.
      * unfold createTask.cleanup, createTask.cleanup_body, createTask.release.
        unfold_Op.
        destruct cn, nt; simpl;
          destruct (containerd.on_Task_Delete tk) as [e|]; simpl in *;
          rewrite ?Htd; simpl;
          destruct (containerd.on_Container_Delete k) as [e'|]; simpl in *;
          rewrite ?Hcd; simpl;
          (split; [done|]);
          destruct df as [[]|], cx; simpl;
          rewrite ?in_app_iff; simpl; tauto.
      * intros d [= ->].
        unfold createTask.cleanup_draft1, createTask.cleanup_body_draft1.
        unfold_Op.
        destruct (containerd.on_Task_Delete tk) as [e|]; simpl in *;
          rewrite ?Htd; simpl;
          destruct (containerd.on_Container_Delete k) as [e'|]; simpl in *;
          rewrite ?Hcd; simpl; destruct d; simpl;
          (split; [done|]); rewrite ?in_app_iff; simpl; tauto.
    + intros e He Hnf. split.
      * unfold createTask.cleanup, createTask.cleanup_body, createTask.release.
        unfold_Op.
        destruct cn, nt; simpl;
          rewrite He; simpl; rewrite Hnf; simpl;
          (split; [done|]);
          destruct df as [[]|], cx; simpl;
          rewrite <- ?app_assoc; simpl;
          (eexists; split; [reflexivity|]); simpl; intuition discriminate.
      * intros d [= ->].
        unfold createTask.cleanup_draft1, createTask.cleanup_body_draft1.
        unfold_Op. rewrite He. simpl. rewrite Hnf. simpl.
        destruct d. simpl. split; [done|].
        rewrite <- ?app_assoc. simpl.
        eexists; split; [reflexivity|]. simpl. intuition discriminate.
Qed.

End cleanup_claim.

(** The claim at the states of the package's cleanup tests, with a lease:
    NotFound from the task delete is swallowed and the container is deleted;
    another error of the task delete comes back wrapped, the container delete
    is not called; the lease is released last in both. *)
Lemma cleanup_releases_and_swallows_witness :
  createTask.cleanup mock_Containerd
    (mock_createTask (Some createTask.delete_lease) (Some ErrNotFound) None)
  = (Return None,
     createTask.mk
       (createTask.mkOptions "" [] "" [] 0 "" (mkCommandDetails 0 0 0))
       (Some (createTask.mkContext "unit-test")) (Some createTask.delete_lease)
       None (Some (mock_Container None)) (Some (mock_Task (Some ErrNotFound)))
       [] None None None None (None, None)
       [containerd.Task_Delete; containerd.Container_Delete;
        containerd.lease_release]) /\
  fst (createTask.cleanup mock_Containerd
         (mock_createTask (Some createTask.delete_lease)
            (Some (errors_New "unit test")) None))
  = Return (Some (Wrap "error deleting task" (errors_New "unit test"))) /\
  exists l,
    createTask.requests
      (snd (createTask.cleanup mock_Containerd
              (mock_createTask (Some createTask.delete_lease)
                 (Some (errors_New "unit test")) None)))
    = ([] ++ l)%list /\
    ~ In containerd.Container_Delete l.
Proof.
  split; [reflexivity|].
  destruct (cleanup_releases_and_swallows mock_Containerd
              (mock_createTask (Some createTask.delete_lease)
                 (Some (errors_New "unit test")) None)) as [_ H].
  destruct (H (mock_Task (Some (errors_New "unit test"))) (mock_Container None)
              eq_refl eq_refl) as [_ Hshort].
  destruct (Hshort (errors_New "unit test") eq_refl eq_refl) as [[Hr Hl] _].
  split; [exact Hr|exact Hl].
Defined.

(** ** C5: the generated container name *)

(** C5 at the identity (chain -9007199254740993, executor 2, result 3): [abs]
    goes through float64, which rounds the chain identity to 2^53, so the
    name embeds 9007199254740992 and not the absolute value of the field.
    And at the least int64, where amd64's conversion of 2^63 back to int64
    gives -2^63: the name has a double hyphen and does not match the
    pattern. *)
Lemma generateContainerId_large_negative (rnd : nat -> nat) :
  createTask.generateContainerId rnd (task_for (-9007199254740993) 2 3)
  = "chains-9007199254740992-2-3-" ++ RandomString rnd 6 /\
  Z.abs (-9007199254740993) = 9007199254740993 /\
  createTask.generateContainerId rnd (task_for int64_min 2 3)
  = "chains--9223372036854775808-2-3-" ++ RandomString rnd 6 /\
  matches_container_name
    (createTask.generateContainerId rnd (task_for int64_min 2 3)) = false.
Proof. repeat split. Qed.

(** On identities that are not negative, and on small negative ones such as
    the -1 of the health checks, the name is as the claim says. *)
Example generateContainerId_health_check :
  createTask.generateContainerId (fun i => (7 * i)%nat) (task_for (-1) 2 3)
  = "chains-1-2-3-ahovCJ" /\
  matches_container_name "chains-1-2-3-ahovCJ" = true /\
  strings_Contains "chains-1-2-3-ahovCJ" "--" = false /\
  createTask.generateContainerId_draft1 (fun i => (7 * i)%nat) (task_for (-1) 2 3)
  = "chains--1-2-3-ahovCJ".
Proof. repeat split. Qed.

Lemma abs_nonnegative (v : Z) : 0 <= v -> abs v = v.
Proof. unfold abs. intros Hv. by rewrite (proj2 (Z.leb_le 0 v) Hv). Qed.

(** *** The conversion to float64 is exact below 2^53 *)

Section float64_exact.
Local Open Scope Z_scope.

Lemma digits2_pos_bounds (p : positive) :
  2 ^ (Z.pos (digits2_pos p) - 1) <= Z.pos p < 2 ^ Z.pos (digits2_pos p).
Proof.
  induction p as [p IH|p IH|]; simpl digits2_pos.
  - rewrite Pos2Z.inj_succ, Z.pow_succ_r by lia.
    replace (Z.succ (Z.pos (digits2_pos p)) - 1) with (Z.succ (Z.pos (digits2_pos p) - 1)) by lia.
    rewrite Z.pow_succ_r by lia. lia.
  - rewrite Pos2Z.inj_succ, Z.pow_succ_r by lia.
    replace (Z.succ (Z.pos (digits2_pos p)) - 1) with (Z.succ (Z.pos (digits2_pos p) - 1)) by lia.
    rewrite Z.pow_succ_r by lia. lia.
  - simpl. lia.
Qed.

Lemma digits2_pos_iter_xO (p k : positive) :
  digits2_pos (Pos.iter xO p k) = (digits2_pos p + k)%positive.
Proof.
  induction k as [|k IH] using Pos.peano_ind.
  - simpl. lia.
  - rewrite Pos.iter_succ. simpl. rewrite IH. lia.
Qed.

Lemma Zpos_iter_xO (p k : positive) :
  Z.pos (Pos.iter xO p k) = Z.pos p * 2 ^ Z.pos k.
Proof.
  induction k as [|k IH] using Pos.peano_ind.
  - simpl. lia.
  - rewrite Pos.iter_succ, Pos2Z.inj_xO, IH, Pos2Z.inj_succ, Z.pow_succ_r by lia. lia.
Qed.

Lemma shr_fexp_exact (m : positive) (e : Z) :
  fexp 53 1024 (Z.pos (digits2_pos m) + e) = e ->
  shr_fexp 53 1024 (Z.pos m) e loc_Exact
  = ({| shr_m := Z.pos m; shr_r := false; shr_s := false |}, e).
Proof.
  intros Hc. unfold shr_fexp. simpl Zdigits2. rewrite Hc, Z.sub_diag.
  reflexivity.
Qed.

Lemma binary_round_aux_exact (s : bool) (m : positive) (e : Z) :
  fexp 53 1024 (Z.pos (digits2_pos m) + e) = e -> e <= 971 ->
  binary_round_aux 53 1024 s (Z.pos m) e loc_Exact = S754_finite s m e.
Proof.
  intros Hc He. unfold binary_round_aux.
  rewrite shr_fexp_exact by done. simpl.
  rewrite shr_fexp_exact by done. simpl.
  replace (e <=? 1024 - 53) with true by (symmetry; apply Z.leb_le; lia).
  reflexivity.
Qed.

Lemma float64_of_small_negative (p : positive) :
  Z.pos p < 2 ^ 53 ->
  exists m e, float64_of_int64 (Z.neg p) = S754_finite true m e /\
    e <= 0 /\ Z.pos m = Z.pos p * 2 ^ (- e).
Proof.
  intros Hp.
  pose proof (digits2_pos_bounds p) as [Hlo Hhi].
  assert (Hd : Z.pos (digits2_pos p) <= 53).
  { destruct (Z_le_gt_dec (Z.pos (digits2_pos p)) 53) as [|Hgt]; [done|].
    exfalso.
    assert (2 ^ 53 <= 2 ^ (Z.pos (digits2_pos p) - 1))
      by (apply Z.pow_le_mono_r; lia).
    lia. }
  unfold float64_of_int64, binary_normalize, binary_round.
  assert (Hf : fexp 53 1024 (Z.pos (digits2_pos p) + 0)
               = Z.pos (digits2_pos p) - 53).
  { unfold fexp, emin. lia. }
  rewrite Hf. unfold shl_align.
  destruct (Z.pos (digits2_pos p) - 53 - 0) as [|k|k] eqn:Hk; [|lia|].
  - exists p, 0. rewrite binary_round_aux_exact; [|rewrite Hf; lia|lia].
    split; [done|]. split; lia.
  - exists (Pos.iter xO p k), (Z.pos (digits2_pos p) - 53).
    rewrite binary_round_aux_exact.
    + split; [done|]. split; [lia|].
      rewrite Zpos_iter_xO. f_equal. f_equal. lia.
    + rewrite digits2_pos_iter_xO. unfold fexp, emin. lia.
    + lia.
Qed.

Lemma abs_small_negative (v : Z) :
  - 2 ^ 53 < v < 0 -> abs v = - v.
Proof.
  intros Hv. destruct v as [|p|p]; try lia.
  unfold abs. simpl Z.leb. cbv iota.
  destruct (float64_of_small_negative p) as (m & e & -> & He & Hm); [lia|].
  unfold math_Abs, SFabs, int64_of_float64.
  assert (Hmag : (if 0 <=? e then Z.pos m * 2 ^ e else Z.pos m / 2 ^ (- e)) = Z.pos p).
  { destruct (Z.leb_spec 0 e).
    - replace e with 0 in * by lia. simpl in Hm. lia.
    - rewrite Hm. apply Z.div_mul. apply Z.pow_nonzero; lia. }
  rewrite Hmag.
  replace ((int64_min <=? Z.pos p) && (Z.pos p <=? int64_max))%bool with true.
  - change (0 <=? Z.neg p) with false. cbv iota. lia.
  - symmetry. apply andb_true_iff. unfold int64_min, int64_max. split; apply Z.leb_le; lia.
Qed.

End float64_exact.

(** *** The shape of the name *)

Lemma string_of_uint_digits (d : Decimal.uint) :
  forallb is_digit (list_ascii_of_string (NilEmpty.string_of_uint d)) = true.
Proof. induction d; simpl; try done. Qed.

Lemma fmt_d_digits (v : Z) :
  0 <= v ->
  exists c l, list_ascii_of_string (fmt_d v) = c :: l /\
    forallb is_digit (c :: l) = true.
Proof.
  intros Hv. unfold fmt_d.
  assert (Hpos : exists d, Z.to_int v = Decimal.Pos d).
  { destruct v; simpl; eauto. lia. }
  destruct Hpos as [d ->]. simpl. unfold NilZero.string_of_uint.
  pose proof (string_of_uint_digits d) as Hd.
  destruct d; simpl in *; eauto.
Qed.

Lemma list_ascii_of_string_app (s1 s2 : string) :
  list_ascii_of_string (s1 ++ s2)
  = (list_ascii_of_string s1 ++ list_ascii_of_string s2)%list.
Proof. induction s1 as [|c s1 IH]; simpl; by rewrite ?IH. Qed.

Lemma skip_digits_app (ds rest : list ascii) :
  forallb is_digit ds = true ->
  skip_digits (ds ++ "-"%char :: rest) = "-"%char :: rest.
Proof.
  induction ds as [|c ds IH]; simpl; [done|].
  intros [Hc Hds]%andb_true_iff. rewrite Hc. by apply IH.
Qed.

Lemma digits_hyphen_app (c : ascii) (ds rest : list ascii) :
  forallb is_digit (c :: ds) = true ->
  digits_hyphen ((c :: ds) ++ "-"%char :: rest) = Some rest.
Proof.
  intros Hd. unfold digits_hyphen.
  rewrite skip_digits_app by done. simpl in *.
  apply andb_true_iff in Hd. by rewrite (proj1 Hd).
Qed.

Lemma letters_are_letters : forallb is_letter letters = true.
Proof. reflexivity. Qed.

Lemma RandomString_letters (rnd : nat -> nat) (n : nat) :
  length (list_ascii_of_string (RandomString rnd n)) = n /\
  forallb is_letter (list_ascii_of_string (RandomString rnd n)) = true.
Proof.
  unfold RandomString. rewrite list_ascii_of_string_of_list_ascii.
  split; [by rewrite length_map, length_seq|].
  apply forallb_forall. intros c Hc. apply in_map_iff in Hc.
  destruct Hc as (i & <- & _).
  pose proof letters_are_letters as Hl. rewrite forallb_forall in Hl.
  apply Hl, nth_In. change (length letters) with 52%nat.
  apply Nat.mod_upper_bound. lia.
Qed.

Lemma Contains_cons_other (c : ascii) (s : string) :
  not_hyphen c = true ->
  strings_Contains (String c s) "--" = strings_Contains s "--".
Proof.
  intros Hc. cbn [strings_Contains String.prefix].
  destruct (ascii_dec "-" c) as [<-|Hne]; [done|]. reflexivity.
Qed.

Lemma Contains_hyphen_other (c : ascii) (s : string) :
  not_hyphen c = true ->
  strings_Contains (String "-" (String c s)) "--" = strings_Contains s "--".
Proof.
  intros Hc. rewrite <- (Contains_cons_other c s Hc).
  cbn [strings_Contains String.prefix].
  destruct (ascii_dec "-" "-") as [_|Hne]; [|done].
  destruct (ascii_dec "-" c) as [<-|Hne]; [done|]. reflexivity.
Qed.

Lemma Contains_app_free (t s : string) :
  forallb not_hyphen (list_ascii_of_string t) = true ->
  strings_Contains (t ++ s) "--" = strings_Contains s "--".
Proof.
  induction t as [|c t IH]; simpl list_ascii_of_string; [done|].
  intros [Hc Ht]%andb_true_iff.
  change (String c t ++ s) with (String c (t ++ s)).
  rewrite Contains_cons_other by done. by apply IH.
Qed.

Lemma Contains_free (t : string) :
  forallb not_hyphen (list_ascii_of_string t) = true ->
  strings_Contains t "--" = false.
Proof.
  induction t as [|c t IH]; simpl list_ascii_of_string; [done|].
  intros [Hc Ht]%andb_true_iff.
  rewrite Contains_cons_other by done. by apply IH.
Qed.

Lemma digit_not_hyphen (c : ascii) : is_digit c = true -> not_hyphen c = true.
Proof.
  unfold not_hyphen. destruct (Ascii.eqb_spec c "-") as [->|]; [|done].
  discriminate.
Qed.

Lemma letter_not_hyphen (c : ascii) : is_letter c = true -> not_hyphen c = true.
Proof.
  unfold not_hyphen. destruct (Ascii.eqb_spec c "-") as [->|]; [|done].
  discriminate.
Qed.

Lemma forallb_impl {A} (f g : A -> bool) (l : list A) :
  (forall a, f a = true -> g a = true) ->
  forallb f l = true -> forallb g l = true.
Proof.
  intros Hfg. rewrite !forallb_forall. auto.
Qed.

Lemma strip_prefix_app (p l : list ascii) :
  strip_prefix p (p ++ l) = Some l.
Proof.
  induction p as [|a p IH]; simpl; [by destruct l|].
  by rewrite decide_True.
Qed.

(** The shape of a generated name. *)
Lemma name_shape (d1 d2 d3 sfx : string) :
  (exists c l, list_ascii_of_string d1 = c :: l /\ forallb is_digit (c :: l) = true) ->
  (exists c l, list_ascii_of_string d2 = c :: l /\ forallb is_digit (c :: l) = true) ->
  (exists c l, list_ascii_of_string d3 = c :: l /\ forallb is_digit (c :: l) = true) ->
  length (list_ascii_of_string sfx) = 6%nat ->
  forallb is_letter (list_ascii_of_string sfx) = true ->
  matches_container_name ("chains-" ++ d1 ++ "-" ++ d2 ++ "-" ++ d3 ++ "-" ++ sfx) = true /\
  strings_Contains ("chains-" ++ d1 ++ "-" ++ d2 ++ "-" ++ d3 ++ "-" ++ sfx) "--" = false.
Proof.
  intros (c1 & l1 & H1 & Hd1) (c2 & l2 & H2 & Hd2) (c3 & l3 & H3 & Hd3) Hlen Hsfx.
  split.
  - unfold matches_container_name.
    rewrite !list_ascii_of_string_app, H1, H2, H3, strip_prefix_app.
    change (list_ascii_of_string "-") with ["-"%char].
    assert (E : forall c ds rest,
               forallb is_digit (c :: ds) = true ->
               digits_hyphen ((c :: ds) ++ ["-"%char] ++ rest) = Some rest)
      by exact digits_hyphen_app.
    rewrite !E by done.
    rewrite Hlen, Hsfx. reflexivity.
  - assert (Hfree : forall d c l,
              list_ascii_of_string d = c :: l ->
              forallb is_digit (c :: l) = true ->
              forallb not_hyphen (list_ascii_of_string d) = true).
    { intros d c l -> Hd. eapply forallb_impl; [apply digit_not_hyphen|done]. }
    assert (Hhead : forall d c l t,
              list_ascii_of_string d = c :: l ->
              forallb is_digit (c :: l) = true ->
              strings_Contains ("-" ++ d ++ t) "--" = strings_Contains t "--").
    { intros d c l t Hd Hdig. destruct d as [|c' d']; [done|].
      simpl in Hd. injection Hd as -> Hl.
      change ("-" ++ String c d' ++ t) with (String "-" (String c (d' ++ t))).
      rewrite Contains_hyphen_other.
      - apply Contains_app_free. rewrite Hl.
        cbn [forallb] in Hdig. apply andb_true_iff in Hdig.
        eapply forallb_impl; [apply digit_not_hyphen|apply Hdig].
      - cbn [forallb] in Hdig. apply andb_true_iff in Hdig.
        apply digit_not_hyphen, Hdig. }
    change ("chains-" ++ ?x) with ("chains" ++ "-" ++ x).
    rewrite Contains_app_free by reflexivity.
    rewrite (Hhead d1 c1 l1), (Hhead d2 c2 l2), (Hhead d3 c3 l3) by done.
    destruct sfx as [|c s]; [done|].
    change ("-" ++ String c s) with (String "-" (String c s)).
    cbn [list_ascii_of_string forallb] in Hsfx.
    apply andb_true_iff in Hsfx. destruct Hsfx as [Hc Hs].
    rewrite Contains_hyphen_other by (by apply letter_not_hyphen).
    apply Contains_free.
    eapply forallb_impl; [apply letter_not_hyphen|done].
Qed.

(** [abs] is the absolute value on every identity above -2^53, where the
    conversion to float64 is exact. *)
Lemma abs_is_Z_abs (v : Z) : - 2 ^ 53 < v -> abs v = Z.abs v.
Proof.
  intros Hv. destruct (Z_lt_le_dec v 0) as [Hneg|Hpos].
  - rewrite abs_small_negative by lia. lia.
  - rewrite abs_nonnegative by lia. lia.
Qed.

(** On identities above -2^53 the name is [chains-], the three absolute
    values in decimal and six letters, with single hyphens between them. *)
Lemma generateContainerId_pattern (rnd : nat -> nat) (x : createTask.t) :
  - 2 ^ 53 < ChainExecutorId (createTask.CommandDetails_ (createTask.opts x)) ->
  - 2 ^ 53 < ExecutorId (createTask.CommandDetails_ (createTask.opts x)) ->
  - 2 ^ 53 < ResultId (createTask.CommandDetails_ (createTask.opts x)) ->
  createTask.generateContainerId rnd x
  = "chains-"
      ++ fmt_d (Z.abs (ChainExecutorId (createTask.CommandDetails_ (createTask.opts x))))
      ++ "-"
      ++ fmt_d (Z.abs (ExecutorId (createTask.CommandDetails_ (createTask.opts x))))
      ++ "-"
      ++ fmt_d (Z.abs (ResultId (createTask.CommandDetails_ (createTask.opts x))))
      ++ "-" ++ RandomString rnd 6 /\
  matches_container_name (createTask.generateContainerId rnd x) = true /\
  strings_Contains (createTask.generateContainerId rnd x) "--" = false.
Proof.
  intros Hc He Hr. unfold createTask.generateContainerId. cbv zeta.
  rewrite !abs_is_Z_abs by done. split; [reflexivity|].
  destruct (RandomString_letters rnd randomSuffixLength) as [Hlen Hlet].
  apply name_shape; try (apply fmt_d_digits; lia); done.
Qed.

(** ** C9: the deadline label in the statistics *)

(** C9 at a container whose deadline label is the RFC 3339 instant
    2020-01-01T00:00:00Z, read after that instant. The code hands the label
    to [time.Parse] as the layout and [time.RFC3339] as the value; Go's
    [time.Parse] refuses that pair (third hypothesis), so the container is
    counted under [Errors] and not under [DeadlineExceeded], although the
    label parses as RFC 3339 and lies in the past (first two hypotheses). *)
Theorem past_deadline_counted_as_error
    (time_Parse : string -> string -> option Z) (time_Now t : Z) :
  time_Parse time_RFC3339 "2020-01-01T00:00:00Z" = Some t ->
  After time_Now t = true ->
  time_Parse "2020-01-01T00:00:00Z" time_RFC3339 = None ->
  count_deadline time_Parse time_Now
    (labelled_Container "2020-01-01T00:00:00Z") Stats_zero
  = mkStats 0 0 0 0 0 0 0 1 /\
  forall c,
    containerd.on_Containers c ("labels." ++ quoted "wk/owner" ++ "==chains")
    = inl [labelled_Container "2020-01-01T00:00:00Z"] ->
    getContainerdStats time_Parse time_Now c = (mkStats 1 0 0 0 0 0 0 1, None).
Proof.
  intros _ _ Hswapped.
  assert (Hd : count_deadline time_Parse time_Now
                 (labelled_Container "2020-01-01T00:00:00Z") Stats_zero
               = mkStats 0 0 0 0 0 0 0 1).
  { unfold count_deadline.
    change (containerd.on_Labels (labelled_Container "2020-01-01T00:00:00Z"))
      with (@inl (gmap string string) error
              {[ "wk/owner" := "chains";
                 "chains/deadline" := "2020-01-01T00:00:00Z" ]}).
    cbv beta iota.
    replace (({[ "wk/owner" := "chains";
                 "chains/deadline" := "2020-01-01T00:00:00Z" ]}
              : gmap string string) !! "chains/deadline")
      with (Some "2020-01-01T00:00:00Z") by (vm_compute; reflexivity).
    by rewrite Hswapped. }
  split; [exact Hd|].
  intros c Hc. unfold getContainerdStats. rewrite Hc. simpl. by rewrite Hd.
Qed.

Lemma past_deadline_counted_as_error_witness :
  sample_Parse time_RFC3339 "2020-01-01T00:00:00Z" = Some 1577836800000000000 /\
  After 1800000000000000000 1577836800000000000 = true /\
  sample_Parse "2020-01-01T00:00:00Z" time_RFC3339 = None /\
  count_deadline sample_Parse 1800000000000000000
    (labelled_Container "2020-01-01T00:00:00Z") Stats_zero
  = mkStats 0 0 0 0 0 0 0 1.
Proof.
  assert (H1 : sample_Parse time_RFC3339 "2020-01-01T00:00:00Z"
               = Some 1577836800000000000) by (vm_compute; reflexivity).
  assert (H2 : After 1800000000000000000 1577836800000000000 = true)
    by reflexivity.
  assert (H3 : sample_Parse "2020-01-01T00:00:00Z" time_RFC3339 = None)
    by (vm_compute; reflexivity).
  split; [exact H1|]. split; [exact H2|]. split; [exact H3|].
  exact (proj1 (past_deadline_counted_as_error sample_Parse
                  1800000000000000000 1577836800000000000 H1 H2 H3)).
Defined.


(** * Further properties of the package

    The generic command, the two strategies, the factory and the snapshot,
    beyond the sentences of the specification. As everywhere in the
    embedding, the log statements are left out: the namespaced-task strategy
    is taken to have a logger. *)

Section More_Start.
Context {T S : Type} `{!Execution T S}.

Lemma with_defaults_streams (g : GenericCmd T S) :
  Stdin (with_defaults g) = Some (default emptyReader (Stdin g)) /\
  Stdout (with_defaults g) = Some (default ioutil_Discard (Stdout g)) /\
  Stderr (with_defaults g) = Some (default ioutil_Discard (Stderr g)).
Proof.
  destruct g as [p a e d [i|] [o|] [er|] st m c cl]; repeat split; reflexivity.
Qed.

Lemma forward_ok (g g1 : GenericCmd T S) (w w1 : World) :
  forward g w = (Return None, (g1, w1)) ->
  exists m, g1 = set_Method m g /\
    w1 = mkWorld (bufs w) (next w) (trace w ++ setter_calls g).
Proof.
  unfold forward, invoke, setter_calls. intros Hf.
  destruct (decide (Dir g = "")) as [Hd|Hd].
  - destruct (Env g) as [env|].
    + destruct (setEnv env (Method g)) as [r' m] eqn:He.
      simplify_eq. by exists m.
    + simplify_eq. exists (Method g1). rewrite set_Method_same, app_nil_r.
      by destruct w1.
  - destruct (setDir (Dir g) (Method g)) as [r' m] eqn:Hsd.
    destruct r' as [[e|]| |]; try discriminate.
    destruct (Env g) as [env|].
    + simpl in Hf. destruct (setEnv env m) as [r' m'] eqn:He.
      simplify_eq. exists m'. split; [done|].
      unfold log. simpl. by rewrite <- app_assoc.
    + simplify_eq. by exists m.
Qed.

Lemma launch_ok (g g' : GenericCmd T S) (w w' : World) :
  launch g w = (Return None, (g', w')) ->
  started g = false /\
  exists m b,
    g' = set_Method m (with_defaults (set_started true g)) /\
    w' = mkWorld b (next w)
           (trace w ++ [call_create (Path g :: Args g);
                        call_run (Stdin g') (Stdout g') (Stderr g')]).
Proof.
  unfold launch, invoke, invoke_io. intros Hl.
  destruct (started g) eqn:Hst; [discriminate|]. split; [done|].
  set (g2 := with_defaults _) in *.
  destruct (with_defaults_fields (set_started true g)) as (HP & HA & _).
  fold g2 in HP, HA. simpl in HP, HA. rewrite HP, HA in Hl.
  destruct (create _ _ _) as [r1 m1] eqn:Hc.
  destruct r1 as [[e|]| |]; try discriminate.
  simpl in Hl. destruct (run _ _ _ _ _ _) as [[r2 m2] b2] eqn:Hr.
  simplify_eq. exists m2, b2. split; [done|].
  unfold set_bufs, log. simpl. by rewrite <- app_assoc.
Qed.

(** A [Start] that returns nil. *)
Lemma Start_success_calls (g g' : GenericCmd T S) (w w' : World) :
  Start (g, w) = (Return None, (g', w')) ->
  started g = false /\ started g' = true /\
  Stdin g' = Some (default emptyReader (Stdin g)) /\
  Stdout g' = Some (default ioutil_Discard (Stdout g)) /\
  Stderr g' = Some (default ioutil_Discard (Stderr g)) /\
  trace w' =
    (trace w ++ setter_calls g ++
     [call_create (Path g :: Args g);
      call_run (Stdin g') (Stdout g') (Stderr g')])%list.
Proof.
  rewrite Start_phases. intros HS.
  destruct (forward g w) as [r1 [g1 w1]] eqn:Hf.
  destruct r1 as [[e|]| |]; try discriminate.
  destruct (forward_ok _ _ _ _ Hf) as (m & -> & ->).
  destruct (launch_ok _ _ _ _ HS) as (Hst & m2 & b2 & Hg' & ->).
  destruct (with_defaults_streams (set_started true (set_Method m g)))
    as (Hi & Ho & He).
  destruct (with_defaults_fields (set_started true (set_Method m g)))
    as (_ & _ & _ & _ & Hst' & _).
  simpl in Hst. split; [done|].
  rewrite Hg'. simpl. rewrite Hi, Ho, He, Hst'. simpl.
  repeat split. by rewrite <- app_assoc.
Qed.


Ltac unfold_M :=
  unfold mbind, M_bind, mret, M_ret, receiver, assign, invoke, invoke_io, defer in *;
  simpl in *.

Lemma creates_app (tr1 tr2 : list event) :
  creates (tr1 ++ tr2) = (creates tr1 + creates tr2)%nat.
Proof. unfold creates. by rewrite List.filter_app, length_app. Qed.

Lemma creates_none (tr : list event) :
  existsb is_create tr = false -> creates tr = 0%nat.
Proof.
  unfold creates. induction tr as [|e tr IH]; [done|]. simpl.
  intros [He Htr]%orb_false_iff. rewrite He. by apply IH.
Qed.

Lemma creates_map_Close (l : list Writer) : creates (map Close l) = 0%nat.
Proof. unfold creates. induction l as [|fd l IH]; [done|]. exact IH. Qed.

Lemma launch_creates (g g' : GenericCmd T S) (w w' : World) r :
  started g = false ->
  launch g w = (r, (g', w')) ->
  exists m b tl,
    g' = set_Method m (with_defaults (set_started true g)) /\
    w' = mkWorld b (next w) (trace w ++ call_create (Path g :: Args g) :: tl) /\
    creates tl = 0%nat.
Proof.
  unfold launch, invoke, invoke_io. intros -> Hl.
  set (g2 := with_defaults _) in *.
  destruct (with_defaults_fields (set_started true g)) as (HP & HA & _).
  fold g2 in HP, HA. simpl in HP, HA. rewrite HP, HA in Hl.
  destruct (create _ _ _) as [r1 m1] eqn:Hc.
  assert (Hstop : r1 <> Return None ->
    exists m b tl, g' = set_Method m g2 /\
      w' = mkWorld b (next w) (trace w ++ call_create (Path g :: Args g) :: tl) /\
      creates tl = 0%nat).
  { intros Hne. exists m1, (bufs w), [].
    destruct r1 as [[e|]| |]; simplify_eq; done. }
  destruct r1 as [[e|]| |]; try (apply Hstop; discriminate).
  simpl in Hl. destruct (run _ _ _ _ _ _) as [[r2 m2] b2] eqn:Hr.
  simplify_eq. exists m2, b2, [call_run (Stdin g2) (Stdout g2) (Stderr g2)].
  repeat split.
  unfold set_bufs, log. simpl. by rewrite <- app_assoc.
Qed.

(** Where one [Start] leaves the command: it stopped before the guard or at
    it, and only the strategy's state may have changed; or it went past the
    guard, and the flag and the defaults are set. *)
Lemma Start_shape (g g' : GenericCmd T S) (w w' : World) r :
  Start (g, w) = (r, (g', w')) ->
  exists m delta,
    trace w' = (trace w ++ delta)%list /\
    (g' = set_Method m g /\ creates delta = 0%nat /\
     (started g = false -> r <> Return None) \/
     started g = false /\
     g' = set_Method m (with_defaults (set_started true g)) /\
     creates delta = 1%nat).
Proof.
  rewrite Start_phases. intros HS.
  destruct (forward g w) as [r1 [g1 w1]] eqn:Hf.
  destruct (forward_inv _ _ _ _ _ Hf)
    as (m & d1 & -> & -> & Hd1%creates_none & _).
  assert (Hstop : r1 <> Return None ->
    exists m delta,
      trace w' = (trace w ++ delta)%list /\
      (g' = set_Method m g /\ creates delta = 0%nat /\
       (started g = false -> r <> Return None) \/
       started g = false /\
       g' = set_Method m (with_defaults (set_started true g)) /\
       creates delta = 1%nat)).
  { intros Hne. exists m, d1.
    destruct r1 as [[e|]| |]; try done; simplify_eq; simpl; (split; [done|]);
      left; repeat split; try done. }
  destruct r1 as [[e|]| |]; try (apply Hstop; discriminate).
  destruct (started g) eqn:Hst.
  - rewrite launch_started in HS by done. simplify_eq.
    exists m, d1. split; [done|]. left. repeat split; try done.
  - apply launch_creates in HS; [|done].
    destruct HS as (m2 & b2 & tl & -> & -> & Htl).
    exists m2, (d1 ++ call_create (Path g :: Args g) :: tl)%list. simpl.
    rewrite <- app_assoc. split; [done|]. right. split; [done|].
    split; [by destruct g as [p a e d [i|] [o|] [er|] st mm c cl]|].
    rewrite creates_app, Hd1. unfold creates in *. simpl. by rewrite Htl.
Qed.


Lemma Wait_shape (g g' : GenericCmd T S) (w w' : World) r :
  Wait (g, w) = (r, (g', w')) ->
  exists m delta,
    g' = set_Method m g /\ trace w' = (trace w ++ delta)%list /\
    creates delta = 0%nat.
Proof.
  unfold Wait. unfold_M. intros HW.
  destruct (started g); simpl in HW.
  - destruct (wait _ _ _) as [[[[ec [e|]]| |] m] b]; simpl in HW;
      try destruct (decide (ec = 0)); simpl in HW;
      rewrite ?closeFds_trace in HW;
      injection HW as Hr Hg Hw; subst r g' w'; simpl;
      try (exists m, (call_wait :: map Close (closeAfterWait g));
           rewrite <- app_assoc; split; [done|]; split; [done|];
           apply (creates_map_Close (closeAfterWait g))).
    exists m, [call_wait]. by repeat split.
  - rewrite closeFds_trace in HW. injection HW as Hr Hg Hw; subst r g' w'.
    simpl. exists (Method g), (map Close (closeAfterWait g)).
    rewrite set_Method_same. split; [done|]. split; [done|].
    apply creates_map_Close.
Qed.

Lemma Start_created_once (st : GenericCmd T S * World) :
  created_once st -> created_once (after (Start st)).
Proof.
  destruct st as [g w]. unfold created_once, after. simpl. intros Hinv.
  destruct (Start (g, w)) as [r [g' w']] eqn:HS. simpl.
  destruct (Start_shape _ _ _ _ _ HS) as (m & delta & -> & Hcase).
  rewrite creates_app, Hinv.
  destruct Hcase as [(-> & -> & _)|(Hst & -> & ->)].
  - simpl. lia.
  - destruct (with_defaults_fields (set_started true g))
      as (_ & _ & _ & _ & Hst' & _).
    simpl. rewrite Hst', Hst. reflexivity.
Qed.

Lemma Wait_created_once (st : GenericCmd T S * World) :
  created_once st -> created_once (after (Wait st)).
Proof.
  destruct st as [g w]. unfold created_once, after. simpl. intros Hinv.
  destruct (Wait (g, w)) as [r [g' w']] eqn:HW. simpl.
  destruct (Wait_shape _ _ _ _ _ HW) as (m & delta & -> & -> & Hd).
  rewrite creates_app, Hinv, Hd. simpl. lia.
Qed.

Lemma Run_created_once (st : GenericCmd T S * World) :
  created_once st -> created_once (after (Run st)).
Proof.
  intros Hinv. rewrite Run_phases.
  pose proof (Start_created_once st Hinv) as H1. unfold after in *.
  destruct (Start st) as [[[e|]| |] st1]; try exact H1.
  by apply Wait_created_once.
Qed.

Lemma invoke_created_once {A} (e : event) (f : S -> outcome A * S)
    (st : GenericCmd T S * World) :
  is_create e = false ->
  created_once st -> created_once (after (invoke e f st)).
Proof.
  intros He. destruct st as [g w]. unfold created_once, after, invoke. simpl.
  destruct (f (Method g)) as [r m]. simpl. intros Hinv.
  rewrite creates_app, Hinv. unfold creates. simpl. rewrite He. simpl. lia.
Qed.

(** Every call of the interface keeps the flag and the trace in step. *)
Lemma perform_created_once (c : api_call) (st : GenericCmd T S * World) :
  created_once st -> created_once (perform c st).
Proof.
  intros Hinv. destruct c; simpl; try exact Hinv.
  - by apply Start_created_once.
  - by apply Wait_created_once.
  - by apply Run_created_once.
  - destruct st as [g w]. unfold after, Output, new_Buffer, Buffer_contents.
    unfold_M. destruct (Stdout g) as [o|]; cbn; [exact Hinv|].
    destruct (Stderr g); cbn;
      match goal with
      | |- context [Run ?st] =>
          pose proof (Run_created_once st Hinv) as HR; unfold after in HR;
          destruct (Run st) as [[[]| |] [g3 w3]]
      end; exact HR.
  - destruct st as [g w]. unfold after, CombinedOutput, new_Buffer, Buffer_contents.
    unfold_M. destruct (Stdout g) as [o|]; cbn; [exact Hinv|].
    destruct (Stderr g); cbn; [exact Hinv|].
    match goal with
    | |- context [Run ?st] =>
        pose proof (Run_created_once st Hinv) as HR; unfold after in HR;
        destruct (Run st) as [[[]| |] [g3 w3]]
    end; exact HR.
  - destruct st as [g w]. unfold after, StdinPipe, io_Pipe. unfold_M.
    by destruct (Stdin g).
  - destruct st as [g w]. unfold after, StdoutPipe, io_Pipe. unfold_M.
    by destruct (Stdout g).
  - destruct st as [g w]. unfold after, StderrPipe, io_Pipe. unfold_M.
    by destruct (Stderr g).
  - unfold GetPID. unfold_M. destruct (started (fst st)) eqn:Hst.
    + by apply invoke_created_once.
    + exact Hinv.
  - unfold Kill. unfold_M. destruct (started (fst st)) eqn:Hst.
    + by apply invoke_created_once.
    + exact Hinv.
  - unfold Cleanup. unfold_M. by apply invoke_created_once.
Qed.

(** Over any history of calls on a command that is not started and has
    created nothing, the strategy's [create] is called at most once, and the
    command counts as started exactly when [create] has been called. *)
Theorem create_called_at_most_once (cs : list api_call)
    (st : GenericCmd T S * World) :
  started (fst st) = false ->
  creates (trace (snd st)) = 0%nat ->
  (creates (trace (snd (perform_all cs st))) <= 1)%nat /\
  (started (fst (perform_all cs st)) = true <->
   creates (trace (snd (perform_all cs st))) = 1%nat).
Proof.
  intros Hst Hcr.
  assert (Hinv : created_once (perform_all cs st)).
  { assert (H0 : created_once st) by (unfold created_once; by rewrite Hst).
    clear Hst Hcr. revert st H0.
    induction cs as [|c cs IH]; intros st H0; [done|].
    simpl. apply IH. by apply perform_created_once. }
  unfold created_once in Hinv. rewrite Hinv.
  destruct (started (fst (perform_all cs st))); split; try lia; done.
Qed.


(** Once [Start] has raised the flag, whatever it then returns, the three
    pipe constructors are refused with their "already set" error, leave the
    command as it is and register nothing to close: [Start] has filled the
    three streams. *)
Theorem pipes_refused_after_Start (g g' : GenericCmd T S) (w w' : World) r :
  started g = false ->
  Start (g, w) = (r, (g', w')) ->
  started g' = true ->
  StdinPipe (g', w')
  = (Return (None, Some (errors_New "dexec: Stdin already set")), (g', w')) /\
  StdoutPipe (g', w')
  = (Return (None, Some (errors_New "dexec: Stdout already set")), (g', w')) /\
  StderrPipe (g', w')
  = (Return (None, Some (errors_New "dexec: Stderr already set")), (g', w')) /\
  closeAfterWait g' = closeAfterWait g.
Proof.
  intros Hst HS Hst'.
  destruct (Start_shape _ _ _ _ _ HS) as (m & delta & _ & Hcase).
  destruct Hcase as [(-> & _)|(_ & -> & _)].
  - simpl in Hst'. congruence.
  - destruct (with_defaults_streams (set_started true g)) as (Hi & Ho & He).
    destruct (with_defaults_fields (set_started true g))
      as (_ & _ & _ & _ & _ & _ & HC & _).
    unfold StdinPipe, StdoutPipe, StderrPipe. unfold_M.
    rewrite Hi, Ho, He, HC. done.
Qed.

Lemma Start_keeps_Stdout (g g' : GenericCmd T S) (w w' : World) r o :
  Start (g, w) = (r, (g', w')) -> Stdout g = Some o -> Stdout g' = Some o.
Proof.
  intros HS Ho.
  destruct (Start_shape _ _ _ _ _ HS) as (m & delta & _ & Hcase).
  destruct Hcase as [(-> & _)|(_ & -> & _)]; [done|].
  destruct (with_defaults_streams (set_started true g)) as (_ & Ho' & _).
  simpl in *. rewrite Ho'. simpl. by rewrite Ho.
Qed.

Lemma Run_keeps_Stdout (g g' : GenericCmd T S) (w w' : World) r o :
  Run (g, w) = (r, (g', w')) -> Stdout g = Some o -> Stdout g' = Some o.
Proof.
  rewrite Run_phases. intros HR Ho.
  destruct (Start (g, w)) as [r1 [g1 w1]] eqn:HS.
  pose proof (Start_keeps_Stdout _ _ _ _ _ _ HS Ho) as Ho1.
  destruct r1 as [[e|]| |]; simplify_eq; try done.
  destruct (Wait_shape _ _ _ _ _ HR) as (m & delta & -> & _). done.
Qed.

(** A command serves one [Output] or [CombinedOutput]. After [Output],
    whatever it returned, a second [Output], a [CombinedOutput] and
    [StdoutPipe] are refused with "Stdout already set" and no bytes; after
    [CombinedOutput] a second one is refused with the [Stdout] or the
    [Stderr] message. *)
Theorem Output_not_reusable (g : GenericCmd T S) (w : World) :
  let refused : bytes * option error :=
    ([], Some (errors_New "dexec: Stdout already set")) in
  fst (Output (after (Output (g, w)))) = Return refused /\
  fst (CombinedOutput (after (Output (g, w)))) = Return refused /\
  fst (StdoutPipe (after (Output (g, w))))
  = Return (None, Some (errors_New "dexec: Stdout already set")) /\
  (fst (CombinedOutput (after (CombinedOutput (g, w)))) = Return refused \/
   fst (CombinedOutput (after (CombinedOutput (g, w))))
   = Return ([], Some (errors_New "dexec: Stderr already set"))).
Proof.
  intros refused.
  assert (HO : exists o, Stdout (fst (after (Output (g, w)))) = Some o).
  { unfold after, Output, new_Buffer, Buffer_contents. unfold_M.
    destruct (Stdout g) as [o|] eqn:Ho; cbn; [eauto|].
    destruct (Stderr g); cbn;
      match goal with
      | |- context [Run ?st] => destruct (Run st) as [r [g3 w3]] eqn:HR
      end;
      apply Run_keeps_Stdout with (o := Buffer (next w)) in HR; try done;
      destruct r as [[]| |]; simpl; eauto. }
  destruct HO as [o HO].
  destruct (after (Output (g, w))) as [g1 w1]. simpl in HO.
  split; [|split; [|split]].
  - unfold Output. unfold_M. by rewrite HO.
  - unfold CombinedOutput. unfold_M. by rewrite HO.
  - unfold StdoutPipe. unfold_M. by rewrite HO.
  - destruct (Stdout g) as [o'|] eqn:Ho.
    { left. unfold after, CombinedOutput. unfold_M. rewrite Ho. simpl.
      by rewrite Ho. }
    destruct (Stderr g) as [e|] eqn:He.
    { right. unfold after, CombinedOutput. unfold_M. rewrite Ho, He. simpl.
      by rewrite Ho, He. }
    left.
    assert (HC : Stdout (fst (after (CombinedOutput (g, w))))
                 = Some (Buffer (next w))).
    { unfold after, CombinedOutput, new_Buffer, Buffer_contents. unfold_M.
      rewrite Ho, He. cbn.
      match goal with
      | |- context [Run ?st] => destruct (Run st) as [r [g3 w3]] eqn:HR
      end.
      apply Run_keeps_Stdout with (o := Buffer (next w)) in HR; try done.
      by destruct r as [[]| |]. }
    destruct (after (CombinedOutput (g, w))) as [g2 w2]. simpl in HC.
    unfold CombinedOutput. unfold_M. by rewrite HC.
Qed.

Lemma forward_prefix (g g1 : GenericCmd T S) (w w1 : World) r :
  forward g w = (r, (g1, w1)) ->
  exists d1,
    trace w1 = (trace w ++ d1)%list /\ d1 `prefix_of` setter_calls g /\
    (r = Return None -> d1 = setter_calls g).
Proof.
  unfold forward, invoke, setter_calls. intros Hf.
  destruct (decide (Dir g = "")) as [Hd|Hd].
  - destruct (Env g) as [env|].
    + destruct (setEnv env (Method g)) as [r' m] eqn:He.
      simplify_eq. by exists [call_setEnv env].
    + simplify_eq. exists []. by rewrite app_nil_r.
  - destruct (setDir (Dir g) (Method g)) as [r' m] eqn:Hsd.
    assert (Hstop : r' <> Return None ->
      exists d1, trace w1 = (trace w ++ d1)%list /\
        d1 `prefix_of` ([call_setDir (Dir g)] ++
               match Env g with Some env => [call_setEnv env] | None => [] end)%list /\
        (r = Return None -> d1 = ([call_setDir (Dir g)] ++
               match Env g with Some env => [call_setEnv env] | None => [] end)%list)).
    { intros Hne. exists [call_setDir (Dir g)].
      destruct r' as [[e|]| |]; try done; simplify_eq;
        (split; [done|]); (split; [by apply prefix_app_r|done]). }
    destruct r' as [[e|]| |]; try (apply Hstop; discriminate).
    destruct (Env g) as [env|].
    + simpl in Hf. destruct (setEnv env m) as [r' m'] eqn:He.
      simplify_eq. exists [call_setDir (Dir g); call_setEnv env].
      split; [|done]. unfold log. simpl. by rewrite <- app_assoc.
    + simplify_eq. by exists [call_setDir (Dir g)].
Qed.

Lemma launch_prefix (g g' : GenericCmd T S) (w w' : World) r :
  launch g w = (r, (g', w')) ->
  exists d2,
    trace w' = (trace w ++ d2)%list /\
    d2 `prefix_of`
      [call_create (Path g :: Args g);
       call_run (Some (default emptyReader (Stdin g)))
                (Some (default ioutil_Discard (Stdout g)))
                (Some (default ioutil_Discard (Stderr g)))].
Proof.
  unfold launch, invoke, invoke_io. intros Hl.
  destruct (started g) eqn:Hst.
  { simplify_eq. exists []. rewrite app_nil_r. split; [done|]. apply prefix_nil. }
  destruct (with_defaults_fields (set_started true g)) as (HP & HA & _).
  destruct (with_defaults_streams (set_started true g)) as (Hi & Ho & He).
  set (g2 := with_defaults _) in *.
  simpl in HP, HA, Hi, Ho, He. rewrite HP, HA in Hl.
  destruct (create _ _ _) as [r1 m1] eqn:Hc.
  assert (Hstop : r1 <> Return None ->
    exists d2, trace w' = (trace w ++ d2)%list /\
      d2 `prefix_of`
        [call_create (Path g :: Args g);
         call_run (Some (default emptyReader (Stdin g)))
                  (Some (default ioutil_Discard (Stdout g)))
                  (Some (default ioutil_Discard (Stderr g)))]).
  { intros Hne. exists [call_create (Path g :: Args g)].
    destruct r1 as [[e|]| |]; try done; simplify_eq;
      (split; [done|]); by apply (prefix_app_r _ [_] [_]). }
  destruct r1 as [[e|]| |]; try (apply Hstop; discriminate).
  simpl in Hl. rewrite Hi, Ho, He in Hl.
  destruct (run _ _ _ _ _ _) as [[r2 m2] b2] eqn:Hr.
  simplify_eq. eexists. split; [|reflexivity].
  unfold set_bufs, log. simpl. by rewrite <- app_assoc.
Qed.

(** Whatever a [Start] does, its calls on the strategy are an initial part
    of [Start_calls]. *)
Lemma Start_prefix (g g' : GenericCmd T S) (w w' : World) r :
  Start (g, w) = (r, (g', w')) ->
  exists delta,
    trace w' = (trace w ++ delta)%list /\ delta `prefix_of` Start_calls g.
Proof.
  rewrite Start_phases. intros HS.
  destruct (forward g w) as [r1 [g1 w1]] eqn:Hf.
  destruct (forward_prefix _ _ _ _ _ Hf) as (d1 & Ht1 & Hp1 & Hfull).
  assert (Hstop : r1 <> Return None ->
    exists delta,
      trace w' = (trace w ++ delta)%list /\ delta `prefix_of` Start_calls g).
  { intros Hne. exists d1.
    destruct r1 as [[e|]| |]; try done; simplify_eq;
      (split; [done|]); by apply prefix_app_r. }
  destruct r1 as [[e|]| |]; try (apply Hstop; discriminate).
  rewrite (Hfull eq_refl) in Ht1.
  destruct (forward_ok _ _ _ _ Hf) as (m & -> & _).
  destruct (launch_prefix _ _ _ _ _ HS) as (d2 & Ht2 & Hp2).
  exists (setter_calls g ++ d2)%list. rewrite Ht2, Ht1, <- app_assoc.
  split; [done|]. by apply prefix_app.
Qed.

Lemma Start_calls_no_wait (g : GenericCmd T S) : ~ In call_wait (Start_calls g).
Proof.
  unfold Start_calls, setter_calls.
  destruct (decide (Dir g = "")), (Env g); simpl; intuition discriminate.
Qed.

(** The calls of [Start] on its strategy, in order: whatever [Start]
    returns, it has added to the trace a prefix of [setDir] (for a [Dir]
    that is not empty), [setEnv] (for an [Env] that is not nil), [create]
    with the path followed by the arguments, and [run]; when it returns nil
    it has made all of them, and [run] has received the streams of the
    command, a nil one replaced by the empty reader or by [ioutil.Discard]. *)
Theorem Start_calls_in_order (g g' : GenericCmd T S) (w w' : World) r :
  Start (g, w) = (r, (g', w')) ->
  (exists delta,
     trace w' = (trace w ++ delta)%list /\ delta `prefix_of` Start_calls g) /\
  (r = Return None ->
   trace w' = (trace w ++ Start_calls g)%list /\
   started g = false /\ started g' = true /\
   Stdin g' = Some (default emptyReader (Stdin g)) /\
   Stdout g' = Some (default ioutil_Discard (Stdout g)) /\
   Stderr g' = Some (default ioutil_Discard (Stderr g))).
Proof.
  intros HS. split; [by eapply Start_prefix|]. intros ->.
  destruct (Start_success_calls _ _ _ _ HS) as (H1 & H2 & Hi & Ho & He & Ht).
  rewrite Ht, Hi, Ho, He. done.
Qed.

(** When [Start] fails, [Run] gives its error back without waiting: the
    strategy's [wait] is not called, nothing is closed, and the pipes that
    were registered stay registered. *)
Theorem Run_stops_at_failed_Start (g g' : GenericCmd T S) (w w' : World) e :
  Start (g, w) = (Return (Some e), (g', w')) ->
  Run (g, w) = (Return (Some e), (g', w')) /\
  closes (trace w') = closes (trace w) /\
  closeAfterWait g' = closeAfterWait g /\
  exists delta, trace w' = (trace w ++ delta)%list /\ ~ In call_wait delta.
Proof.
  intros HS. split; [by rewrite Run_phases, HS|].
  destruct (Start_inv _ _ _ _ _ HS)
    as (d & Ht & _ & Hc & _ & _ & _ & _ & HC & _).
  split; [by rewrite Ht, closes_app, Hc, app_nil_r|]. split; [done|].
  destruct (Start_prefix _ _ _ _ _ HS) as (delta & Ht' & [k Hk]).
  exists delta. split; [done|]. intros Hin.
  apply (Start_calls_no_wait g). rewrite Hk. apply in_or_app. by left.
Qed.

End More_Start.

(** ** The stream copy *)

Lemma Buffer_Bytes_insert (a : nat) (p : bytes) (b : Buffers) :
  Buffer_Bytes a (<[a := p]> b) = p.
Proof. unfold Buffer_Bytes. by rewrite lookup_insert_eq. Qed.

Lemma Buffer_Bytes_insert_ne (a a' : nat) (p : bytes) (b : Buffers) :
  a <> a' -> Buffer_Bytes a (<[a' := p]> b) = Buffer_Bytes a b.
Proof. intros Hne. unfold Buffer_Bytes. by rewrite lookup_insert_ne. Qed.

(** Two distinct buffers each receive their own stream, in order. *)
Lemma copy_streams_distinct (a e : nat) (out : list chunk) (b : Buffers) :
  a <> e ->
  Buffer_Bytes a (copy_streams (Some (Buffer a)) (Some (Buffer e)) out b)
  = (Buffer_Bytes a b ++ stdout_bytes out)%list /\
  Buffer_Bytes e (copy_streams (Some (Buffer a)) (Some (Buffer e)) out b)
  = (Buffer_Bytes e b ++ stderr_bytes out)%list.
Proof.
  intros Hne. revert b. unfold copy_streams, stdout_bytes, stderr_bytes.
  induction out as [|k out IH]; intros b.
  - simpl. by rewrite !app_nil_r.
  - destruct k as [p|p]; cbn [foldl map concat].
    + destruct (IH (Write (Some (Buffer a)) p b)) as [IHa IHe].
      rewrite IHa, IHe. unfold Write.
      rewrite Buffer_Bytes_insert, Buffer_Bytes_insert_ne by done.
      by rewrite <- app_assoc.
    + destruct (IH (Write (Some (Buffer e)) p b)) as [IHa IHe].
      rewrite IHa, IHe. unfold Write.
      rewrite Buffer_Bytes_insert, Buffer_Bytes_insert_ne by done.
      by rewrite <- app_assoc.
Qed.

(** One buffer behind both streams receives everything, in the order of
    the copy. *)
Lemma copy_streams_shared (a : nat) (out : list chunk) (b : Buffers) :
  Buffer_Bytes a (copy_streams (Some (Buffer a)) (Some (Buffer a)) out b)
  = (Buffer_Bytes a b ++ all_bytes out)%list.
Proof.
  revert b. unfold copy_streams, all_bytes.
  induction out as [|k out IH]; intros b.
  - simpl. by rewrite app_nil_r.
  - destruct k as [p|p]; cbn [foldl map concat]; rewrite IH; unfold Write;
      rewrite Buffer_Bytes_insert; by rewrite <- app_assoc.
Qed.

(** A sink that is not a buffer of the package leaves the buffers alone. *)
Lemma copy_streams_other (o e : option Writer) (out : list chunk) (b : Buffers) :
  (forall a, o <> Some (Buffer a)) -> (forall a, e <> Some (Buffer a)) ->
  copy_streams o e out b = b.
Proof.
  intros Ho He. revert b. unfold copy_streams.
  induction out as [|k out IH]; intros b; [done|].
  cbn [foldl]. rewrite IH.
  destruct k as [p|p]; unfold Write.
  - destruct o as [[]|]; try done. by destruct (Ho a).
  - destruct e as [[]|]; try done. by destruct (He a).
Qed.

(** ** The daemon-container strategy over a daemon that serves *)

Section docker_serves.
Variables (d : Docker) (id : string) (ec : Z).
Hypothesis Hserves : serves d id ec.

Lemma createContainer_create_ok (cmd : list string) (c : createContainer.t) :
  docker.Cmd (docker.Config_ (createContainer.opt c)) = [] ->
  docker.Entrypoint (docker.Config_ (createContainer.opt c)) = [] ->
  createContainer.create d cmd c =
    (Return None,
     let opt' :=
       docker.mkCreateContainerOptions
         (createContainer.Config_for_create cmd
            (docker.Config_ (createContainer.opt c)))
         (docker.HostConfig_ (createContainer.opt c)) in
     createContainer.mk opt' cmd id (createContainer.cw c)
       (createContainer.requests c ++ [docker.CreateContainer opt'])).
Proof.
  destruct Hserves as (Hc & _). intros HC HE.
  unfold createContainer.create. simpl. rewrite HC, HE. simpl.
  by rewrite Hc.
Qed.

Lemma createContainer_run_ok (i : option Reader) (o e : option Writer)
    (c : createContainer.t) (b : Buffers) :
  createContainer.id c = id ->
  createContainer.run d i o e c b =
    (Return None,
     createContainer.mk (createContainer.opt c) (createContainer.cmd c) id
       (Some (docker.mkCloseWaiter o e))
       (createContainer.requests c ++
        [docker.StartContainer id; docker.AttachToContainerNonBlocking id]),
     b).
Proof.
  destruct Hserves as (_ & Hne & Hs & Ha & _).
  destruct c as [op cm i' cw' rq]. simpl. intros ->.
  unfold createContainer.run. simpl. rewrite decide_False by done.
  rewrite Hs, Ha. by rewrite <- app_assoc.
Qed.

Lemma createContainer_wait_ok (o e : option Writer) (c : createContainer.t)
    (b : Buffers) :
  createContainer.id c = id ->
  createContainer.cw c = Some (docker.mkCloseWaiter o e) ->
  createContainer.wait d c b =
    (Return (ec, None),
     createContainer.mk (createContainer.opt c) (createContainer.cmd c) id
       (createContainer.cw c)
       (createContainer.requests c ++
        [docker.WaitContainer id; docker.RemoveContainer id true;
         docker.RemoveContainer id true]),
     copy_streams o e (docker.output d) b).
Proof.
  destruct Hserves as (_ & _ & _ & _ & Hw & Hwc & Hr).
  destruct c as [op cm i' cw' rq]. simpl. intros -> ->.
  unfold createContainer.wait, createContainer.del. simpl.
  rewrite Hw, Hwc, Hr. unfold createContainer.ask. simpl.
  by rewrite <- !app_assoc.
Qed.

End docker_serves.

(** [Run] of a command that forwards nothing, over a daemon that serves
    it. *)
Lemma docker_Run_ok (g : GenericCmd Docker createContainer.t) (w : World)
    (id : string) (ec : Z) :
  serves (client g) id ec ->
  started g = false -> Dir g = "" -> Env g = None ->
  docker.Cmd (docker.Config_ (createContainer.opt (Method g))) = [] ->
  docker.Entrypoint (docker.Config_ (createContainer.opt (Method g))) = [] ->
  let cmd := Path g :: Args g in
  let o := Some (default ioutil_Discard (Stdout g)) in
  let e := Some (default ioutil_Discard (Stderr g)) in
  let opt' :=
    docker.mkCreateContainerOptions
      (createContainer.Config_for_create cmd
         (docker.Config_ (createContainer.opt (Method g))))
      (docker.HostConfig_ (createContainer.opt (Method g))) in
  Run (g, w) =
    (Return (Wait_result ec None),
     (set_Method
        (createContainer.mk opt' cmd id (Some (docker.mkCloseWaiter o e))
           (createContainer.requests (Method g) ++
            [docker.CreateContainer opt'; docker.StartContainer id;
             docker.AttachToContainerNonBlocking id; docker.WaitContainer id;
             docker.RemoveContainer id true; docker.RemoveContainer id true]))
        (with_defaults (set_started true g)),
      mkWorld (copy_streams o e (docker.output (client g)) (bufs w)) (next w)
        (trace w ++ Start_calls g ++
         call_wait :: map Close (closeAfterWait g)))).
Proof.
  intros Hs Hst Hd He HC HE cmd o e opt'.
  rewrite Run_phases, Start_phases. unfold forward.
  rewrite decide_True by done. rewrite He.
  unfold launch. rewrite Hst.
  destruct (with_defaults_fields (set_started true g))
    as (HP & HA & _ & _ & Hst' & HM & HCl & Hcl).
  destruct (with_defaults_streams (set_started true g)) as (Hi & Ho & He').
  set (g2 := with_defaults _) in *. simpl in HP, HA, Hst', HM, HCl, Hcl, Hi, Ho, He'.
  rewrite <- Hcl in Hs.
  unfold invoke. rewrite HP, HA, HM. simpl create.
  rewrite (createContainer_create_ok _ _ _ Hs) by done.
  cbn iota beta zeta. unfold invoke_io. simpl.
  rewrite Hi, Ho, He'. simpl run.
  rewrite (createContainer_run_ok _ _ _ Hs) by done.
  cbn iota beta zeta.
  match goal with
  | |- Wait (?g3, ?w3) = _ =>
      pose proof (createContainer_wait_ok _ _ _ Hs o e (Method g3) (bufs w3)
                    eq_refl eq_refl) as Hw3;
      rewrite (@Wait_started_eq _ _ createContainer_Execution g3 w3 _ _ _ _ Hst' Hw3);
      clear Hw3
  end.
  simpl. rewrite HCl, Hcl. unfold Start_calls, setter_calls, log.
  rewrite (decide_True (P := Dir g = "")) by done. rewrite He.
  subst cmd o e opt'. simpl. rewrite <- !app_assoc. reflexivity.
Qed.

Ltac unfold_cmd :=
  unfold mbind, M_bind, mret, M_ret, receiver, assign, invoke, invoke_io, defer in *;
  simpl in *.

(** [Output] of a command made by [Command] over a daemon that serves it:
    the bytes of the standard output come back, with nil for the exit code 0
    and otherwise an [ExitError] with the code and the bytes of the standard
    error; the daemon has been asked, in this order, to create the container
    with the executable and the arguments as entry point, to start it, to
    attach to it, to wait for it, and twice to remove it by force (the
    inspection that [run] only logs is not among the requests of the
    embedding). *)
Theorem docker_Output_end_to_end (d : docker.Client) (config : Config)
    (g : GenericCmd Docker createContainer.t) (w : World) (id : string) (ec : Z) :
  Command (docker_client d) config = Return (DockerCmd g) ->
  serves d id ec ->
  exists g' w' opt',
    Output (g, w) =
      (Return (stdout_bytes (docker.output d),
               if decide (ec = 0) then None
               else Some (ExitError ec (stderr_bytes (docker.output d)))),
       (g', w')) /\
    createContainer.requests (Method g') =
      [docker.CreateContainer opt'; docker.StartContainer id;
       docker.AttachToContainerNonBlocking id; docker.WaitContainer id;
       docker.RemoveContainer id true; docker.RemoveContainer id true] /\
    docker.Entrypoint (docker.Config_ opt')
    = Executable (TaskConfig_ config) :: TC_Args (TaskConfig_ config) /\
    trace w' =
      (trace w ++
       [call_create (Executable (TaskConfig_ config) :: TC_Args (TaskConfig_ config));
        call_run (Some emptyReader) (Some (Buffer (next w)))
                 (Some (Buffer (Datatypes.S (next w))));
        call_wait])%list.
Proof.
  intros [= <-] Hs.
  set (g := new_Command _ _ _ _).
  destruct (copy_streams_distinct (next w) (Datatypes.S (next w)) (docker.output d)
              (<[Datatypes.S (next w) := []]> (<[next w := []]> (bufs w))))
    as [Hout Herr]; [lia|].
  rewrite Buffer_Bytes_insert_ne, Buffer_Bytes_insert in Hout by lia.
  rewrite Buffer_Bytes_insert in Herr. simpl in Hout, Herr.
  unfold Output, new_Buffer, Buffer_contents. unfold_cmd.
  match goal with
  | |- context [Run (?g0, ?w0)] =>
      rewrite (docker_Run_ok g0 w0 id ec Hs eq_refl eq_refl eq_refl eq_refl eq_refl)
  end.
  cbn. rewrite Hout, Herr.
  eexists _, _, _. split; [|split; [|split]].
  - unfold Wait_result. destruct (decide (ec = 0)); reflexivity.
  - reflexivity.
  - reflexivity.
  - reflexivity.
Qed.

(** [CombinedOutput] of a command made by [Command] over a daemon that
    serves it: one buffer is given to [run] for both streams and receives
    both, in the order in which they were written; the [ExitError] of a
    non-zero exit code carries no bytes. *)
Theorem docker_CombinedOutput_end_to_end (d : docker.Client) (config : Config)
    (g : GenericCmd Docker createContainer.t) (w : World) (id : string) (ec : Z) :
  Command (docker_client d) config = Return (DockerCmd g) ->
  serves d id ec ->
  exists g' w',
    CombinedOutput (g, w) =
      (Return (all_bytes (docker.output d),
               if decide (ec = 0) then None else Some (ExitError ec [])),
       (g', w')) /\
    Stdout g' = Some (Buffer (next w)) /\ Stderr g' = Some (Buffer (next w)) /\
    started g' = true /\
    trace w' =
      (trace w ++
       [call_create (Executable (TaskConfig_ config) :: TC_Args (TaskConfig_ config));
        call_run (Some emptyReader) (Some (Buffer (next w)))
                 (Some (Buffer (next w)));
        call_wait])%list.
Proof.
  intros [= <-] Hs.
  set (g := new_Command _ _ _ _).
  pose proof (copy_streams_shared (next w) (docker.output d)
                (<[next w := []]> (bufs w))) as Hall.
  rewrite Buffer_Bytes_insert in Hall. simpl in Hall.
  unfold CombinedOutput, new_Buffer, Buffer_contents. unfold_cmd.
  match goal with
  | |- context [Run (?g0, ?w0)] =>
      rewrite (docker_Run_ok g0 w0 id ec Hs eq_refl eq_refl eq_refl eq_refl eq_refl)
  end.
  cbn. rewrite Hall.
  eexists _, _. repeat split.
Qed.

(** ** The daemon-container strategy: [kill], [cleanup], [wait] *)

(** [cleanup] of the daemon-container strategy asks the daemon to stop the
    container, with a timeout of 1. When the daemon does not know the
    container, it returns nil and does not remove it; when the stop succeeds
    or the container was not running, it asks to remove the container,
    without force, and returns the error of the removal, wrapped; on any
    other error of the stop it returns that error, wrapped, and does not
    remove. Nothing else is asked. *)
Theorem createContainer_cleanup_cases (d : Docker) (c : createContainer.t) :
  let id := createContainer.id c in
  let stop := docker.StopContainer id 1 in
  let remove := docker.RemoveContainer id false in
  (forall e,
     docker.on_StopContainer d id = Some e -> As_NoSuchContainer e = true ->
     createContainer.cleanup d c = (Return None, createContainer.ask stop c)) /\
  (docker.on_StopContainer d id = None \/
   (exists e, docker.on_StopContainer d id = Some e /\
              As_NoSuchContainer e = false /\ As_ContainerNotRunning e = true) ->
   createContainer.cleanup d c =
     (Return (errors_Wrap (docker.on_RemoveContainer d id false)
                          "error removing container"),
      createContainer.ask remove (createContainer.ask stop c))) /\
  (forall e,
     docker.on_StopContainer d id = Some e ->
     As_NoSuchContainer e = false -> As_ContainerNotRunning e = false ->
     createContainer.cleanup d c =
       (Return (Some (Wrap "error stopping container" e)),
        createContainer.ask stop c)) /\
  (exists l,
     createContainer.requests (snd (createContainer.cleanup d c))
     = (createContainer.requests c ++ stop :: l)%list /\
     (l = [] \/ l = [remove])).
Proof.
  intros id stop remove. subst id stop remove.
  unfold createContainer.cleanup. repeat split.
  - intros e -> ->. reflexivity.
  - intros [->|(e & -> & -> & ->)]; reflexivity.
  - intros e -> -> ->. reflexivity.
  - destruct (docker.on_StopContainer d (createContainer.id c)) as [e|].
    + destruct (As_NoSuchContainer e); [exists []; by split; [|left]|].
      destruct (As_ContainerNotRunning e); cbn [negb].
      * eexists. split; [|by right]. simpl. by rewrite <- app_assoc.
      * exists []. by split; [|left].
    + eexists. split; [|by right]. simpl. by rewrite <- app_assoc.
Qed.

(** [kill] of the daemon-container strategy asks the daemon to stop the
    container and nothing else. It returns nil exactly when the stop
    succeeded, the container is not known or it was not running; an error it
    returns wraps the daemon's error under a message, and is itself neither
    of the two kinds [kill] tolerates. When [kill] returns nil, [cleanup]
    returns nil or the error of the removal. *)
Theorem createContainer_kill_cases (d : Docker) (c : createContainer.t) :
  let id := createContainer.id c in
  let answer := docker.on_StopContainer d id in
  snd (createContainer.kill d c)
  = createContainer.ask (docker.StopContainer id 1) c /\
  (fst (createContainer.kill d c) = Return None <->
   answer = None \/
   exists e, answer = Some e /\
             (As_NoSuchContainer e = true \/ As_ContainerNotRunning e = true)) /\
  (forall e',
     fst (createContainer.kill d c) = Return (Some e') ->
     exists e, answer = Some e /\ e' = Wrap "error stopping container" e /\
               As_NoSuchContainer e' = false /\
               As_ContainerNotRunning e' = false) /\
  (fst (createContainer.kill d c) = Return None ->
   fst (createContainer.cleanup d c) = Return None \/
   fst (createContainer.cleanup d c)
   = Return (errors_Wrap (docker.on_RemoveContainer d id false)
                         "error removing container")).
Proof.
  intros id answer. subst id answer. unfold createContainer.kill, createContainer.cleanup.
  destruct (docker.on_StopContainer d (createContainer.id c)) as [e|]; simpl.
  - destruct (As_NoSuchContainer e) eqn:Hn, (As_ContainerNotRunning e) eqn:Hr;
      simpl; (split; [done|]); (split; [|split]);
      try (split; [intros _; right; exists e; eauto|done]);
      try (intros e' [= <-]; exists e; simpl; by rewrite ?Hn, ?Hr);
      try done; eauto.
    split; [discriminate|]. intros [|(e' & [= <-] & [|])]; congruence.
  - split; [done|]. split; [split; eauto|]. split; [done|]. eauto.
Qed.


(** The errors of [create], [run] and [wait] of the daemon-container
    strategy are opaque: the daemon's error is printed into the message with
    [%v], so [errors.As] finds neither a [NoSuchContainer] nor a
    [ContainerNotRunning] in them, they are not NotFound, and they wrap
    nothing. *)
Theorem createContainer_errors_opaque (d : Docker) (c : createContainer.t)
    (cmd : list string) (i : option Reader) (o e : option Writer) (b : Buffers)
    (err : error) :
  fst (createContainer.create d cmd c) = Return (Some err) \/
  fst (fst (createContainer.run d i o e c b)) = Return (Some err) \/
  (exists ec, fst (fst (createContainer.wait d c b)) = Return (ec, Some err)) ->
  As_NoSuchContainer err = false /\ As_ContainerNotRunning err = false /\
  IsNotFound err = false /\
  forall msg cause, err <> Wrap msg cause.
Proof.
  intros [H|[H|[ec H]]]; revert H.
  - unfold createContainer.create.
    repeat case_decide; simpl; try (by intros [= <-]).
    destruct (docker.on_CreateContainer d _); by intros [= <-].
  - unfold createContainer.run. case_decide; simpl; [by intros [= <-]|].
    destruct (docker.on_StartContainer d _); simpl; [by intros [= <-]|].
    destruct (docker.on_Attach d _); simpl; [by intros [= <-]|done].
  - unfold createContainer.wait, createContainer.del.
    destruct (createContainer.cw c); simpl; [|by intros [= <- <-]].
    destruct (docker.on_cw_Wait d); simpl; [by intros [= <- <-]|].
    destruct (docker.on_WaitContainer d _); simpl; [|by intros [= <- <-]].
    destruct (docker.on_RemoveContainer d _ _); simpl; [by intros [= <- <-]|done].
Qed.

(** What the daemon is asked to create for a command made by [Command]:
    the image, the user and the environment of the configuration, the
    executable followed by the arguments as entry point and no command, the
    three streams attached with [OpenStdin] and [StdinOnce], the DNS settings
    of the configuration, and its mounts translated, those on a resolv.conf
    left out. [Start] asks for this first, and then at most for the start
    and the attachment (and for the inspection that is only logged). *)
Theorem docker_Start_creates (d : docker.Client) (config : Config)
    (g : GenericCmd Docker createContainer.t) (w : World) :
  Command (docker_client d) config = Return (DockerCmd g) ->
  exists tl,
    createContainer.requests (Method (fst (after (Start (g, w))))) =
      docker.CreateContainer
        (docker.mkCreateContainerOptions
           (docker.mkConfig (CC_Image (ContainerConfig_ config))
              (CC_User (ContainerConfig_ config))
              (CC_Env (ContainerConfig_ config)) "" []
              (Executable (TaskConfig_ config) :: TC_Args (TaskConfig_ config))
              true true true true true)
           (docker.mkHostConfig (NC_DNS (NetworkConfig_ config))
              (NC_DNSSearch (NetworkConfig_ config))
              (NC_DNSOptions (NetworkConfig_ config))
              (map (convertMount docker_HostMount)
                 (List.filter
                    (fun m => negb (strings_Contains (Destination m) "resolv.conf"))
                    (CC_Mounts (ContainerConfig_ config))))))
      :: tl /\
    (tl = [] \/ exists id, tl = [docker.StartContainer id] \/
       tl = [docker.StartContainer id; docker.AttachToContainerNonBlocking id]).
Proof.
  intros [= <-]. unfold after. rewrite Start_phases.
  unfold getDockerExecution. rewrite filterMounts_docker_filter.
  unfold convertMounts, forward, new_Command. simpl. unfold launch. simpl.
  unfold createContainer.create. simpl.
  destruct (docker.on_CreateContainer d _) as [id|e]; simpl; [|eauto].
  unfold createContainer.run. simpl.
  case_decide; simpl; [eauto|].
  destruct (docker.on_StartContainer d id); simpl; [eauto 6|].
  destruct (docker.on_Attach d id); simpl; eauto 6.
Qed.

(** ** The namespaced-task strategy *)

Lemma foldl_app_flat_map {A B} (f : A -> list B) (l : list A) (acc : list B) :
  foldl (fun acc a => acc ++ f a)%list acc l = (acc ++ flat_map f l)%list.
Proof.
  revert acc. induction l as [|a l IH]; intros acc; simpl.
  - by rewrite app_nil_r.
  - by rewrite IH, <- app_assoc.
Qed.

(** The arguments given to nerdctl: the namespace, [create], the generated
    name and the user, then [-v source:destination] for each mount and
    [-e variable] for each variable of the environment, in their order, and
    the image as the last argument. *)
Theorem buildCreateContainerCmd_shape (c : Containerd) (x : createTask.t) :
  let o := createTask.opts x in
  let args := createTask.buildCreateContainerCmd c x in
  args =
    (["--namespace"; containerd.DefaultNamespace c; "create"; "--name";
      createTask.generateContainerId (containerd.entropy c) x;
      "--user"; createTask.User o] ++
     flat_map (fun m => ["-v"; (specs.Source m ++ ":" ++ specs.Destination m)%string])
              (createTask.Mounts o) ++
     flat_map (fun e => ["-e"; e]) (createTask.Env o) ++
     [createTask.Image o])%list /\
  length args
  = (8 + 2 * length (createTask.Mounts o) + 2 * length (createTask.Env o))%nat /\
  last args = Some (createTask.Image o).
Proof.
  intros o args. subst o args.
  assert (Heq : createTask.buildCreateContainerCmd c x =
    (["--namespace"; containerd.DefaultNamespace c; "create"; "--name";
      createTask.generateContainerId (containerd.entropy c) x;
      "--user"; createTask.User (createTask.opts x)] ++
     flat_map (fun m => ["-v"; (specs.Source m ++ ":" ++ specs.Destination m)%string])
              (createTask.Mounts (createTask.opts x)) ++
     flat_map (fun e => ["-e"; e]) (createTask.Env (createTask.opts x)) ++
     [createTask.Image (createTask.opts x)])%list).
  { unfold createTask.buildCreateContainerCmd.
    rewrite (foldl_app_flat_map (fun e => ["-e"; e])).
    rewrite (foldl_app_flat_map
               (fun m => ["-v"; (specs.Source m ++ ":" ++ specs.Destination m)%string])).
    by rewrite <- !app_assoc. }
  split; [exact Heq|]. rewrite Heq. split.
  - rewrite !length_app.
    rewrite (flat_map_constant_length (c := 2)) by done.
    rewrite (flat_map_constant_length (c := 2)) by done.
    simpl. lia.
  - rewrite !app_assoc. apply last_snoc.
Qed.

Ltac unfold_op :=
  unfold mbind, createTask.Op_bind, mret, createTask.Op_ret, createTask.self,
    createTask.update, createTask.ask, createTask.deref in *;
  simpl in *.

(** The steps of [create] of the namespaced-task strategy. It always
    returns and records the command. It first asks for a lease of the
    command timeout plus five minutes in the default namespace of the
    client, then for the image, then runs nerdctl, then loads the container,
    and stops at the first failure. Once the lease is granted the strategy
    holds it and its context, also when a later step fails. It returns nil
    exactly when the four steps succeed, and then the container loaded under
    the trimmed output of nerdctl is the strategy's. *)
Theorem createTask_create_steps (c : Containerd) (cmd : list string)
    (x : createTask.t) :
  let ns := containerd.DefaultNamespace c in
  let lease :=
    containerd.WithLease ns
      (wrap64 (createTask.CommandTimeout (createTask.opts x) + 5 * createTask.Minute)) in
  let image := createTask.Image (createTask.opts x) in
  let args := createTask.buildCreateContainerCmd c x in
  let r := createTask.create c cmd x in
  (exists err, fst r = Return err) /\
  createTask.cmd (snd r) = cmd /\
  createTask.opts (snd r) = createTask.opts x /\
  (exists tl id,
     createTask.requests (snd r) = (createTask.requests x ++ lease :: tl)%list /\
     tl `prefix_of` [containerd.GetImage image; containerd.nerdctl args;
                     containerd.LoadContainer id]) /\
  (forall e,
     containerd.on_WithLease c = Some e ->
     r = (Return (Some (Wrap "error creating containerd context" e)),
          createTask.log_request lease (createTask.set_cmd cmd x))) /\
  (containerd.on_WithLease c = None ->
   createTask.doneFunc (snd r) = Some createTask.delete_lease /\
   createTask.ctx (snd r) = Some (createTask.mkContext ns)) /\
  (fst r = Return None <->
   containerd.on_WithLease c = None /\ containerd.on_GetImage c image = None /\
   exists out k,
     containerd.on_nerdctl c args = inl out /\
     containerd.on_LoadContainer c (strings_TrimSpace out) = inl k /\
     createTask.container (snd r) = Some k /\
     createTask.requests (snd r) =
       (createTask.requests x ++
        [lease; containerd.GetImage image; containerd.nerdctl args;
         containerd.LoadContainer (strings_TrimSpace out)])%list).
Proof.
  intros ns lease image args r. subst ns lease image args r.
  unfold createTask.create, createTask.createContainer. unfold_op.
  destruct (containerd.on_WithLease c) as [e|] eqn:HL; simpl.
  { split; [eauto|]. split; [done|]. split; [done|].
    split; [exists [], ""; split; [done|apply prefix_nil]|].
    split; [by intros e' [= <-]|]. split; [done|].
    split; [done|]. intros (? & _); done. }
  destruct (containerd.on_GetImage c _) as [e|] eqn:HG; simpl.
  { split; [eauto|]. split; [done|]. split; [done|].
    split; [eexists [_], ""; split; [by rewrite <- app_assoc|by eexists [_; _]]|].
    split; [done|]. split; [done|].
    split; [done|]. intros (_ & ? & _); done. }
  change (createTask.buildCreateContainerCmd c _)
    with (createTask.buildCreateContainerCmd c x).
  destruct (containerd.on_nerdctl c _) as [out|e] eqn:HN; simpl.
  2:{ split; [eauto|]. split; [done|]. split; [done|].
      split; [eexists [_; _], ""; split; [by rewrite <- !app_assoc|by eexists [_]]|].
      split; [done|]. split; [done|].
      split; [done|]. intros (_ & _ & out & k & ? & _); done. }
  destruct (containerd.on_LoadContainer c _) as [k|e] eqn:HLd; simpl.
  - split; [eauto|]. split; [done|]. split; [done|].
    split; [eexists [_; _; _], _; split; [by rewrite <- !app_assoc|reflexivity]|].
    split; [done|]. split; [done|].
    split; [intros _|done]. split; [done|]. split; [done|].
    exists out, k. repeat split; try done. by rewrite <- !app_assoc.
  - split; [eauto|]. split; [done|]. split; [done|].
    split; [eexists [_; _; _], _; split; [by rewrite <- !app_assoc|reflexivity]|].
    split; [done|]. split; [done|].
    split; [done|]. intros (_ & _ & out' & k & [= <-] & Hk & _). congruence.
Qed.

(** The steps of [run] of the namespaced-task strategy. Without a
    container it panics. With one it returns, and keeps the options and the
    container. The process is started only right after its exit has been
    subscribed to; a new task is made only when the container has none; the
    process is executed under the id of the container followed by [-task],
    with the command and the working directory of the strategy. When it
    returns nil the strategy holds the task, the process, the exit channel
    and the two output streams. *)
Theorem createTask_run_steps (o e : option Writer) (x : createTask.t) :
  let r := createTask.run_body o e x in
  (createTask.container x = None -> r = (Panic, x)) /\
  (forall k,
     createTask.container x = Some k ->
     (exists err, fst r = Return err) /\
     createTask.opts (snd r) = createTask.opts x /\
     createTask.container (snd r) = Some k /\
     (exists l,
        createTask.requests (snd r) = (createTask.requests x ++ l)%list /\
        (In containerd.Process_Start l ->
         exists l0, l = (l0 ++ [containerd.Process_Wait; containerd.Process_Start])%list) /\
        (In containerd.Container_NewTask l ->
         exists e0, containerd.on_Task k = inr e0) /\
        (forall id spec,
           In (containerd.Task_Exec id spec) l ->
           id = containerd.ID k ++ "-task" /\
           specs.Args spec = createTask.cmd x /\
           specs.Cwd spec = createTask.WorkingDir (createTask.opts x))) /\
     (fst r = Return None ->
      exists t ps,
        createTask.task (snd r) = Some t /\
        createTask.process (snd r) = Some ps /\
        createTask.exitChan (snd r) = Some tt /\
        createTask.streams (snd r) = (o, e) /\
        containerd.on_Exec t = inl ps /\
        (containerd.on_Task k = inl t \/
         containerd.on_NewTask k = inl t /\
         exists e0, containerd.on_Task k = inr e0))).
Proof.
  intros r. subst r. split.
  { intros Hk. unfold createTask.run_body, createTask.createTask. unfold_op.
    by rewrite Hk. }
  intros k Hk.
  unfold createTask.run_body, createTask.createTask, createTask.createProcessSpec.
  unfold_op. rewrite Hk. simpl.
  assert (HNew : forall e0 : error,
            containerd.on_Task k = inr e0 -> exists e0, containerd.on_Task k = inr e0)
    by eauto.
  destruct (containerd.on_Task k) as [t|e0] eqn:HT; simpl;
    [|destruct (containerd.on_NewTask k) as [t|e1] eqn:HNT; simpl];
    rewrite ?Hk; simpl;
    try (destruct (containerd.on_Spec k) as [sp|e2] eqn:HSp; simpl;
         rewrite ?Hk; simpl;
         [destruct (containerd.on_Exec t) as [ps|e3] eqn:HEx; simpl;
          [destruct (containerd.on_Wait ps) as [e4|] eqn:HW; simpl;
           [|destruct (containerd.on_Start ps) as [e5|] eqn:HSt; simpl]|]|]);
    (split; [eauto|]); (split; [done|]); (split; [done|]);
    (split;
     [eexists; split; [rewrite <- ?app_assoc; simpl; reflexivity|];
      split; [|split];
      [ intros Hin; simpl in Hin;
        repeat (destruct Hin as [Hin|Hin]; try discriminate); try done;
        first [by eexists [_; _; _] | by eexists [_; _; _; _]]
      | intros Hin; simpl in Hin;
        repeat (destruct Hin as [Hin|Hin]; try discriminate); try done; eauto
      | intros id spec Hin; simpl in Hin;
        repeat (destruct Hin as [Hin|Hin]; try discriminate); try done;
        injection Hin as <- <-; done ]
     | intros Heq; try discriminate;
       eexists _, _; repeat split; eauto ]).
Qed.

(** ** Decimal strings: [FormatInt] and [ParseInt] *)

Lemma parse_digits_string_of_uint (d : Decimal.uint) (acc : Z) :
  parse_digits acc (NilEmpty.string_of_uint d)
  = Some (acc * 10 ^ Z.of_N (DecimalPos.Unsigned.usize d)
          + Z.of_N (DecimalPos.Unsigned.of_lu (Decimal.rev d))).
Proof.
  revert acc. induction d as [|d IH|d IH|d IH|d IH|d IH|d IH|d IH|d IH|d IH|d IH];
    intros acc;
    [simpl; f_equal; lia|..];
    cbn [NilEmpty.string_of_uint parse_digits];
    match goal with
    | |- context [digit_of ?c] =>
        let v := eval vm_compute in (digit_of c) in
        change (digit_of c) with v
    end;
    cbv iota;
    unfold Decimal.rev; cbn [Decimal.revapp];
    rewrite DecimalPos.Unsigned.of_lu_revapp;
    fold (Decimal.rev d); rewrite IH;
    cbn [DecimalPos.Unsigned.usize];
    rewrite N2Z.inj_succ, Z.pow_succ_r by lia;
    f_equal;
    rewrite N2Z.inj_add, N2Z.inj_mul, N2Z.inj_pow;
    change (Z.of_N 10) with 10;
    match goal with
    | |- context [Z.of_N (DecimalPos.Unsigned.of_lu (?D Decimal.Nil))] =>
        let v := eval vm_compute in (Z.of_N (DecimalPos.Unsigned.of_lu (D Decimal.Nil))) in
        change (Z.of_N (DecimalPos.Unsigned.of_lu (D Decimal.Nil))) with v
    end;
    ring.
Qed.

Lemma string_of_uint_no_sign (d : Decimal.uint) :
  d <> Decimal.Nil ->
  exists c s, NilEmpty.string_of_uint d = String c s /\
    c <> "-"%char /\ c <> "+"%char.
Proof.
  destruct d; intros Hd; [done|..]; simpl; eexists _, _; repeat split; done.
Qed.

Lemma NilZero_string_of_uint_nonnil (d : Decimal.uint) :
  d <> Decimal.Nil -> NilZero.string_of_uint d = NilEmpty.string_of_uint d.
Proof. by destruct d. Qed.

Lemma strconv_ParseInt_unsigned (c : ascii) (s : string) :
  c <> "-"%char -> c <> "+"%char ->
  strconv_ParseInt (String c s) =
    match parse_digits 0 (String c s) with
    | Some n => if ((int64_min <=? n) && (n <=? int64_max))%Z then Some n else None
    | None => None
    end.
Proof.
  intros Hm Hp. unfold strconv_ParseInt.
  destruct c as [[] [] [] [] [] [] [] []]; try done.
Qed.

Lemma strconv_ParseInt_negative (s : string) :
  s <> "" ->
  strconv_ParseInt (String "-" s) =
    match parse_digits 0 s with
    | Some n => if ((int64_min <=? - n) && (- n <=? int64_max))%Z then Some (- n) else None
    | None => None
    end.
Proof. intros Hs. unfold strconv_ParseInt. by destruct s. Qed.

(** [ParseInt] reads back what [FormatInt] writes. *)
Lemma strconv_ParseInt_fmt_d (v : Z) :
  int64_min <= v <= int64_max -> strconv_ParseInt (fmt_d v) = Some v.
Proof.
  intros Hv. unfold fmt_d.
  assert (Hpos : forall p,
            parse_digits 0 (NilEmpty.string_of_uint (Pos.to_uint p)) = Some (Z.pos p)).
  { intros p. rewrite parse_digits_string_of_uint.
    rewrite <- DecimalPos.Unsigned.of_uint_alt, DecimalPos.Unsigned.of_to.
    f_equal. }
  destruct v as [|p|p]; [reflexivity|..].
  - simpl. pose proof (DecimalPos.Unsigned.to_uint_nonnil p) as Hnn.
    rewrite NilZero_string_of_uint_nonnil by done.
    destruct (string_of_uint_no_sign _ Hnn) as (c & s & Hs & Hm & Hp).
    specialize (Hpos p). rewrite Hs in *.
    rewrite strconv_ParseInt_unsigned, Hpos by done.
    destruct Hv as [Hv1 Hv2].
    apply Z.leb_le in Hv1, Hv2. by rewrite Hv1, Hv2.
  - simpl. pose proof (DecimalPos.Unsigned.to_uint_nonnil p) as Hnn.
    rewrite NilZero_string_of_uint_nonnil by done.
    destruct (string_of_uint_no_sign _ Hnn) as (c & s & Hs & Hm & Hp).
    rewrite strconv_ParseInt_negative by (by rewrite Hs).
    rewrite Hpos. destruct Hv as [Hv1 Hv2].
    apply Z.leb_le in Hv1, Hv2.
    change (- Z.pos p) with (Z.neg p). by rewrite Hv1, Hv2.
Qed.

(** The process specification of [createProcessSpec] has the command and
    the working directory of the strategy. Its user is the user of the
    options when that is a decimal 64-bit integer, cut to 32 bits; a user
    that does not parse, the empty one included, is ignored without error
    and the user of the container's specification is kept. *)
Theorem createProcessSpec_user (x : createTask.t) (k : containerd.Container)
    (sp : specs.Process) :
  createTask.container x = Some k ->
  containerd.on_Spec k = inl sp ->
  exists uid,
    createTask.createProcessSpec x =
      (Return (inl (specs.mkProcess (createTask.cmd x)
                      (createTask.WorkingDir (createTask.opts x)) uid)),
       createTask.log_request containerd.Container_Spec x) /\
    (forall n,
       int64_min <= n <= int64_max ->
       createTask.User (createTask.opts x) = fmt_d n -> uid = n mod 2 ^ 32) /\
    (strconv_ParseInt (createTask.User (createTask.opts x)) = None ->
     uid = specs.UID sp) /\
    (createTask.User (createTask.opts x) = "" -> uid = specs.UID sp).
Proof.
  intros Hk Hsp. unfold createTask.createProcessSpec. unfold_op.
  rewrite Hk. simpl. rewrite Hsp. simpl.
  eexists. split; [reflexivity|]. split; [|split].
  - intros n Hn ->. by rewrite strconv_ParseInt_fmt_d.
  - by intros ->.
  - by intros ->.
Qed.

(** ** The namespaced-task strategy: [wait] and [cleanup] *)

Lemma createTask_cleanup_returns (c : Containerd) (x : createTask.t) :
  is_Some (createTask.task x) -> is_Some (createTask.container x) ->
  exists err, fst (createTask.cleanup c x) = Return err.
Proof.
  intros [t Ht] [k Hk]. unfold createTask.cleanup, createTask.cleanup_body.
  unfold_op.
  destruct (createTask.cni x), (createTask.net x); simpl;
    rewrite ?Hk; simpl; rewrite Ht; simpl;
    destruct (containerd.on_Task_Delete t) as [e|]; simpl;
    try destruct (IsNotFound e); simpl; rewrite ?Hk; simpl;
    try destruct (containerd.on_Container_Delete k) as [e'|]; simpl;
    try destruct (IsNotFound e'); simpl; eauto.
Qed.

(** [wait] of the namespaced-task strategy on a running command, by what
    wakes it first: the exit status gives its code and its error, after the
    output has been copied; a cancelled context gives -1 and
    [context.Canceled], and copies nothing; a timer that finds the process
    stopped gives the exit status of the process and no error, and deletes
    the task. In each case [cleanup] has run before [wait] returns. *)
Theorem createTask_wait_cases (c : Containerd) (x : createTask.t) (b : Buffers) :
  running x ->
  let copied :=
    copy_streams (fst (createTask.streams x)) (snd (createTask.streams x))
                 (containerd.output c) b in
  (forall es ws,
     containerd.wakeups c = containerd.exit_received es :: ws ->
     createTask.wait c x b =
       (Return (containerd.ExitCode es, containerd.Error es),
        snd (createTask.cleanup c x), copied)) /\
  (forall ws,
     containerd.wakeups c = containerd.ctx_done :: ws ->
     createTask.wait c x b =
       (Return (-1, Some context_Canceled), snd (createTask.cleanup c x), b)) /\
  (forall st ws,
     containerd.wakeups c = containerd.timer_fired (inl st) :: ws ->
     containerd.Status_ st = containerd.Stopped ->
     createTask.wait c x b =
       (Return (containerd.ExitStatus_ st, None),
        snd (createTask.cleanup c
               (createTask.log_request containerd.Task_Delete
                  (createTask.log_request containerd.Process_Status x))),
        copied)).
Proof.
  intros ([cx Hcx] & Hd & Hk & Ht & [ps Hps] & Hch) copied. subst copied.
  unfold createTask.wait. rewrite Hcx.
  split; [|split].
  - intros es ws ->. simpl. rewrite Hch.
    destruct (createTask_cleanup_returns c x Ht Hk) as [err Hc].
    destruct (createTask.cleanup c x) as [r x']. simpl in Hc. by subst r.
  - intros ws ->. simpl.
    destruct (createTask_cleanup_returns c x Ht Hk) as [err Hc].
    destruct (createTask.cleanup c x) as [r x']. simpl in Hc. by subst r.
  - intros st ws -> Hst. simpl. rewrite Hps. destruct Ht as [t Ht].
    rewrite Hst. simpl. rewrite Ht.
    destruct (createTask_cleanup_returns c
                (createTask.log_request containerd.Task_Delete
                   (createTask.log_request containerd.Process_Status x)))
      as [err Hc]; [simpl; by rewrite Ht|exact Hk|].
    destruct (createTask.cleanup c _) as [r x']. simpl in Hc. by subst r.
Qed.

(** ** The namespaced-task strategy over a runtime that serves *)

Lemma createTask_create_ok (c : Containerd) (cmd : list string)
    (x : createTask.t) (out : string) (k : containerd.Container) :
  containerd.on_WithLease c = None ->
  containerd.on_GetImage c (createTask.Image (createTask.opts x)) = None ->
  containerd.on_nerdctl c (createTask.buildCreateContainerCmd c x) = inl out ->
  containerd.on_LoadContainer c (strings_TrimSpace out) = inl k ->
  createTask.create c cmd x =
    (Return None,
     createTask.mk (createTask.opts x)
       (Some (createTask.mkContext (containerd.DefaultNamespace c)))
       (Some createTask.delete_lease)
       (Some (createTask.Image (createTask.opts x))) (Some k)
       (createTask.task x) cmd (createTask.process x) (createTask.exitChan x)
       (createTask.net x) (createTask.cni x) (createTask.streams x)
       (createTask.requests x ++
        [containerd.WithLease (containerd.DefaultNamespace c)
           (wrap64 (createTask.CommandTimeout (createTask.opts x)
                    + 5 * createTask.Minute));
         containerd.GetImage (createTask.Image (createTask.opts x));
         containerd.nerdctl (createTask.buildCreateContainerCmd c x);
         containerd.LoadContainer (strings_TrimSpace out)])).
Proof.
  intros HL HG HN HLd.
  unfold createTask.create, createTask.createContainer. unfold_op.
  rewrite HL. simpl. rewrite HG. simpl.
  change (createTask.buildCreateContainerCmd c _)
    with (createTask.buildCreateContainerCmd c x).
  rewrite HN. simpl. rewrite HLd. simpl.
  unfold createTask.set_container, createTask.log_request. simpl.
  by rewrite <- !app_assoc.
Qed.


Lemma createTask_run_ok (o e : option Writer) (x : createTask.t)
    (k : containerd.Container) (t : containerd.Task) (ps : containerd.Process)
    (sp : specs.Process) (e0 : error) :
  createTask.container x = Some k ->
  containerd.on_Task k = inr e0 -> containerd.on_NewTask k = inl t ->
  containerd.on_Spec k = inl sp -> containerd.on_Exec t = inl ps ->
  containerd.on_Wait ps = None -> containerd.on_Start ps = None ->
  exists spec,
    specs.Args spec = createTask.cmd x /\
    specs.Cwd spec = createTask.WorkingDir (createTask.opts x) /\
    createTask.run_body o e x =
      (Return None,
       createTask.mk (createTask.opts x) (createTask.ctx x)
         (createTask.doneFunc x) (createTask.image x) (Some k) (Some t)
         (createTask.cmd x) (Some ps) (Some tt)
         (createTask.net x) (createTask.cni x) (o, e)
         (createTask.requests x ++
          [containerd.Container_Task; containerd.Container_NewTask;
           containerd.Container_Spec;
           containerd.Task_Exec (containerd.ID k ++ "-task") spec;
           containerd.Process_Wait; containerd.Process_Start])).
Proof.
  intros Hk HT HNT HSp HEx HW HSt.
  exists (specs.mkProcess (createTask.cmd x)
            (createTask.WorkingDir (createTask.opts x))
            (match strconv_ParseInt (createTask.User (createTask.opts x)) with
             | Some uid => uid mod 2 ^ 32
             | None => specs.UID sp
             end)).
  split; [reflexivity|]. split; [reflexivity|].
  destruct x as [op cx dn im ct tk cm pr ch nt cn st rq].
  cbn [createTask.container] in Hk. subst ct.
  unfold createTask.run_body, createTask.createTask, createTask.createProcessSpec.
  unfold mbind, createTask.Op_bind, mret, createTask.Op_ret, createTask.self,
    createTask.update, createTask.ask, createTask.deref.
  cbn -[strconv_ParseInt]. rewrite HT. cbn -[strconv_ParseInt].
  rewrite HNT. cbn -[strconv_ParseInt]. rewrite HSp. cbn -[strconv_ParseInt].
  rewrite HEx. cbn -[strconv_ParseInt]. rewrite HW. cbn -[strconv_ParseInt].
  rewrite HSt. cbn -[strconv_ParseInt].
  cbv [createTask.log_request createTask.set_task createTask.set_process
       createTask.set_exitChan createTask.opts createTask.ctx
       createTask.doneFunc createTask.image createTask.container
       createTask.task createTask.cmd createTask.process createTask.exitChan
       createTask.net createTask.cni createTask.streams createTask.requests].
  rewrite <- ?app_assoc. reflexivity.
Qed.

Lemma createTask_wait_ok (c : Containerd) (x : createTask.t) (b : Buffers)
    (k : containerd.Container) (t : containerd.Task)
    (es : containerd.ExitStatus) (ws : list containerd.wakeup) :
  is_Some (createTask.ctx x) ->
  createTask.doneFunc x = Some createTask.delete_lease ->
  createTask.container x = Some k -> createTask.task x = Some t ->
  createTask.exitChan x = Some tt ->
  createTask.cni x = None ->
  containerd.wakeups c = containerd.exit_received es :: ws ->
  ok_or_NotFound (containerd.on_Task_Delete t) ->
  ok_or_NotFound (containerd.on_Container_Delete k) ->
  createTask.wait c x b =
    (Return (containerd.ExitCode es, containerd.Error es),
     createTask.mk (createTask.opts x) (createTask.ctx x)
       (createTask.doneFunc x) (createTask.image x) (createTask.container x)
       (createTask.task x) (createTask.cmd x) (createTask.process x)
       (createTask.exitChan x) (createTask.net x) (createTask.cni x)
       (createTask.streams x)
       (createTask.requests x ++
        [containerd.Task_Delete; containerd.Container_Delete;
         containerd.lease_release]),
     copy_streams (fst (createTask.streams x)) (snd (createTask.streams x))
       (containerd.output c) b).
Proof.
  intros [cx Hcx] Hd Hk Ht Hch Hcni Hws HTD HCD.
  unfold createTask.wait. rewrite Hcx, Hws. simpl. rewrite Hch.
  unfold createTask.cleanup, createTask.cleanup_body. unfold_op.
  rewrite Hcni. simpl. rewrite Ht. simpl.
  assert (H1 : (if containerd.on_Task_Delete t is Some e
                then negb (IsNotFound e) else false) = false).
  { destruct (containerd.on_Task_Delete t); simpl in *; [by rewrite HTD|done]. }
  rewrite H1. simpl. rewrite Hk. simpl.
  assert (H2 : (if containerd.on_Container_Delete k is Some e
                then IsNotFound e else true) = true).
  { destruct (containerd.on_Container_Delete k); simpl in *; done. }
  rewrite H2. simpl.
  unfold createTask.release. simpl. rewrite Hd, Hcx.
  unfold createTask.log_request. simpl. rewrite Hd, Hcx, Hk, Ht, Hch, Hcni.
  by rewrite <- !app_assoc.
Qed.


(** Before [Start], [Kill] and [GetPID] leave the strategy alone, and
    [Cleanup] does not: with the namespaced-task strategy it panics on the
    missing task, with the daemon-container strategy it asks the daemon to
    stop and to remove the container with the empty id. *)
Theorem Cleanup_before_Start :
  (forall (T S : Type) (E : Execution T S) (g : GenericCmd T S) (w : World),
     started g = false ->
     Kill (g, w) = (Return None, (g, w)) /\
     GetPID (g, w) = (Return "", (g, w)) /\
     trace (snd (after (Cleanup (g, w)))) = (trace w ++ [call_cleanup])%list) /\
  (forall (c : containerd.Client) (config : Config) g (w : World),
     Command (containerd_client c) config = Return (ContainerdCmd g) ->
     fst (Cleanup (g, w)) = Panic /\
     createTask.requests (Method (fst (after (Cleanup (g, w))))) = []) /\
  (forall (d : docker.Client) (config : Config) g (w : World),
     Command (docker_client d) config = Return (DockerCmd g) ->
     exists tl,
       createContainer.requests (Method (fst (after (Cleanup (g, w)))))
       = docker.StopContainer "" 1 :: tl /\
       (tl = [] \/ tl = [docker.RemoveContainer "" false])).
Proof.
  split; [|split].
  - intros T S E g w Hst. unfold Kill, GetPID, Cleanup, after. unfold_cmd.
    rewrite Hst. repeat split.
    by destruct (cleanup (client g) (Method g)).
  - intros c config g w. unfold Command. case_decide; [done|]. intros [= <-].
    by unfold Cleanup, after.
  - intros d config g w [= <-]. unfold Cleanup, after. unfold_cmd.
    unfold createContainer.cleanup. simpl.
    destruct (docker.on_StopContainer d "") as [e|]; simpl.
    + destruct (As_NoSuchContainer e); simpl; [eauto|].
      destruct (As_ContainerNotRunning e); simpl; eauto.
    + eauto.
Qed.

(** A working directory given twice. With the namespaced-task strategy
    the directory of the configuration is in the options, and a command
    whose [Dir] is then set is refused by [Start] before anything is asked
    of the runtime, and is not marked as started; the daemon-container
    strategy is made without working directory, and the container is created
    with the [Dir] of the command. *)
Theorem SetDir_and_configured_WorkingDir :
  (forall (c : containerd.Client) (config : Config) g (w : World) (dir : string),
     Command (containerd_client c) config = Return (ContainerdCmd g) ->
     TC_WorkingDir (TaskConfig_ config) <> "" -> dir <> "" ->
     exists g',
       Start (after (SetDir dir (g, w)))
       = (Return (Some WorkingDirAlreadySet), (g', log (call_setDir dir) w)) /\
       started g' = false /\ createTask.requests (Method g') = []) /\
  (forall (d : docker.Client) (config : Config) g (w : World) (dir : string),
     Command (docker_client d) config = Return (DockerCmd g) ->
     dir <> "" ->
     exists opts tl,
       createContainer.requests
         (Method (fst (after (Start (after (SetDir dir (g, w)))))))
       = docker.CreateContainer opts :: tl /\
       docker.WorkingDir (docker.Config_ opts) = dir).
Proof.
  split.
  - intros c config g w dir. unfold Command. case_decide; [done|].
    intros [= <-] Hwd Hdir. unfold SetDir, after. unfold_cmd.
    rewrite Start_phases. unfold forward. simpl.
    rewrite decide_False by done. unfold invoke. simpl.
    unfold createTask.setDir. simpl. rewrite decide_False by done.
    eexists. split; [reflexivity|]. done.
  - intros d config g w dir [= <-] Hdir. unfold SetDir, after. unfold_cmd.
    rewrite Start_phases. unfold forward. simpl.
    rewrite decide_False by done. unfold invoke. simpl.
    unfold launch. simpl. unfold createContainer.create. simpl.
    destruct (docker.on_CreateContainer d _) as [id|e]; simpl; [|eauto].
    unfold createContainer.run. simpl.
    case_decide; simpl; [eauto|].
    destruct (docker.on_StartContainer d id); simpl; [eauto|].
    destruct (docker.on_Attach d id); simpl; eauto.
Qed.

(** The first draft of [cleanup] defers the lease function without
    looking at it: on a strategy without a lease it panics, whatever the
    deletions answer. The second draft returns on such a strategy when it
    has a task and a container, and without a network plugin it does what
    the body of the first draft does. *)
Theorem cleanup_draft1_needs_lease (c : Containerd) (x : createTask.t) :
  createTask.doneFunc x = None ->
  fst (createTask.cleanup_draft1 c x) = Panic /\
  (is_Some (createTask.task x) -> is_Some (createTask.container x) ->
   exists err, fst (createTask.cleanup c x) = Return err) /\
  (createTask.cni x = None ->
   createTask.cleanup c x = createTask.cleanup_body_draft1 x).
Proof.
  intros Hd. split; [|split].
  - unfold createTask.cleanup_draft1.
    destruct (cleanup_body_draft1_holds_lease x) as (l & _ & _ & Hd' & _).
    destruct (createTask.cleanup_body_draft1 x) as [r x']. simpl in *.
    by rewrite Hd', Hd.
  - apply createTask_cleanup_returns.
  - intros Hcni. unfold createTask.cleanup.
    assert (Hbody : createTask.cleanup_body x = createTask.cleanup_body_draft1 x).
    { unfold createTask.cleanup_body, createTask.cleanup_body_draft1. unfold_op.
      by rewrite Hcni. }
    rewrite Hbody.
    destruct (cleanup_body_draft1_holds_lease x) as (l & _ & _ & Hd' & _).
    destruct (createTask.cleanup_body_draft1 x) as [r x']. simpl in *.
    unfold createTask.release. by rewrite Hd', Hd.
Qed.

(** ** The statistics snapshot *)

Section stats_totals.
Variable time_Parse : string -> string -> option Z.
Variable time_Now : Z.

(** What one container adds to the counters. *)
Lemma count_step (k : containerd.Container) (s : Stats) :
  let s' := count_task k (count_deadline time_Parse time_Now k s) in
  Running s <= Running s' /\ Created s <= Created s' /\
  Stopped s <= Stopped s' /\ Paused s <= Paused s' /\
  Pausing s <= Pausing s' /\ Unknown s <= Unknown s' /\
  Errors s <= Errors s' /\
  status_total s <= status_total s' <= status_total s + 1 /\
  status_total s' + Errors s' >= status_total s + Errors s + 1 /\
  status_total s' + Errors s' + DeadlineExceeded s'
  <= status_total s + Errors s + DeadlineExceeded s + 2 /\
  DeadlineExceeded s <= DeadlineExceeded s'
  <= DeadlineExceeded s + (if has_deadline_label k then 1 else 0).
Proof.
  unfold count_task, count_deadline, has_deadline_label, status_total.
  destruct (containerd.on_Labels k) as [labels|e]; simpl.
  - destruct (labels !! "chains/deadline") as [dl|] eqn:Hl; simpl.
    + rewrite ?bool_decide_eq_true_2 by eauto.
      destruct (time_Parse dl time_RFC3339) as [t|]; simpl;
        [destruct (After time_Now t); simpl|];
        (destruct (containerd.on_Task k) as [tk|e]; simpl;
         [destruct (containerd.on_Status tk) as [st|e]; simpl;
          [destruct (containerd.Status_ st); simpl|]|]); lia.
    + rewrite ?bool_decide_eq_false_2 by (by intros [? ?]).
      destruct (containerd.on_Task k) as [tk|e]; simpl;
        [destruct (containerd.on_Status tk) as [st|e]; simpl;
         [destruct (containerd.Status_ st); simpl|]|]; lia.
  - destruct (containerd.on_Task k) as [tk|e']; simpl;
      [destruct (containerd.on_Status tk) as [st|e']; simpl;
       [destruct (containerd.Status_ st); simpl|]|]; lia.
Qed.

Lemma count_fold (ks : list containerd.Container) (s : Stats) :
  let s' :=
    foldl (fun stats k => count_task k (count_deadline time_Parse time_Now k stats))
          s ks in
  let n := Z.of_nat (length ks) in
  Running s <= Running s' /\ Created s <= Created s' /\
  Stopped s <= Stopped s' /\ Paused s <= Paused s' /\
  Pausing s <= Pausing s' /\ Unknown s <= Unknown s' /\
  Errors s <= Errors s' /\
  status_total s <= status_total s' <= status_total s + n /\
  status_total s' + Errors s' >= status_total s + Errors s + n /\
  status_total s' + Errors s' + DeadlineExceeded s'
  <= status_total s + Errors s + DeadlineExceeded s + 2 * n /\
  DeadlineExceeded s <= DeadlineExceeded s'
  <= DeadlineExceeded s
     + Z.of_nat (length (List.filter has_deadline_label ks)).
Proof.
  revert s. induction ks as [|k ks IH]; intros s.
  - simpl. lia.
  - cbn [foldl length List.filter].
    pose proof (count_step k s) as Hk. cbv zeta in Hk.
    pose proof (IH (count_task k (count_deadline time_Parse time_Now k s))) as Hr.
    cbv zeta in Hr. cbv zeta.
    destruct (has_deadline_label k); cbn [length]; lia.
Qed.

(** The totals of the snapshot over the containers the runtime lists. No
    counter is negative. Each container is counted under at most one task
    status, and under an error when it is under none; it adds at most two to
    the counters altogether. [DeadlineExceeded] counts only containers that
    carry a deadline label. *)
Theorem getContainerdStats_totals (c : containerd.Client)
    (ks : list containerd.Container) :
  containerd.on_Containers c ("labels." ++ quoted "wk/owner" ++ "==chains") = inl ks ->
  let s := fst (getContainerdStats time_Parse time_Now c) in
  let n := Z.of_nat (length ks) in
  snd (getContainerdStats time_Parse time_Now c) = None /\
  0 <= Running s /\ 0 <= Created s /\ 0 <= Stopped s /\ 0 <= Paused s /\
  0 <= Pausing s /\ 0 <= Unknown s /\ 0 <= Errors s /\
  0 <= DeadlineExceeded s /\
  status_total s <= n <= status_total s + Errors s /\
  status_total s + Errors s + DeadlineExceeded s <= 2 * n /\
  DeadlineExceeded s <= Z.of_nat (length (List.filter has_deadline_label ks)).
Proof.
  intros Hks s n. subst s n. unfold getContainerdStats. rewrite Hks. simpl.
  pose proof (count_fold ks Stats_zero) as H. cbv zeta in H.
  unfold status_total in *. simpl in H. split; [done|]. lia.
Qed.

End stats_totals.

(** ** The factory: the mount filter *)


(** ** Numbers and names *)

(** [abs] is the absolute value from -2^53 on, and is not negative
    there: the conversion to [float64] and back is exact on these
    arguments. *)
Theorem abs_exact (v : Z) :
  - 2 ^ 53 <= v -> abs v = Z.abs v /\ 0 <= abs v.
Proof.
  intros Hv.
  assert (H : abs v = Z.abs v).
  { destruct (Z.eq_dec v (- 2 ^ 53)) as [->|Hne]; [by vm_compute|].
    destruct (Z_lt_le_dec v 0) as [Hneg|Hpos].
    - rewrite abs_small_negative by lia. lia.
    - rewrite abs_nonnegative by lia. lia. }
  rewrite H. split; [done|]. lia.
Qed.

Lemma Contains_prefix (s sub : string) :
  String.prefix sub s = true -> strings_Contains s sub = true.
Proof. intros H. destruct s; simpl in *; by rewrite H. Qed.

Lemma Contains_app_r (t s sub : string) :
  strings_Contains s sub = true -> strings_Contains (t ++ s) sub = true.
Proof.
  intros H. induction t as [|c t IH]; [done|].
  simpl. rewrite IH. apply orb_true_r.
Qed.

Lemma fmt_d_negative (v : Z) :
  v < 0 -> exists s, fmt_d v = String "-" s.
Proof.
  intros Hv. destruct v as [|p|p]; try lia. unfold fmt_d. simpl. eauto.
Qed.

Lemma string_append_assoc (s1 s2 s3 : string) :
  (s1 ++ s2) ++ s3 = s1 ++ s2 ++ s3.
Proof.
  induction s1 as [|c s1 IH]; [done|].
  change (String c ((s1 ++ s2) ++ s3) = String c (s1 ++ s2 ++ s3)).
  by rewrite IH.
Qed.

Lemma Contains_hyphens (t s : string) :
  strings_Contains (t ++ "--" ++ s) "--" = true.
Proof. apply Contains_app_r. apply Contains_prefix. destruct s; reflexivity. Qed.

(** The first draft of the name prints the identity as it is: a negative
    field puts a double hyphen in the name. *)
Theorem generateContainerId_draft1_negative (rnd : nat -> nat) (x : createTask.t) :
  ChainExecutorId (createTask.CommandDetails_ (createTask.opts x)) < 0 \/
  ExecutorId (createTask.CommandDetails_ (createTask.opts x)) < 0 \/
  ResultId (createTask.CommandDetails_ (createTask.opts x)) < 0 ->
  strings_Contains (createTask.generateContainerId_draft1 rnd x) "--" = true.
Proof.
  unfold createTask.generateContainerId_draft1. cbv zeta.
  set (sfx := RandomString rnd randomSuffixLength).
  set (a := fmt_d (ChainExecutorId _)). set (b := fmt_d (ExecutorId _)).
  set (c := fmt_d (ResultId _)).
  intros [H|[H|H]]; apply fmt_d_negative in H as [s Hs].
  - subst a. rewrite Hs.
    exact (Contains_hyphens "chains" (s ++ "-" ++ b ++ "-" ++ c ++ "-" ++ sfx)).
  - subst b. rewrite Hs.
    replace ("chains-" ++ a ++ "-" ++ String "-" s ++ "-" ++ c ++ "-" ++ sfx)
      with (("chains-" ++ a) ++ "--" ++ (s ++ "-" ++ c ++ "-" ++ sfx))
      by (by rewrite string_append_assoc).
    apply Contains_hyphens.
  - subst c. rewrite Hs.
    replace ("chains-" ++ a ++ "-" ++ b ++ "-" ++ String "-" s ++ "-" ++ sfx)
      with (("chains-" ++ a ++ "-" ++ b) ++ "--" ++ (s ++ "-" ++ sfx))
      by (by rewrite !string_append_assoc).
    apply Contains_hyphens.
Qed.

(** ** [wait] of the namespaced-task strategy and the lease *)

Lemma createTask_eta (x : createTask.t) :
  x = createTask.mk (createTask.opts x) (createTask.ctx x)
        (createTask.doneFunc x) (createTask.image x) (createTask.container x)
        (createTask.task x) (createTask.cmd x) (createTask.process x)
        (createTask.exitChan x) (createTask.net x) (createTask.cni x)
        (createTask.streams x) (createTask.requests x ++ []).
Proof. rewrite app_nil_r. by destruct x. Qed.

(** The loop of [wait] only adds requests, and never a release of the
    lease. *)
Lemma wait_loop_frame (out : list chunk) (ws : list containerd.wakeup)
    (x x' : createTask.t) (b b' : Buffers) r :
  createTask.wait_loop out ws x b = (r, x', b') ->
  exists l,
    x' = createTask.mk (createTask.opts x) (createTask.ctx x)
           (createTask.doneFunc x) (createTask.image x) (createTask.container x)
           (createTask.task x) (createTask.cmd x) (createTask.process x)
           (createTask.exitChan x) (createTask.net x) (createTask.cni x)
           (createTask.streams x) (createTask.requests x ++ l) /\
    ~ In containerd.lease_release l.
Proof.
  revert x b. induction ws as [|wk ws IH]; intros x b Hl.
  - simpl in Hl. injection Hl as <- <- <-. exists [].
    split; [apply createTask_eta|by intros []].
  - destruct wk as [es|st|]; simpl in Hl.
    + destruct (createTask.exitChan x) eqn:Hch in Hl.
      * injection Hl as <- <- <-. exists [].
        split; [apply createTask_eta|by intros []].
      * by apply IH in Hl.
    + destruct (createTask.process x) eqn:Hps in Hl.
      2:{ injection Hl as <- <- <-. exists [].
          split; [apply createTask_eta|by intros []]. }
      assert (Hgo : createTask.wait_loop out ws
                      (createTask.log_request containerd.Process_Status x) b
                    = (r, x', b') ->
        exists l,
          x' = createTask.mk (createTask.opts x) (createTask.ctx x)
                 (createTask.doneFunc x) (createTask.image x)
                 (createTask.container x) (createTask.task x) (createTask.cmd x)
                 (createTask.process x) (createTask.exitChan x) (createTask.net x)
                 (createTask.cni x) (createTask.streams x)
                 (createTask.requests x ++ l) /\
          ~ In containerd.lease_release l).
      { intros Hl'. apply IH in Hl' as (l & -> & Hl').
        exists (containerd.Process_Status :: l). simpl.
        rewrite <- app_assoc. split; [done|]. intros [|]; done. }
      destruct st as [status|e]; [|by apply Hgo].
      destruct (containerd.Status_ status); try by apply Hgo.
      simpl in Hl. destruct (createTask.task x) eqn:Ht in Hl.
      * injection Hl as <- <- <-.
        exists [containerd.Process_Status; containerd.Task_Delete].
        unfold createTask.log_request. simpl. rewrite <- app_assoc.
        split; [done|]. intros [|[|[]]]; done.
      * injection Hl as <- <- <-. exists [containerd.Process_Status].
        unfold createTask.log_request. simpl.
        split; [done|]. intros [|[]]; done.
    + injection Hl as <- <- <-. exists [].
      split; [apply createTask_eta|by intros []].
Qed.

(** Whenever [wait] of the namespaced-task strategy comes back, by a
    return or by a panic, a lease that was held has been released, once, as
    the last thing asked of the runtime. *)
Theorem createTask_wait_releases_lease (c : Containerd) (x : createTask.t)
    (b : Buffers) (d : createTask.done_func) (cx : createTask.Context) :
  createTask.doneFunc x = Some d -> createTask.ctx x = Some cx ->
  fst (fst (createTask.wait c x b)) <> Blocked ->
  exists l,
    createTask.requests (snd (fst (createTask.wait c x b)))
    = (createTask.requests x ++ l ++ [containerd.lease_release])%list /\
    ~ In containerd.lease_release l.
Proof.
  intros Hd Hcx. unfold createTask.wait. rewrite Hcx.
  destruct (createTask.wait_loop _ _ x b) as [[r x1] b1] eqn:Hl.
  destruct (wait_loop_frame _ _ _ _ _ _ _ Hl) as (l1 & Hx1 & Hl1).
  assert (Hd1 : createTask.doneFunc x1 = Some d) by (by rewrite Hx1).
  assert (Hc1 : createTask.ctx x1 = Some cx) by (by rewrite Hx1).
  assert (Hr1 : createTask.requests x1 = (createTask.requests x ++ l1)%list)
    by (by rewrite Hx1).
  assert (Hclean : exists l2,
    createTask.requests (snd (createTask.cleanup c x1))
    = (createTask.requests x1 ++ l2 ++ [containerd.lease_release])%list /\
    ~ In containerd.lease_release l2).
  { unfold createTask.cleanup.
    destruct (cleanup_body_holds_lease x1) as (l2 & Hr2 & Hl2 & Hd2 & Hc2).
    destruct (createTask.cleanup_body x1) as [r2 x2]. simpl in *.
    exists l2. split; [|done].
    unfold createTask.release. rewrite Hd2, Hd1, Hc2, Hc1.
    destruct d. simpl. by rewrite Hr2, <- app_assoc. }
  destruct Hclean as (l2 & Hr2 & Hl2).
  destruct r as [a| |]; simpl; [| |done]; intros _;
    destruct (createTask.cleanup c x1) as [[a'| |] x2]; simpl in *;
    exists (l1 ++ l2)%list; rewrite Hr2, Hr1, <- !app_assoc;
    (split; [done|]); intros [?|?]%in_app_or; done.
Qed.

(** ** After a [Start] that failed in [create] *)

Lemma createTask_cleanup_panics (c : Containerd) (x : createTask.t) :
  createTask.task x = None -> fst (createTask.cleanup c x) = Panic.
Proof.
  intros Ht. unfold createTask.cleanup, createTask.cleanup_body. unfold_op.
  destruct (createTask.cni x), (createTask.net x); simpl;
    try destruct (createTask.container x); simpl; by rewrite ?Ht.
Qed.

Lemma createTask_wait_needs_task (c : Containerd) (x : createTask.t) (b : Buffers) :
  createTask.task x = None ->
  fst (fst (createTask.wait c x b)) = Panic \/
  fst (fst (createTask.wait c x b)) = Blocked.
Proof.
  intros Ht. unfold createTask.wait.
  destruct (createTask.ctx x) as [cx|].
  - destruct (createTask.wait_loop _ _ x b) as [[r x1] b1] eqn:Hl.
    destruct (wait_loop_frame _ _ _ _ _ _ _ Hl) as (l1 & Hx1 & _).
    assert (Ht1 : createTask.task x1 = None) by (by rewrite Hx1).
    pose proof (createTask_cleanup_panics c x1 Ht1) as Hp.
    destruct (createTask.cleanup c x1) as [r2 x2]. simpl in Hp. subst r2.
    destruct r; simpl; eauto.
  - pose proof (createTask_cleanup_panics c x Ht) as Hp.
    destruct (createTask.cleanup c x) as [r2 x2]. simpl in Hp. subst r2.
    by left.
Qed.

Lemma createTask_create_failed (c : Containerd) (cmd : list string)
    (x : createTask.t) (e : error) :
  fst (createTask.create c cmd x) = Return (Some e) ->
  createTask.container (snd (createTask.create c cmd x)) = createTask.container x /\
  createTask.task (snd (createTask.create c cmd x)) = createTask.task x.
Proof.
  unfold createTask.create, createTask.createContainer. unfold_op.
  destruct (containerd.on_WithLease c); simpl; [done|].
  destruct (containerd.on_GetImage c _); simpl; [done|].
  destruct (containerd.on_nerdctl c _); simpl; [|done].
  destruct (containerd.on_LoadContainer c _); simpl; done.
Qed.

(** What is left of a command whose [Start] failed in [create]. The flag
    is raised all the same. Over the daemon, [Wait] answers that the
    container is not attached, after asking to remove the container with the
    empty id, and [GetPID] gives the empty id. Over containerd there is no
    container and no task: [GetPID], [Kill] and [Cleanup] panic, and [Wait]
    panics or never returns. *)
Theorem after_failed_create :
  (forall (d : docker.Client) (config : Config) g (w : World) (e : error),
     Command (docker_client d) config = Return (DockerCmd g) ->
     (forall o, docker.on_CreateContainer d o = inr e) ->
     fst (Start (g, w))
     = Return (Some (Errorf_v "dexec: failed to create container: %v" e)) /\
     started (fst (after (Start (g, w)))) = true /\
     fst (Wait (after (Start (g, w))))
     = Return (Some (errors_New "dexec: container is not attached")) /\
     (exists o,
        createContainer.requests (Method (fst (after (Wait (after (Start (g, w)))))))
        = [docker.CreateContainer o; docker.RemoveContainer "" true]) /\
     fst (GetPID (after (Start (g, w)))) = Return "") /\
  (forall (c : containerd.Client) (config : Config) g (w : World) (e : error),
     Command (containerd_client c) config = Return (ContainerdCmd g) ->
     fst (createTask.create c
            (Executable (TaskConfig_ config) :: TC_Args (TaskConfig_ config))
            (getContainerdExecution config)) = Return (Some e) ->
     fst (Start (g, w)) = Return (Some e) /\
     started (fst (after (Start (g, w)))) = true /\
     fst (GetPID (after (Start (g, w)))) = Panic /\
     fst (Kill (after (Start (g, w)))) = Panic /\
     fst (Cleanup (after (Start (g, w)))) = Panic /\
     (fst (Wait (after (Start (g, w)))) = Panic \/
      fst (Wait (after (Start (g, w)))) = Blocked)).
Proof.
  split.
  - intros d config g w e [= <-] Hc. unfold after. rewrite Start_phases.
    unfold forward, new_Command. simpl. unfold launch. simpl.
    unfold createContainer.create. simpl. rewrite Hc. simpl.
    repeat split; eauto.
  - intros c config g w e. unfold Command. case_decide; [done|].
    intros [= <-] Hc. unfold after. rewrite Start_phases.
    unfold forward, new_Command. simpl. unfold launch. simpl.
    destruct (createTask_create_failed _ _ _ _ Hc) as [Hk Ht].
    destruct (createTask.create c _ (getContainerdExecution config))
      as [r x1] eqn:Hcr.
    simpl in Hc, Hk, Ht. subst r. simpl.
    split; [done|]. split; [done|].
    unfold GetPID, Kill, Cleanup, Wait. unfold_cmd.
    unfold createTask.getID. unfold_op. rewrite Hk. simpl.
    pose proof (createTask_cleanup_panics c x1 Ht) as Hp.
    unfold createTask.kill.
    destruct (createTask.cleanup c x1) as [r2 x2]. simpl in Hp. subst r2. simpl.
    split; [done|]. split; [done|]. split; [done|].
    destruct (createTask_wait_needs_task c x1 (bufs w) Ht) as [Hw|Hw];
      destruct (createTask.wait c x1 (bufs w)) as [[r3 x3] b3];
      simpl in Hw; subst r3; simpl; eauto.
Qed.


(** ** The properties at concrete commands *)

Lemma create_called_at_most_once_witness :
  started (fst piped_fresh) = false /\
  creates (trace (snd piped_fresh)) = 0%nat /\
  (creates (trace (snd (perform_all (piped_history ++ [do_Wait; do_Start; do_Run])
                          piped_fresh))) <= 1)%nat.
Proof.
  assert (H1 : started (fst piped_fresh) = false) by reflexivity.
  assert (H2 : creates (trace (snd piped_fresh)) = 0%nat) by reflexivity.
  split; [exact H1|]. split; [exact H2|].
  exact (proj1 (create_called_at_most_once
                  (piped_history ++ [do_Wait; do_Start; do_Run]) piped_fresh H1 H2)).
Defined.

Lemma pipes_refused_after_Start_witness :
  started Cmd_in_work = false /\
  Start (Cmd_in_work, World_init) = (Return None, Cmd_in_work_started) /\
  started (fst Cmd_in_work_started) = true /\
  StdoutPipe Cmd_in_work_started
  = (Return (None, Some (errors_New "dexec: Stdout already set")),
     Cmd_in_work_started).
Proof.
  assert (H1 : started Cmd_in_work = false) by reflexivity.
  assert (H2 : Start (Cmd_in_work, World_init) = (Return None, Cmd_in_work_started))
    by (vm_compute; reflexivity).
  assert (H3 : started (fst Cmd_in_work_started) = true) by reflexivity.
  split; [exact H1|]. split; [exact H2|]. split; [exact H3|].
  exact (proj1 (proj2 (pipes_refused_after_Start Cmd_in_work
                         (fst Cmd_in_work_started) World_init
                         (snd Cmd_in_work_started) (Return None) H1 H2 H3))).
Defined.

Lemma Run_stops_at_failed_Start_witness :
  Start (sample_Cmd daemon_refusing, World_init)
  = (Return (Some (Errorf_v "dexec: failed to create container: %v"
                     (errors_New "no such image"))),
     refused_started) /\
  Run (sample_Cmd daemon_refusing, World_init)
  = (Return (Some (Errorf_v "dexec: failed to create container: %v"
                     (errors_New "no such image"))),
     refused_started).
Proof.
  assert (HS : Start (sample_Cmd daemon_refusing, World_init)
               = (Return (Some (Errorf_v "dexec: failed to create container: %v"
                                  (errors_New "no such image"))),
                  refused_started)) by (vm_compute; reflexivity).
  split; [exact HS|].
  exact (proj1 (Run_stops_at_failed_Start (sample_Cmd daemon_refusing)
                  (fst refused_started) World_init (snd refused_started) _ HS)).
Defined.

Lemma daemon_boom_serves : serves daemon_boom "c0ffee" 1.
Proof. repeat split; done. Defined.

Lemma docker_Output_end_to_end_witness :
  Command (docker_client daemon_boom) sample_Config
  = Return (DockerCmd (sample_Cmd daemon_boom)) /\
  serves daemon_boom "c0ffee" 1 /\
  fst (Output (sample_Cmd daemon_boom, World_init))
  = Return (bytes_of "partial", Some (ExitError 1 (bytes_of "boom"))).
Proof.
  assert (H1 : Command (docker_client daemon_boom) sample_Config
               = Return (DockerCmd (sample_Cmd daemon_boom))) by reflexivity.
  split; [exact H1|]. split; [exact daemon_boom_serves|].
  destruct (docker_Output_end_to_end daemon_boom sample_Config
              (sample_Cmd daemon_boom) World_init "c0ffee" 1 H1 daemon_boom_serves)
    as (g' & w' & opt' & HO & _).
  rewrite HO. reflexivity.
Defined.

Lemma docker_CombinedOutput_end_to_end_witness :
  Command (docker_client daemon_boom) sample_Config
  = Return (DockerCmd (sample_Cmd daemon_boom)) /\
  serves daemon_boom "c0ffee" 1 /\
  fst (CombinedOutput (sample_Cmd daemon_boom, World_init))
  = Return (bytes_of "partialboom", Some (ExitError 1 [])).
Proof.
  assert (H1 : Command (docker_client daemon_boom) sample_Config
               = Return (DockerCmd (sample_Cmd daemon_boom))) by reflexivity.
  split; [exact H1|]. split; [exact daemon_boom_serves|].
  destruct (docker_CombinedOutput_end_to_end daemon_boom sample_Config
              (sample_Cmd daemon_boom) World_init "c0ffee" 1 H1 daemon_boom_serves)
    as (g' & w' & HO & _).
  rewrite HO. reflexivity.
Defined.

Lemma createContainer_errors_opaque_witness :
  fst (createContainer.create daemon_refusing ["sh"]
         (getDockerExecution sample_Config))
  = Return (Some (Errorf_v "dexec: failed to create container: %v"
                    (errors_New "no such image"))) /\
  IsNotFound (Errorf_v "dexec: failed to create container: %v"
                (errors_New "no such image")) = false.
Proof.
  assert (H1 : fst (createContainer.create daemon_refusing ["sh"]
                      (getDockerExecution sample_Config))
               = Return (Some (Errorf_v "dexec: failed to create container: %v"
                                 (errors_New "no such image")))) by reflexivity.
  split; [exact H1|].
  exact (proj1 (proj2 (proj2
           (createContainer_errors_opaque daemon_refusing
              (getDockerExecution sample_Config) ["sh"] None None None ∅ _
              (or_introl H1))))).
Defined.

Lemma docker_Start_creates_witness :
  Command (docker_client daemon_boom) sample_Config
  = Return (DockerCmd (sample_Cmd daemon_boom)) /\
  exists tl,
    createContainer.requests
      (Method (fst (after (Start (sample_Cmd daemon_boom, World_init))))) =
      docker.CreateContainer
        (docker.mkCreateContainerOptions
           (docker.mkConfig "alpine" "" [] "" [] ["sh"; "-c"; "exit 1"]
              true true true true true)
           (docker.mkHostConfig [] [] [] []))
      :: tl.
Proof.
  assert (H1 : Command (docker_client daemon_boom) sample_Config
               = Return (DockerCmd (sample_Cmd daemon_boom))) by reflexivity.
  split; [exact H1|].
  destruct (docker_Start_creates daemon_boom sample_Config
              (sample_Cmd daemon_boom) World_init H1) as (tl & Htl & _).
  exists tl. exact Htl.
Defined.

Lemma createProcessSpec_user_witness :
  createTask.container spec_test_createTask = Some (mock_Container None) /\
  containerd.on_Spec (mock_Container None) = inl (specs.mkProcess [] "" 0) /\
  createTask.createProcessSpec spec_test_createTask
  = (Return (inl (specs.mkProcess ["java"; "-jar"; "data-prep-cli.jar"]
                    "/go/src" 61000)),
     createTask.log_request containerd.Container_Spec spec_test_createTask).
Proof.
  assert (H1 : createTask.container spec_test_createTask
               = Some (mock_Container None)) by reflexivity.
  assert (H2 : containerd.on_Spec (mock_Container None)
               = inl (specs.mkProcess [] "" 0)) by reflexivity.
  split; [exact H1|]. split; [exact H2|].
  destruct (createProcessSpec_user spec_test_createTask (mock_Container None)
              (specs.mkProcess [] "" 0) H1 H2) as (uid & Heq & Huid & _).
  rewrite Heq.
  rewrite (Huid 61000 ltac:(by vm_compute) eq_refl). reflexivity.
Defined.

Lemma sample_running_running : running sample_running.
Proof. repeat split; by eexists. Defined.

Lemma Start_calls_in_order_witness :
  Start (Cmd_in_work, World_init) = (Return None, Cmd_in_work_started) /\
  trace (snd Cmd_in_work_started)
  = [call_setDir "/work"; call_create ["sh"; "-c"; "exit 1"];
     call_run (Some emptyReader) (Some ioutil_Discard) (Some ioutil_Discard)].
Proof.
  assert (HS : Start (Cmd_in_work, World_init) = (Return None, Cmd_in_work_started))
    by (vm_compute; reflexivity).
  split; [exact HS|].
  exact (proj1 (proj2 (Start_calls_in_order Cmd_in_work (fst Cmd_in_work_started)
                         World_init (snd Cmd_in_work_started) (Return None) HS)
                  eq_refl)).
Defined.

Lemma createTask_wait_cases_witness :
  running sample_running /\
  createTask.wait runtime_cancelling sample_running ∅
  = (Return (-1, Some context_Canceled),
     snd (createTask.cleanup runtime_cancelling sample_running), ∅).
Proof.
  split; [exact sample_running_running|].
  exact (proj1 (proj2 (createTask_wait_cases runtime_cancelling sample_running ∅
                         sample_running_running)) [] eq_refl).
Defined.

Lemma runtime_exiting_serves :
  runtime_serves runtime_exiting served_Container (mock_Task None) mock_Process
    (containerd.mkExitStatus 3 None).
Proof.
  split; [done|]. split; [done|]. split; [by exists " c0ffee "|].
  split; [by eexists|]. split; [done|]. split; [by eexists|].
  split; [done|]. split; [done|]. split; [done|]. split; [by eexists|].
  split; done.
Defined.


Lemma cleanup_draft1_needs_lease_witness :
  createTask.doneFunc (mock_createTask None None None) = None /\
  fst (createTask.cleanup_draft1 mock_Containerd (mock_createTask None None None))
  = Panic.
Proof.
  assert (H1 : createTask.doneFunc (mock_createTask None None None) = None)
    by reflexivity.
  split; [exact H1|].
  exact (proj1 (cleanup_draft1_needs_lease mock_Containerd
                  (mock_createTask None None None) H1)).
Defined.

Lemma getContainerdStats_totals_witness :
  containerd.on_Containers stats_Containerd
    ("labels." ++ quoted "wk/owner" ++ "==chains")
  = inl [labelled_Container "2020-01-01T00:00:00Z"; mock_Container None] /\
  snd (getContainerdStats sample_Parse 0 stats_Containerd) = None /\
  DeadlineExceeded (fst (getContainerdStats sample_Parse 0 stats_Containerd)) <= 1.
Proof.
  assert (H1 : containerd.on_Containers stats_Containerd
                 ("labels." ++ quoted "wk/owner" ++ "==chains")
               = inl [labelled_Container "2020-01-01T00:00:00Z"; mock_Container None])
    by reflexivity.
  split; [exact H1|].
  pose proof (getContainerdStats_totals sample_Parse 0 stats_Containerd _ H1) as H.
  cbv zeta in H.
  split; [exact (proj1 H)|].
  exact (proj2 (proj2 (proj2 (proj2 (proj2 (proj2 (proj2 (proj2 (proj2
           (proj2 (proj2 H))))))))))).
Defined.

Lemma abs_exact_witness : - 2 ^ 53 <= -1 /\ abs (-1) = 1 /\ 0 <= abs (-1).
Proof.
  assert (H1 : - 2 ^ 53 <= -1) by (vm_compute; discriminate).
  split; [exact H1|]. exact (abs_exact (-1) H1).
Defined.

Lemma generateContainerId_pattern_witness :
  - 2 ^ 53 < -1 /\ - 2 ^ 53 < 2 /\ - 2 ^ 53 < 3 /\
  matches_container_name
    (createTask.generateContainerId (fun i => (7 * i)%nat) (task_for (-1) 2 3))
  = true.
Proof.
  assert (H1 : - 2 ^ 53 < -1) by reflexivity.
  assert (H2 : - 2 ^ 53 < 2) by reflexivity.
  assert (H3 : - 2 ^ 53 < 3) by reflexivity.
  split; [exact H1|]. split; [exact H2|]. split; [exact H3|].
  exact (proj1 (proj2 (generateContainerId_pattern (fun i => (7 * i)%nat)
                         (task_for (-1) 2 3) H1 H2 H3))).
Defined.

Lemma generateContainerId_draft1_negative_witness :
  -1 < 0 /\
  strings_Contains
    (createTask.generateContainerId_draft1 (fun i => (7 * i)%nat)
       (task_for (-1) 2 3)) "--" = true.
Proof.
  assert (H1 : -1 < 0) by reflexivity.
  split; [exact H1|].
  exact (generateContainerId_draft1_negative (fun i => (7 * i)%nat)
           (task_for (-1) 2 3) (or_introl H1)).
Defined.

Lemma createTask_wait_releases_lease_witness :
  createTask.doneFunc sample_running = Some createTask.delete_lease /\
  createTask.ctx sample_running = Some (createTask.mkContext "unit-test") /\
  fst (fst (createTask.wait runtime_cancelling sample_running ∅)) <> Blocked /\
  exists l,
    createTask.requests (snd (fst (createTask.wait runtime_cancelling
                                     sample_running ∅)))
    = (createTask.requests sample_running ++ l ++ [containerd.lease_release])%list /\
    ~ In containerd.lease_release l.
Proof.
  assert (H1 : createTask.doneFunc sample_running = Some createTask.delete_lease)
    by reflexivity.
  assert (H2 : createTask.ctx sample_running
               = Some (createTask.mkContext "unit-test")) by reflexivity.
  assert (H3 : fst (fst (createTask.wait runtime_cancelling sample_running ∅))
               <> Blocked) by (vm_compute; discriminate).
  split; [exact H1|]. split; [exact H2|]. split; [exact H3|].
  exact (createTask_wait_releases_lease runtime_cancelling sample_running ∅
           _ _ H1 H2 H3).
Defined.
